(** * TPVToggle: the safe memory-patch executor, the key polling loop and the
      initialization / unwind sequence, embedded from
      [src/TPVToggle/src/toggle_thread.cpp] and [src/TPVToggle/src/dllmain.cpp].

    The C++ code is stateful and talks to the operating system.  It is
    embedded as a state-and-exception monad over one [Machine] record that
    holds the program's globals, the memory it touches, the answers of the
    operating system (the environment, [Env]) and the chronicle of every
    external effect the code performs ([trace], newest event first).  A
    computation returns, throws a C++ exception, or ends the process with an
    access violation, which no handler of the program sees. *)

From Stdlib Require Import ZArith Lia String.
From stdpp Require Import base option list gmap.

Local Open Scope Z_scope.

(** ** Constants *)

(** Values of [winnt.h] used by the code. *)
Module Win.
Definition PAGE_READWRITE : Z := 0x04.
Definition PAGE_WRITECOPY : Z := 0x08.
Definition PAGE_EXECUTE_READWRITE : Z := 0x40.
Definition PAGE_EXECUTE_WRITECOPY : Z := 0x80.
Definition MEM_COMMIT : Z := 0x1000.
(** [uintptr_t] arithmetic on the 64-bit target. *)
Definition wrap64 (z : Z) : Z := z mod 2 ^ 64.
End Win.

(** [constants.h] *)
Module Constants.
Definition HOOK_OFFSET : Z := 11.
Definition TOGGLE_FLAG_OFFSET : Z := 0x38.
End Constants.

(** [logger.h] *)
Inductive LogLevel := LOG_DEBUG | LOG_INFO | LOG_WARNING | LOG_ERROR.

(** [MinHook.h] status codes. *)
Inductive MH_STATUS :=
| MH_UNKNOWN | MH_OK | MH_ERROR_ALREADY_INITIALIZED | MH_ERROR_NOT_INITIALIZED
| MH_ERROR_ALREADY_CREATED | MH_ERROR_NOT_CREATED | MH_ERROR_ENABLED
| MH_ERROR_DISABLED | MH_ERROR_NOT_EXECUTABLE | MH_ERROR_UNSUPPORTED_FUNCTION
| MH_ERROR_MEMORY_ALLOC | MH_ERROR_MEMORY_PROTECT | MH_ERROR_MODULE_NOT_FOUND
| MH_ERROR_FUNCTION_NOT_FOUND.

(** [mh_stat == MH_OK || mh_stat == MH_ERROR_DISABLED] and the like. *)
Definition mh_status_eqb (s t : MH_STATUS) : bool :=
  match s, t with
  | MH_UNKNOWN, MH_UNKNOWN | MH_OK, MH_OK
  | MH_ERROR_ALREADY_INITIALIZED, MH_ERROR_ALREADY_INITIALIZED
  | MH_ERROR_NOT_INITIALIZED, MH_ERROR_NOT_INITIALIZED
  | MH_ERROR_ALREADY_CREATED, MH_ERROR_ALREADY_CREATED
  | MH_ERROR_NOT_CREATED, MH_ERROR_NOT_CREATED
  | MH_ERROR_ENABLED, MH_ERROR_ENABLED
  | MH_ERROR_DISABLED, MH_ERROR_DISABLED
  | MH_ERROR_NOT_EXECUTABLE, MH_ERROR_NOT_EXECUTABLE
  | MH_ERROR_UNSUPPORTED_FUNCTION, MH_ERROR_UNSUPPORTED_FUNCTION
  | MH_ERROR_MEMORY_ALLOC, MH_ERROR_MEMORY_ALLOC
  | MH_ERROR_MEMORY_PROTECT, MH_ERROR_MEMORY_PROTECT
  | MH_ERROR_MODULE_NOT_FOUND, MH_ERROR_MODULE_NOT_FOUND
  | MH_ERROR_FUNCTION_NOT_FOUND, MH_ERROR_FUNCTION_NOT_FOUND => true
  | _, _ => false
  end.

(** The entry points of the hooking facility the code calls. *)
Inductive MHCall :=
| MH_Initialize_call
| MH_CreateHook_call (target : Z)
| MH_EnableHook_call (target : Z)
| MH_DisableHook_call (target : Z)
| MH_RemoveHook_call (target : Z)
| MH_Uninitialize_call.

(** The three actions a key can be bound to. *)
Inductive ActionKind := ActToggle | ActFirstPerson | ActThirdPerson.

(** ** Events: every effect on the outside world *)

Inductive Event :=
| EvLog (level : LogLevel) (message : string)
| EvLoadCell (p v : Z)            (* read of [*g_r9_for_tpv_flag] *)
| EvStoreCell (p v : Z)           (* write of [*g_r9_for_tpv_flag] *)
| EvVirtualQuery (addr : Z)
| EvIsBadReadPtr (addr : Z)
| EvReadByte (addr v : Z)         (* [*flag_addr] read, value obtained *)
| EvWriteByte (addr v : Z)        (* [*flag_addr = v] *)
| EvFault (addr : Z)              (* access violation at [addr] *)
| EvGetAsyncKeyState (vk : Z)
| EvSleep (ms : Z)
| EvVirtualAlloc (p : Z)
| EvVirtualFree (p : Z)
| EvMinHook (call : MHCall) (status : MH_STATUS)
| EvGetModuleHandle (found : Z)
| EvGetModuleInformation (ok : bool)
| EvCreateThread (started : bool).

Arguments EvLog _ _%_string.

(** ** The environment and the machine *)

(** [MEMORY_BASIC_INFORMATION], the two fields the code inspects. *)
Record MEMORY_BASIC_INFORMATION := {
  mbi_State : Z;
  mbi_Protect : Z
}.

(** A compiled AOB pattern byte: [None] is a wildcard. *)
Abbreviation PatternByte := (option Z).

(** What the operating system, the player and the hooking facility answer.
    The program never changes these; a theorem that quantifies over the
    machine quantifies over every possible answer. *)
Record Env := {
  (** [VirtualQuery addr]: [None] when the call fails (returns 0). *)
  vquery : Z -> option MEMORY_BASIC_INFORMATION;
  (** does reading, respectively writing, this byte raise an access
      violation? *)
  read_fault : Z -> bool;
  write_fault : Z -> bool;
  (** [IsBadReadPtr addr 1] *)
  bad_read_ptr : Z -> bool;
  (** the [SHORT] returned by the [k]-th call of [GetAsyncKeyState] *)
  key_input : nat -> Z -> Z;
  (** status returned by the [k]-th call into MinHook *)
  mh_reply : nat -> MHCall -> MH_STATUS;
  (** continuation address MinHook hands out on a successful create *)
  mh_trampoline : Z;
  (** result of [VirtualAlloc] (0 on failure) *)
  alloc_result : Z;
  (** [GetModuleHandleA] at the [i]-th attempt (0: not loaded yet) *)
  module_lookup : nat -> Z;
  (** [GetModuleInformation]: base and size of the image, [None] on failure *)
  module_info : option (Z * Z);
  (** [parseAOB config.aob_pattern] (empty on failure) *)
  aob_parsed : list PatternByte;
  (** does [CreateThread] succeed? *)
  thread_ok : bool
}.

Record Machine := {
  (** globals of dllmain.cpp; 0 is [nullptr] *)
  g_r9_for_tpv_flag : Z;
  fpTPV_OriginalCode : Z;
  g_tpvHookAddress : Z;
  (** pointer-sized cells of the mod's own storage, by address *)
  cells : Z -> Z;
  (** regions currently held through [VirtualAlloc] *)
  live : gset Z;
  (** bytes of the game's memory, by address *)
  bytes : Z -> Z;
  (** [key_was_down], the debounce map of [ToggleThread] *)
  key_was_down : gmap Z bool;
  (** how many times [GetAsyncKeyState] / MinHook were called so far *)
  nsample : nat;
  mh_calls : nat;
  env : Env;
  trace : list Event
}.

Definition emit (ev : Event) (m : Machine) : Machine :=
  {| g_r9_for_tpv_flag := g_r9_for_tpv_flag m;
     fpTPV_OriginalCode := fpTPV_OriginalCode m;
     g_tpvHookAddress := g_tpvHookAddress m;
     cells := cells m; live := live m; bytes := bytes m;
     key_was_down := key_was_down m;
     nsample := nsample m; mh_calls := mh_calls m; env := env m;
     trace := ev :: trace m |}.

Definition set_g_r9_for_tpv_flag (p : Z) (m : Machine) : Machine :=
  {| g_r9_for_tpv_flag := p;
     fpTPV_OriginalCode := fpTPV_OriginalCode m;
     g_tpvHookAddress := g_tpvHookAddress m;
     cells := cells m; live := live m; bytes := bytes m;
     key_was_down := key_was_down m;
     nsample := nsample m; mh_calls := mh_calls m; env := env m;
     trace := trace m |}.

Definition set_fpTPV_OriginalCode (p : Z) (m : Machine) : Machine :=
  {| g_r9_for_tpv_flag := g_r9_for_tpv_flag m;
     fpTPV_OriginalCode := p;
     g_tpvHookAddress := g_tpvHookAddress m;
     cells := cells m; live := live m; bytes := bytes m;
     key_was_down := key_was_down m;
     nsample := nsample m; mh_calls := mh_calls m; env := env m;
     trace := trace m |}.

Definition set_g_tpvHookAddress (p : Z) (m : Machine) : Machine :=
  {| g_r9_for_tpv_flag := g_r9_for_tpv_flag m;
     fpTPV_OriginalCode := fpTPV_OriginalCode m;
     g_tpvHookAddress := p;
     cells := cells m; live := live m; bytes := bytes m;
     key_was_down := key_was_down m;
     nsample := nsample m; mh_calls := mh_calls m; env := env m;
     trace := trace m |}.

Definition set_cells (c : Z -> Z) (m : Machine) : Machine :=
  {| g_r9_for_tpv_flag := g_r9_for_tpv_flag m;
     fpTPV_OriginalCode := fpTPV_OriginalCode m;
     g_tpvHookAddress := g_tpvHookAddress m;
     cells := c; live := live m; bytes := bytes m;
     key_was_down := key_was_down m;
     nsample := nsample m; mh_calls := mh_calls m; env := env m;
     trace := trace m |}.

Definition set_live (l : gset Z) (m : Machine) : Machine :=
  {| g_r9_for_tpv_flag := g_r9_for_tpv_flag m;
     fpTPV_OriginalCode := fpTPV_OriginalCode m;
     g_tpvHookAddress := g_tpvHookAddress m;
     cells := cells m; live := l; bytes := bytes m;
     key_was_down := key_was_down m;
     nsample := nsample m; mh_calls := mh_calls m; env := env m;
     trace := trace m |}.

Definition set_bytes (b : Z -> Z) (m : Machine) : Machine :=
  {| g_r9_for_tpv_flag := g_r9_for_tpv_flag m;
     fpTPV_OriginalCode := fpTPV_OriginalCode m;
     g_tpvHookAddress := g_tpvHookAddress m;
     cells := cells m; live := live m; bytes := b;
     key_was_down := key_was_down m;
     nsample := nsample m; mh_calls := mh_calls m; env := env m;
     trace := trace m |}.

Definition set_key_was_down (k : gmap Z bool) (m : Machine) : Machine :=
  {| g_r9_for_tpv_flag := g_r9_for_tpv_flag m;
     fpTPV_OriginalCode := fpTPV_OriginalCode m;
     g_tpvHookAddress := g_tpvHookAddress m;
     cells := cells m; live := live m; bytes := bytes m;
     key_was_down := k;
     nsample := nsample m; mh_calls := mh_calls m; env := env m;
     trace := trace m |}.

Definition set_nsample (n : nat) (m : Machine) : Machine :=
  {| g_r9_for_tpv_flag := g_r9_for_tpv_flag m;
     fpTPV_OriginalCode := fpTPV_OriginalCode m;
     g_tpvHookAddress := g_tpvHookAddress m;
     cells := cells m; live := live m; bytes := bytes m;
     key_was_down := key_was_down m;
     nsample := n; mh_calls := mh_calls m; env := env m;
     trace := trace m |}.

Definition set_mh_calls (n : nat) (m : Machine) : Machine :=
  {| g_r9_for_tpv_flag := g_r9_for_tpv_flag m;
     fpTPV_OriginalCode := fpTPV_OriginalCode m;
     g_tpvHookAddress := g_tpvHookAddress m;
     cells := cells m; live := live m; bytes := bytes m;
     key_was_down := key_was_down m;
     nsample := nsample m; mh_calls := n; env := env m;
     trace := trace m |}.

(** ** The monad: state, C++ exceptions, and the end of the process *)

(** A thrown object is either derived from [std::exception] (it carries
    [what()]) or something else; the code has one handler for each. *)
Inductive Exn :=
| StdException (what : string)
| OtherException.

Arguments StdException _%_string.

(** How a computation ends.  [Crash]: a dereference raised an access
    violation.  That is a structured exception of the operating system, not
    a C++ exception: the code installs no handler or translator for it, so
    neither [catch (const std::exception &)] nor [catch (...)] sees it and
    the process is terminated where it stands. *)
Inductive Outcome (A : Type) :=
| Ret (a : A)
| Throw (e : Exn)
| Crash.

Arguments Ret {A} a.
Arguments Throw {A} e.
Arguments Crash {A}.

Definition M (A : Type) : Type := Machine -> Outcome A * Machine.

Definition ret {A} (a : A) : M A := fun m => (Ret a, m).

Definition throw {A} (e : Exn) : M A := fun m => (Throw e, m).

Definition bind {A B} (c : M A) (k : A -> M B) : M B :=
  fun m =>
    match c m with
    | (Ret a, m') => k a m'
    | (Throw e, m') => (Throw e, m')
    | (Crash, m') => (Crash, m')
    end.

(** [try { c } catch (const std::exception &e) { h (StdException ..) }
    catch (...) { h OtherException }]: state changes made by [c] before it
    threw stay.  The handlers see C++ exceptions only. *)
Definition try_catch {A} (c : M A) (h : Exn -> M A) : M A :=
  fun m =>
    match c m with
    | (Ret a, m') => (Ret a, m')
    | (Throw e, m') => h e m'
    | (Crash, m') => (Crash, m')
    end.

Declare Scope cpp_scope.
Delimit Scope cpp_scope with cpp.
Bind Scope cpp_scope with M.

Notation "'let!' x ':=' c 'in' k" := (bind c (fun x => k))
  (at level 10, x name, c at level 100, k at level 200) : cpp_scope.
Notation "c ';;' k" := (bind c (fun _ => k))
  (at level 100, k at level 200, right associativity) : cpp_scope.

Local Open Scope cpp_scope.

(** ** Primitive operations *)

Definition get {A} (f : Machine -> A) : M A := fun m => (Ret (f m), m).

Definition modify (f : Machine -> Machine) : M unit := fun m => (Ret tt, f m).

(** [Logger::log]: the log collaborator records the line and returns.  A
    line is kept with its level and the fixed part of its text; the
    addresses and key names the code formats into it are left out. *)
Definition log (level : LogLevel) (message : string) : M unit :=
  modify (emit (EvLog level message)).

Arguments log _ _%_string.

(** [*p] for the captured-pointer cell. *)
Definition load_cell (p : Z) : M Z :=
  fun m => (Ret (cells m p), emit (EvLoadCell p (cells m p)) m).

Definition store_cell (p v : Z) : M unit :=
  fun m =>
    (Ret tt, emit (EvStoreCell p v)
               (set_cells (fun q => if q =? p then v else cells m q) m)).

Definition VirtualQuery (addr : Z) : M (option MEMORY_BASIC_INFORMATION) :=
  fun m => (Ret (vquery (env m) addr), emit (EvVirtualQuery addr) m).

Definition IsBadReadPtr (addr : Z) : M bool :=
  fun m => (Ret (bad_read_ptr (env m) addr), emit (EvIsBadReadPtr addr) m).

(** [*addr] as an rvalue, for a [BYTE *]: a plain dereference.  When the
    byte cannot be read the processor raises an access violation. *)
Definition read_byte (addr : Z) : M Z :=
  fun m =>
    if read_fault (env m) addr
    then (Crash, emit (EvFault addr) m)
    else (Ret (bytes m addr), emit (EvReadByte addr (bytes m addr)) m).

(** [*addr = v] for a [BYTE *]: a plain store. *)
Definition write_byte (addr v : Z) : M unit :=
  fun m =>
    if write_fault (env m) addr
    then (Crash, emit (EvFault addr) m)
    else (Ret tt, emit (EvWriteByte addr v)
                    (set_bytes (fun a => if a =? addr then v else bytes m a) m)).

Definition Sleep (ms : Z) : M unit := modify (emit (EvSleep ms)).

Definition GetAsyncKeyState (vk : Z) : M Z :=
  fun m =>
    (Ret (key_input (env m) (nsample m) vk),
     emit (EvGetAsyncKeyState vk) (set_nsample (S (nsample m)) m)).

(** ** toggle_thread.cpp *)

Definition writable_mask : Z :=
  Z.lor Win.PAGE_READWRITE
    (Z.lor Win.PAGE_WRITECOPY
       (Z.lor Win.PAGE_EXECUTE_READWRITE Win.PAGE_EXECUTE_WRITECOPY)).

Definition is_writable (mem_info : MEMORY_BASIC_INFORMATION) : bool :=
  negb (Z.land (mbi_Protect mem_info) writable_mask =? 0).

(** [r9_value + Constants::TOGGLE_FLAG_OFFSET] *)
Definition flag_address (r9_value : Z) : Z :=
  Win.wrap64 (r9_value + Constants.TOGGLE_FLAG_OFFSET).

Definition setViewState (new_state : Z) (action_desc : string)
    (key_pressed_vk : Z) : M bool :=
  let! p := get g_r9_for_tpv_flag in
  if p =? 0 then
    log LOG_ERROR "setViewState: Global R9 storage ptr is NULL." ;;
    ret false
  else
  let! r9_value := load_cell p in
  if r9_value =? 0 then
    log LOG_WARNING "setViewState: Captured R9 is 0x0. Hook not run or capture failed." ;;
    ret false
  else
  log LOG_DEBUG "setViewState: Using R9" ;;
  let flag_addr := flag_address r9_value in
  log LOG_DEBUG "setViewState: Calculated flag address" ;;
  let! queried := VirtualQuery flag_addr in
  match queried with
  | None =>
      log LOG_ERROR "setViewState: VirtualQuery failed for target address" ;;
      ret false
  | Some mem_info =>
      if negb (mbi_State mem_info =? Win.MEM_COMMIT) || negb (is_writable mem_info)
      then
        log LOG_ERROR "setViewState: Target memory not committed/writable" ;;
        ret false
      else
        log LOG_DEBUG "setViewState: Target memory check passed." ;;
        try_catch
          (let! current_value := read_byte flag_addr in
           log LOG_DEBUG "setViewState: Read current value" ;;
           (if negb (current_value =? new_state) then
              write_byte flag_addr new_state ;;
              log LOG_INFO "Action: Set TPV Flag" ;;
              log LOG_DEBUG "setViewState: Write successful."
            else
              log LOG_DEBUG "Action: flag already set. No change.") ;;
           ret true)
          (fun e =>
             match e with
             | StdException _ =>
                 log LOG_ERROR "setViewState: Exception accessing memory" ;;
                 ret false
             | OtherException =>
                 log LOG_ERROR "setViewState: Unknown exception accessing memory" ;;
                 ret false
             end)
  end.

Arguments setViewState : simpl never.

Definition safeToggleViewState (key_pressed_vk : Z) : M bool :=
  let! p := get g_r9_for_tpv_flag in
  let! r9_value := (if p =? 0 then ret 0 else load_cell p) in
  if (p =? 0) || (r9_value =? 0) then
    log LOG_WARNING "safeToggleViewState: Cannot toggle, R9 storage invalid" ;;
    ret false
  else
  let flag_addr := flag_address r9_value in
  let! read :=
    try_catch
      (let! bad := IsBadReadPtr flag_addr in
       if bad then throw (StdException "IsBadReadPtr check failed")
       else
         let! current_value := read_byte flag_addr in
         log LOG_DEBUG "safeToggleViewState: Read current value" ;;
         ret (Some current_value))
      (fun _ =>
         log LOG_ERROR "safeToggleViewState: Exception reading current TPV flag" ;;
         ret None) in
  match read with
  | None => ret false
  | Some current_value =>
      let new_value := if current_value =? 0 then 1 else 0 in
      log LOG_DEBUG "safeToggleViewState: Target state" ;;
      setViewState new_value "Toggle" key_pressed_vk
  end.

Definition setFirstPersonView (key_pressed_vk : Z) : M bool :=
  setViewState 0 "Set FPV" key_pressed_vk.

Definition setThirdPersonView (key_pressed_vk : Z) : M bool :=
  setViewState 1 "Set TPV" key_pressed_vk.


(** *** The polling loop of [ToggleThread] *)

(** [(GetAsyncKeyState(vk) & 0x8000) != 0], on the [SHORT] widened to [int]. *)
Definition key_is_down (s : Z) : bool := negb (Z.land s 0x8000 =? 0).

(** [key_was_down[vk]] as an rvalue: [operator[]] of [std::unordered_map]
    default-constructs the entry when it is missing. *)
Definition key_was_down_at (vk : Z) : M bool :=
  fun m =>
    match key_was_down m !! vk with
    | Some b => (Ret b, m)
    | None => (Ret false, set_key_was_down (<[vk := false]> (key_was_down m)) m)
    end.

(** [key_was_down[vk] = down] *)
Definition key_was_down_assign (vk : Z) (down : bool) : M unit :=
  modify (fun m => set_key_was_down (<[vk := down]> (key_was_down m)) m).

Definition pressed_message (kind : ActionKind) : string :=
  match kind with
  | ActToggle => "Input: Toggle Key pressed."
  | ActFirstPerson => "Input: FPV Key pressed."
  | ActThirdPerson => "Input: TPV Key pressed."
  end.

Section PollingLoop.

(** The loop is written once for the three callees it invokes; [ToggleThread]
    below supplies [safeToggleViewState], [setFirstPersonView] and
    [setThirdPersonView]. *)
Variables toggle_action fpv_action tpv_action : Z -> M bool.

(** The body of one of the three [for (int vk : ..._keys)] loops. *)
Definition check_key (kind : ActionKind) (callee : Z -> M bool) (vk : Z)
    (action : bool) : M bool :=
  let! s := GetAsyncKeyState vk in
  let down := key_is_down s in
  let! just_pressed :=
    (if down then let! was := key_was_down_at vk in ret (negb was)
     else ret false) in
  let! action' :=
    (if just_pressed then
       log LOG_DEBUG (pressed_message kind) ;;
       callee vk ;;
       ret true
     else ret action) in
  key_was_down_assign vk down ;;
  ret action'.

Fixpoint for_each_key (kind : ActionKind) (callee : Z -> M bool)
    (keys : list Z) (action : bool) : M bool :=
  match keys with
  | [] => ret action
  | vk :: rest =>
      let! action' := check_key kind callee vk action in
      for_each_key kind callee rest action'
  end.

(** The [try] block of one iteration of [while (true)]. *)
Definition poll_body (toggle_keys fpv_keys tpv_keys : list Z) : M unit :=
  let! a1 := for_each_key ActToggle toggle_action toggle_keys false in
  let! a2 := for_each_key ActFirstPerson fpv_action fpv_keys a1 in
  let! a3 := for_each_key ActThirdPerson tpv_action tpv_keys a2 in
  Sleep (if a3 then 15 else 50).

(** One iteration of [while (true)], with its two handlers. *)
Definition poll_cycle (toggle_keys fpv_keys tpv_keys : list Z) : M unit :=
  try_catch
    (poll_body toggle_keys fpv_keys tpv_keys)
    (fun e =>
       match e with
       | StdException _ =>
           log LOG_ERROR "ToggleThread: Exception in polling loop" ;;
           Sleep 1000
       | OtherException =>
           log LOG_ERROR "ToggleThread: Unknown exception in loop." ;;
           Sleep 1000
       end).

(** The first [cycles] iterations of the endless loop. *)
Fixpoint poll_loop (cycles : nat) (toggle_keys fpv_keys tpv_keys : list Z)
    : M unit :=
  match cycles with
  | O => ret tt
  | S n =>
      poll_cycle toggle_keys fpv_keys tpv_keys ;;
      poll_loop n toggle_keys fpv_keys tpv_keys
  end.

End PollingLoop.

(** [struct ToggleData] *)
Record ToggleData := {
  toggle_keys : list Z;
  fpv_keys : list Z;
  tpv_keys : list Z
}.

Definition mark_up (keys : list Z) (k : gmap Z bool) : gmap Z bool :=
  fold_left (fun acc vk => <[vk := false]> acc) keys k.

(** The first [cycles] iterations of [while (true) Sleep(5000);]. *)
Fixpoint idle_loop (cycles : nat) : M unit :=
  match cycles with
  | O => ret tt
  | S n => Sleep 5000 ;; idle_loop n
  end.

(** [ToggleThread] never returns once it has its data; the model runs the
    first [cycles] iterations of whichever endless loop it enters and then
    answers [None] (still running).  [Some 1] is the early [return 1]. *)
Definition ToggleThread (param : option ToggleData) (cycles : nat)
    : M (option Z) :=
  match param with
  | None =>
      log LOG_ERROR "ToggleThread: Received NULL data. Thread exiting." ;;
      ret (Some 1)
  | Some data =>
      log LOG_INFO "ToggleThread: Monitoring thread started." ;;
      match toggle_keys data, fpv_keys data, tpv_keys data with
      | [], [], [] =>
          log LOG_INFO "ToggleThread: No keys configured. Idling." ;;
          idle_loop cycles ;;
          ret None
      | _, _, _ =>
          log LOG_INFO "ToggleThread: Keys: Toggle" ;;
          log LOG_INFO "ToggleThread: Keys: FPV" ;;
          log LOG_INFO "ToggleThread: Keys: TPV" ;;
          modify (set_key_was_down
                    (mark_up (tpv_keys data)
                       (mark_up (fpv_keys data)
                          (mark_up (toggle_keys data) ∅)))) ;;
          log LOG_INFO "ToggleThread: Entering key polling loop..." ;;
          poll_loop safeToggleViewState setFirstPersonView setThirdPersonView
            cycles (toggle_keys data) (fpv_keys data) (tpv_keys data) ;;
          ret None
      end
  end.

(** ** The memory scanner *)

(** Modelled from the spec: [FindPattern] of aob_scanner.cpp, which is not
    among the sources.  Section 4.2: the lowest address [a] in
    [[base, base+length-patternLength]] at which every pattern byte is a
    wildcard or equals the byte at [a+i]; not found when there is none or
    when the pattern is longer than the region.  A naive scan. *)
Fixpoint matches_at (mem : Z -> Z) (a : Z) (pattern : list PatternByte) : bool :=
  match pattern with
  | [] => true
  | None :: rest => matches_at mem (a + 1) rest
  | Some b :: rest => (mem a =? b) && matches_at mem (a + 1) rest
  end.

Fixpoint scan_from (mem : Z -> Z) (a : Z) (positions : nat)
    (pattern : list PatternByte) : option Z :=
  match positions with
  | O => None
  | S n =>
      if matches_at mem a pattern then Some a
      else scan_from mem (a + 1) n pattern
  end.

Definition FindPattern (mem : Z -> Z) (base length : Z)
    (pattern : list PatternByte) : option Z :=
  let patternLength := Z.of_nat (List.length pattern) in
  if length <? patternLength then None
  else scan_from mem base (Z.to_nat (length - patternLength + 1)) pattern.

(** ** dllmain.cpp *)

(** A call into MinHook: the facility's answer is the environment's. *)
Definition MinHook (call : MHCall) : M MH_STATUS :=
  fun m =>
    let s := mh_reply (env m) (mh_calls m) call in
    (Ret s, emit (EvMinHook call s) (set_mh_calls (S (mh_calls m)) m)).

(** [MH_CreateHook(target, &TPV_CaptureR9_Detour, &fpTPV_OriginalCode)]:
    MinHook stores the continuation through its third argument only when it
    returns [MH_OK]. *)
Definition MH_CreateHook (target : Z) : M MH_STATUS :=
  let! s := MinHook (MH_CreateHook_call target) in
  (if mh_status_eqb s MH_OK
   then fun m => modify (set_fpTPV_OriginalCode (mh_trampoline (env m))) m
   else ret tt) ;;
  ret s.

(** [VirtualAlloc(NULL, sizeof(uintptr_t), MEM_COMMIT | MEM_RESERVE,
    PAGE_READWRITE)] *)
Definition VirtualAlloc : M Z :=
  fun m =>
    let p := alloc_result (env m) in
    if p =? 0 then (Ret 0, emit (EvVirtualAlloc 0) m)
    else (Ret p, emit (EvVirtualAlloc p) (set_live ({[p]} ∪ live m) m)).

(** [VirtualFree(p, 0, MEM_RELEASE)]: releases the region that starts at
    [p]; fails when [p] is not the base of a held region. *)
Definition VirtualFree (p : Z) : M bool :=
  fun m =>
    if bool_decide (p ∈ live m)
    then (Ret true, emit (EvVirtualFree p) (set_live (live m ∖ {[p]}) m))
    else (Ret false, emit (EvVirtualFree p) m).

(** [CleanupResources], first block: "Disable & Remove MinHook Hook". *)
Definition cleanup_hook : M unit :=
  let! hook := get g_tpvHookAddress in
  let! orig := get fpTPV_OriginalCode in
  if negb (hook =? 0) && negb (orig =? 0) then
    let! mh_stat := MinHook (MH_DisableHook_call hook) in
    if mh_status_eqb mh_stat MH_OK || mh_status_eqb mh_stat MH_ERROR_DISABLED
    then
      log LOG_INFO "Cleanup: MinHook hook disabled." ;;
      let! mh_stat := MinHook (MH_RemoveHook_call hook) in
      if mh_status_eqb mh_stat MH_OK
      then log LOG_INFO "Cleanup: MinHook hook removed."
      else log LOG_ERROR "Cleanup: Failed to remove MinHook hook"
    else log LOG_ERROR "Cleanup: Failed to disable MinHook hook"
  else
    log LOG_DEBUG "Cleanup: Hook not installed or already cleaned, skipping disable/remove.".

(** Second block: "Uninitialize MinHook". *)
Definition cleanup_minhook : M unit :=
  let! hook := get g_tpvHookAddress in
  if negb (hook =? 0) then
    let! mh_stat := MinHook MH_Uninitialize_call in
    if mh_status_eqb mh_stat MH_OK
       || mh_status_eqb mh_stat MH_ERROR_NOT_INITIALIZED
    then log LOG_INFO "Cleanup: MinHook uninitialize attempted"
    else log LOG_ERROR "Cleanup: Failed to uninitialize MinHook"
  else ret tt.

(** Third block: "Free Allocated Memory". *)
Definition cleanup_storage : M unit :=
  let! storage := get g_r9_for_tpv_flag in
  if negb (storage =? 0) then
    log LOG_DEBUG "Cleanup: Freeing R9 storage memory" ;;
    let! freed := VirtualFree storage in
    (if negb freed
     then log LOG_ERROR "Cleanup: VirtualFree failed for R9 storage."
     else ret tt) ;;
    modify (set_g_r9_for_tpv_flag 0)
  else
    log LOG_DEBUG "Cleanup: R9 storage already freed or not allocated.".

Definition CleanupResources : M unit :=
  log LOG_INFO "Cleanup: Starting resource cleanup..." ;;
  cleanup_hook ;;
  cleanup_minhook ;;
  cleanup_storage ;;
  modify (set_g_tpvHookAddress 0) ;;
  modify (set_fpTPV_OriginalCode 0) ;;
  log LOG_INFO "Cleanup: Resource cleanup finished.".

Definition GetModuleHandleA (attempt : nat) : M Z :=
  fun m =>
    let h := module_lookup (env m) attempt in
    (Ret h, emit (EvGetModuleHandle h) m).

(** [for (int i = 0; i < 30 && !game_module; ++i)], with [remaining] the
    iterations still allowed. *)
Fixpoint wait_for_module (remaining : nat) (i : nat) : M Z :=
  match remaining with
  | O => ret 0
  | S n =>
      let! game_module := GetModuleHandleA i in
      if game_module =? 0 then
        (if Nat.eqb i 0
         then log LOG_WARNING "Module not found yet, retrying..."
         else ret tt) ;;
        Sleep 1000 ;;
        wait_for_module n (S i)
      else ret game_module
  end.

Definition GetModuleInformation : M (option (Z * Z)) :=
  fun m =>
    (Ret (module_info (env m)),
     emit (EvGetModuleInformation (bool_decide (is_Some (module_info (env m))))) m).

(** [CreateThread(NULL, 0, ToggleThread, thread_data, 0, NULL)]: the thread
    exists, and the monitoring loop can run, only when the call succeeds. *)
Definition CreateThread_ToggleThread : M bool :=
  fun m => (Ret (thread_ok (env m)), emit (EvCreateThread (thread_ok (env m))) m).

Definition MainThread : M Z :=
  log LOG_INFO "MainThread: Initializing mod..." ;;
  (* Phase 2 *)
  let! storage := VirtualAlloc in
  modify (set_g_r9_for_tpv_flag storage) ;;
  if storage =? 0 then
    log LOG_ERROR "Fatal: VirtualAlloc failed for R9 storage." ;;
    ret 1
  else
  store_cell storage 0 ;;
  log LOG_DEBUG "MainThread: Allocated R9 storage" ;;
  log LOG_INFO "MainThread: Searching for module..." ;;
  let! game_module := wait_for_module 30 0 in
  if game_module =? 0 then
    log LOG_ERROR "Fatal: Module not found after timeout." ;;
    CleanupResources ;;
    ret 1
  else
  log LOG_INFO "MainThread: Found module" ;;
  let! mod_info := GetModuleInformation in
  match mod_info with
  | None =>
      log LOG_ERROR "Fatal: GetModuleInformation failed." ;;
      CleanupResources ;;
      ret 1
  | Some (lpBaseOfDll, SizeOfImage) =>
  log LOG_DEBUG "MainThread: Module size" ;;
  (* Phase 3 *)
  log LOG_INFO "MainThread: Parsing AOB pattern..." ;;
  let! pattern := get (fun m => aob_parsed (env m)) in
  match pattern with
  | [] =>
      log LOG_ERROR "Fatal: AOB pattern parsing failed or empty." ;;
      CleanupResources ;;
      ret 1
  | _ :: _ =>
  log LOG_INFO "MainThread: Scanning module for AOB pattern..." ;;
  let! found := get (fun m => FindPattern (bytes m) lpBaseOfDll SizeOfImage pattern) in
  let pattern_start := default 0 found in
  if pattern_start =? 0 then
    log LOG_ERROR "Fatal: AOB pattern not found." ;;
    CleanupResources ;;
    ret 1
  else
  log LOG_INFO "MainThread: Found AOB pattern" ;;
  let hook := Win.wrap64 (pattern_start + Constants.HOOK_OFFSET) in
  modify (set_g_tpvHookAddress hook) ;;
  log LOG_INFO "MainThread: Calculated hook target address" ;;
  (* Phase 4 *)
  log LOG_INFO "MainThread: Initializing MinHook..." ;;
  let! mh_stat := MinHook MH_Initialize_call in
  if negb (mh_status_eqb mh_stat MH_OK) then
    log LOG_ERROR "Fatal: MH_Initialize failed" ;;
    CleanupResources ;;
    ret 1
  else
  log LOG_INFO "MainThread: Creating TPV R9 capture hook..." ;;
  let! mh_stat := MH_CreateHook hook in
  if negb (mh_status_eqb mh_stat MH_OK) then
    log LOG_ERROR "Fatal: MH_CreateHook failed" ;;
    MinHook MH_Uninitialize_call ;;
    CleanupResources ;;
    ret 1
  else
  let! orig := get fpTPV_OriginalCode in
  if orig =? 0 then
    log LOG_ERROR "Fatal: MH_CreateHook ok but continuation NULL" ;;
    MinHook (MH_RemoveHook_call hook) ;;
    MinHook MH_Uninitialize_call ;;
    CleanupResources ;;
    ret 1
  else
  log LOG_DEBUG "MainThread: Hook created." ;;
  log LOG_INFO "MainThread: Enabling TPV hook..." ;;
  let! mh_stat := MinHook (MH_EnableHook_call hook) in
  if negb (mh_status_eqb mh_stat MH_OK) then
    log LOG_ERROR "Fatal: MH_EnableHook failed" ;;
    MinHook (MH_RemoveHook_call hook) ;;
    MinHook MH_Uninitialize_call ;;
    CleanupResources ;;
    ret 1
  else
  log LOG_INFO "MainThread: Hook enabled successfully." ;;
  (* Phase 5 *)
  log LOG_INFO "MainThread: Starting key monitoring thread..." ;;
  let! h_thread := CreateThread_ToggleThread in
  if negb h_thread then
    log LOG_ERROR "Fatal: CreateThread failed for monitor thread." ;;
    MinHook (MH_DisableHook_call hook) ;;
    MinHook (MH_RemoveHook_call hook) ;;
    MinHook MH_Uninitialize_call ;;
    CleanupResources ;;
    ret 1
  else
  log LOG_INFO "MainThread: Initialization successful. Mod active." ;;
  ret 0
  end
  end.

(** ** Observing a run *)

(** The events a computation adds when run from [m], oldest first. *)
Definition events {A} (c : M A) (m : Machine) : list Event :=
  let m' := snd (c m) in
  rev (take (length (trace m') - length (trace m)) (trace m')).

Definition is_log (ev : Event) : bool :=
  match ev with EvLog _ _ => true | _ => false end.

(** A chronicle without its log lines. *)
Definition effects (evs : list Event) : list Event :=
  List.filter (fun ev => negb (is_log ev)) evs.

Definition is_write (ev : Event) : bool :=
  match ev with EvWriteByte _ _ => true | _ => false end.

(** The byte address an event reads, writes or faults on. *)
Definition accessed_address (ev : Event) : option Z :=
  match ev with
  | EvReadByte a _ | EvWriteByte a _ | EvFault a => Some a
  | _ => None
  end.

(** In [evs], every access to a byte comes after a [VirtualQuery] of that
    very address, made in [evs] itself. *)
Definition query_before_every_access (evs : list Event) : Prop :=
  forall pre ev post a,
    evs = pre ++ ev :: post ->
    accessed_address ev = Some a ->
    EvVirtualQuery a ∈ pre.

(** The answers of [VirtualQuery] on which the code must refuse: the call
    failed, the page is not committed, or no writable protection bit is set. *)
Definition query_refuses (q : option MEMORY_BASIC_INFORMATION) : Prop :=
  match q with
  | None => True
  | Some mem_info =>
      mbi_State mem_info <> Win.MEM_COMMIT \/
      Z.land (mbi_Protect mem_info) writable_mask = 0
  end.

(** [m] with other bytes and with [new] (newest first) added to the
    chronicle; everything else as in [m]. *)
Definition patch (b : Z -> Z) (new : list Event) (m : Machine) : Machine :=
  {| g_r9_for_tpv_flag := g_r9_for_tpv_flag m;
     fpTPV_OriginalCode := fpTPV_OriginalCode m;
     g_tpvHookAddress := g_tpvHookAddress m;
     cells := cells m; live := live m; bytes := b;
     key_was_down := key_was_down m;
     nsample := nsample m; mh_calls := mh_calls m; env := env m;
     trace := new ++ trace m |}.

Definition poke (addr v : Z) (b : Z -> Z) : Z -> Z :=
  fun a => if a =? addr then v else b a.

(** What one call of [setViewState] amounts to, log lines left out: how it
    ends, the bytes it leaves and the effects it has, in order. *)
Record Outline := {
  o_result : Outcome bool;
  o_bytes : Z -> Z;
  o_effects : list Event
}.

Definition setViewState_outline (new_state : Z) (m : Machine) : Outline :=
  let p := g_r9_for_tpv_flag m in
  if p =? 0 then
    {| o_result := Ret false; o_bytes := bytes m; o_effects := [] |}
  else
  let r9 := cells m p in
  if r9 =? 0 then
    {| o_result := Ret false; o_bytes := bytes m;
       o_effects := [EvLoadCell p r9] |}
  else
  let a := flag_address r9 in
  let refused :=
    {| o_result := Ret false; o_bytes := bytes m;
       o_effects := [EvLoadCell p r9; EvVirtualQuery a] |} in
  match vquery (env m) a with
  | None => refused
  | Some mem_info =>
      if negb (mbi_State mem_info =? Win.MEM_COMMIT) || negb (is_writable mem_info)
      then refused
      else if read_fault (env m) a then
        {| o_result := Crash; o_bytes := bytes m;
           o_effects := [EvLoadCell p r9; EvVirtualQuery a; EvFault a] |}
      else if bytes m a =? new_state then
        {| o_result := Ret true; o_bytes := bytes m;
           o_effects := [EvLoadCell p r9; EvVirtualQuery a;
                         EvReadByte a (bytes m a)] |}
      else if write_fault (env m) a then
        {| o_result := Crash; o_bytes := bytes m;
           o_effects := [EvLoadCell p r9; EvVirtualQuery a;
                         EvReadByte a (bytes m a); EvFault a] |}
      else
        {| o_result := Ret true; o_bytes := poke a new_state (bytes m);
           o_effects := [EvLoadCell p r9; EvVirtualQuery a;
                         EvReadByte a (bytes m a); EvWriteByte a new_state] |}
  end.

(** The preconditions of [safeToggleViewState]: the storage pointer and the
    captured value are set, and the flag byte can be read. *)
Definition toggle_preconditions (m : Machine) : Prop :=
  g_r9_for_tpv_flag m <> 0 /\
  cells m (g_r9_for_tpv_flag m) <> 0 /\
  bad_read_ptr (env m) (flag_address (cells m (g_r9_for_tpv_flag m))) = false /\
  read_fault (env m) (flag_address (cells m (g_r9_for_tpv_flag m))) = false.

(** A computation no C++ exception leaves: it returns, or an access
    violation ends the process. *)
Definition no_throw {A} (c : M A) : Prop :=
  forall m e, fst (c m) <> Throw e.

Ltac prefix_of t base :=
  lazymatch t with
  | base => constr:(@nil Event)
  | ?e :: ?r => let r' := prefix_of r base in constr:(e :: r')
  end.

Ltac run :=
  unfold setViewState, safeToggleViewState, setFirstPersonView,
    setThirdPersonView, try_catch, bind, ret, throw, get, modify, log,
    load_cell, VirtualQuery, IsBadReadPtr, read_byte, write_byte;
  cbn.

(** Does the event use the address of the flag byte in any way? *)
Definition touches_target (ev : Event) : bool :=
  match ev with
  | EvVirtualQuery _ | EvIsBadReadPtr _ | EvReadByte _ _ | EvWriteByte _ _
  | EvFault _ => true
  | _ => false
  end.

(** ** Concrete machines, for the examples *)

Definition page (protect : Z) : MEMORY_BASIC_INFORMATION :=
  {| mbi_State := Win.MEM_COMMIT; mbi_Protect := protect |}.

(** An environment in which everything succeeds; [protect] is the
    protection of every page and [keys] what the keyboard answers. *)
Definition calm_env (protect : Z) (keys : nat -> Z -> Z) : Env :=
  {| vquery := fun _ => Some (page protect);
     read_fault := fun _ => false;
     write_fault := fun _ => false;
     bad_read_ptr := fun _ => false;
     key_input := keys;
     mh_reply := fun _ _ => MH_OK;
     mh_trampoline := 0x7000;
     alloc_result := 0x5000;
     module_lookup := fun _ => 0x10000;
     module_info := Some (0x10000, 8);
     aob_parsed := [Some 0x48; Some 0x8B; None; Some 0x10];
     thread_ok := true |}.

(** The process right after the DLL was loaded: nothing allocated, no hook. *)
Definition fresh_machine (e : Env) : Machine :=
  {| g_r9_for_tpv_flag := 0; fpTPV_OriginalCode := 0; g_tpvHookAddress := 0;
     cells := fun _ => 0; live := ∅; bytes := fun _ => 0;
     key_was_down := ∅; nsample := 0; mh_calls := 0; env := e; trace := [] |}.

(** The mod is active: storage at 0x5000 holds the captured pointer
    [r9], and the flag byte at [r9 + 0x38] holds [flag]. *)
Definition active_machine (e : Env) (r9 flag : Z) : Machine :=
  {| g_r9_for_tpv_flag := 0x5000; fpTPV_OriginalCode := 0x7000;
     g_tpvHookAddress := 0x1000B;
     cells := fun p => if p =? 0x5000 then r9 else 0;
     live := {[ 0x5000 ]};
     bytes := fun a => if a =? r9 + 0x38 then flag else 0;
     key_was_down := ∅; nsample := 0; mh_calls := 3; env := e; trace := [] |}.

(** The conditions under which [setViewState] reaches the flag byte: the
    pointer was captured, the page is committed and writable, and neither
    access raises. *)
Definition patch_preconditions (m : Machine) : Prop :=
  let a := flag_address (cells m (g_r9_for_tpv_flag m)) in
  g_r9_for_tpv_flag m <> 0 /\
  cells m (g_r9_for_tpv_flag m) <> 0 /\
  (exists mem_info,
      vquery (env m) a = Some mem_info /\
      mbi_State mem_info = Win.MEM_COMMIT /\
      Z.land (mbi_Protect mem_info) writable_mask <> 0) /\
  read_fault (env m) a = false /\
  write_fault (env m) a = false.

(** Two calls of [setViewState] in a row, with the same arguments. *)
Definition setViewState_twice (new_state : Z) (action_desc : string) (vk : Z)
    : M (bool * bool) :=
  let! first := setViewState new_state action_desc vk in
  let! second := setViewState new_state action_desc vk in
  ret (first, second).

Definition write_count (evs : list Event) : nat :=
  length (List.filter is_write evs).

(** [m] after the events [evs] (oldest first) were recorded. *)
Definition emits (evs : list Event) (m : Machine) : Machine :=
  fold_left (fun acc ev => emit ev acc) evs m.

(** ** Observing the actions and the polling loop *)

(** [m] after a stretch of the loop: bytes, debounce map, sample counter
    and chronicle may have changed, nothing else. *)
Definition loop_patch (b : Z -> Z) (k : gmap Z bool) (n : nat)
    (new : list Event) (m : Machine) : Machine :=
  {| g_r9_for_tpv_flag := g_r9_for_tpv_flag m;
     fpTPV_OriginalCode := fpTPV_OriginalCode m;
     g_tpvHookAddress := g_tpvHookAddress m;
     cells := cells m; live := live m; bytes := b;
     key_was_down := k;
     nsample := n; mh_calls := mh_calls m; env := env m;
     trace := new ++ trace m |}.

(** What an action may do to the machine: add events, and write at most one
    byte, with a value in [allowed]. *)
Definition footprint (allowed : Z -> Prop) (m m' : Machine) : Prop :=
  exists b' new,
    m' = patch b' new m /\
    ((b' = bytes m /\ Forall (fun ev => is_write ev = false) new) \/
     (exists a v, allowed v /\ b' = poke a v (bytes m) /\
        Forall (fun ev => is_write ev = true -> ev = EvWriteByte a v) new)).

Definition is_bit (v : Z) : Prop := v = 0 \/ v = 1.

(** Since the chronicle read [t0]: every byte written was written with 0 or
    1 and holds 0 or 1 now. *)
Definition bit_writes_since (t0 : list Event) (m : Machine) : Prop :=
  exists new,
    trace m = new ++ t0 /\
    forall a v, EvWriteByte a v ∈ new -> is_bit v /\ is_bit (bytes m a).

(** A computation that keeps [bit_writes_since], however it ends. *)
Definition bit_safe {A} (c : M A) : Prop :=
  forall t0 m, bit_writes_since t0 m -> bit_writes_since t0 (snd (c m)).

(** The callee [ToggleThread] gives the loop for each kind of key. *)
Definition callee_of (kind : ActionKind) : Z -> M bool :=
  match kind with
  | ActToggle => safeToggleViewState
  | ActFirstPerson => setFirstPersonView
  | ActThirdPerson => setThirdPersonView
  end.

(** *** The loop as section 4.6 words it

    For every key of a set, in order: sample it; it is a rising edge when it
    is down now and its last-seen state is up; on a rising edge the action
    is invoked, once; the sample becomes the last-seen state either way.
    What the loop has to do is computed as a list of steps, from the
    answers of the keyboard alone. *)
Inductive Step :=
| Sample (vk : Z)                        (* sample the key *)
| Invoke (kind : ActionKind) (vk : Z)    (* invoke the action of its set *)
| Pause (ms : Z).                        (* sleep *)

Fixpoint expected_visits (kind : ActionKind) (keys : list Z)
    (input : nat -> Z -> Z) (k : nat) (last_seen : gmap Z bool) (fired : bool)
    : list Step * gmap Z bool * bool :=
  match keys with
  | [] => ([], last_seen, fired)
  | vk :: rest =>
      let down := key_is_down (input k vk) in
      let edge := down && negb (default false (last_seen !! vk)) in
      let '(steps, ls, f) :=
        expected_visits kind rest input (S k) (<[vk := down]> last_seen)
          (edge || fired) in
      (Sample vk :: (if edge then [Invoke kind vk] else []) ++ steps, ls, f)
  end.

(** One cycle: Toggle keys, then ForceFirstPerson, then ForceThirdPerson,
    then the sleep, shorter when something fired. *)
Definition expected_cycle (tk fk pk : list Z) (input : nat -> Z -> Z)
    (k : nat) (last_seen : gmap Z bool) : list Step * gmap Z bool :=
  let '(s1, ls1, f1) := expected_visits ActToggle tk input k last_seen false in
  let '(s2, ls2, f2) :=
    expected_visits ActFirstPerson fk input (k + length tk)%nat ls1 f1 in
  let '(s3, ls3, f3) :=
    expected_visits ActThirdPerson pk input
      (k + length tk + length fk)%nat ls2 f2 in
  (s1 ++ s2 ++ s3 ++ [Pause (if f3 then 15 else 50)], ls3).

Fixpoint expected_loop (cycles : nat) (tk fk pk : list Z)
    (input : nat -> Z -> Z) (k : nat) (last_seen : gmap Z bool) : list Step :=
  match cycles with
  | O => []
  | S n =>
      let '(steps, ls) := expected_cycle tk fk pk input k last_seen in
      steps ++ expected_loop n tk fk pk input
                 (k + length tk + length fk + length pk)%nat ls
  end.

(** Carrying out a step on the machine: the sample is a call of
    [GetAsyncKeyState], the invocation a call of the action itself, the
    pause a call of [Sleep]. *)
Definition perform (s : Step) : M unit :=
  match s with
  | Sample vk => GetAsyncKeyState vk ;; ret tt
  | Invoke kind vk => callee_of kind vk ;; ret tt
  | Pause ms => Sleep ms
  end.

Fixpoint perform_all (steps : list Step) : M unit :=
  match steps with
  | [] => ret tt
  | s :: rest => perform s ;; perform_all rest
  end.

(** How a run ended, whatever it returned. *)
Definition ending {A} (o : Outcome A) : Outcome unit :=
  match o with
  | Ret _ => Ret tt
  | Throw e => Throw e
  | Crash => Crash
  end.

(** What the world outside the loop sees of a machine: everything but the
    debounce map and the log lines. *)
Definition outside (m : Machine) : Machine :=
  {| g_r9_for_tpv_flag := g_r9_for_tpv_flag m;
     fpTPV_OriginalCode := fpTPV_OriginalCode m;
     g_tpvHookAddress := g_tpvHookAddress m;
     cells := cells m; live := live m; bytes := bytes m;
     key_was_down := ∅;
     nsample := nsample m; mh_calls := mh_calls m; env := env m;
     trace := effects (trace m) |}.

(** Two computations behave alike from [m]: they end the same way, have the
    same effects in the same order, log lines apart, and leave the same
    bytes. *)
Definition same_behaviour {A B} (c : M A) (d : M B) (m : Machine) : Prop :=
  ending (fst (c m)) = ending (fst (d m)) /\
  effects (events c m) = effects (events d m) /\
  bytes (snd (c m)) = bytes (snd (d m)).

(** Two runs ended the same way, in machines the outside world cannot tell
    apart. *)
Definition agree {A B} (r1 : Outcome A * Machine) (r2 : Outcome B * Machine)
    : Prop :=
  ending (fst r1) = ending (fst r2) /\ outside (snd r1) = outside (snd r2).

(** A computation the debounce map and the log lines have no influence on. *)
Definition respects {A} (c : M A) : Prop :=
  forall m1 m2,
    outside m1 = outside m2 ->
    fst (c m1) = fst (c m2) /\ outside (snd (c m1)) = outside (snd (c m2)).


Definition has_keys (data : ToggleData) : bool :=
  match toggle_keys data, fpv_keys data, tpv_keys data with
  | [], [], [] => false
  | _, _, _ => true
  end.

(** The machine on which [ToggleThread] enters its polling loop: start-up
    lines logged, every configured key recorded as up. *)
Definition startup_lines : list Event :=
  [EvLog LOG_INFO "ToggleThread: Entering key polling loop...";
   EvLog LOG_INFO "ToggleThread: Keys: TPV";
   EvLog LOG_INFO "ToggleThread: Keys: FPV";
   EvLog LOG_INFO "ToggleThread: Keys: Toggle";
   EvLog LOG_INFO "ToggleThread: Monitoring thread started."].

Definition ToggleThread_setup (data : ToggleData) (m : Machine) : Machine :=
  loop_patch (bytes m)
    (mark_up (tpv_keys data)
       (mark_up (fpv_keys data) (mark_up (toggle_keys data) ∅)))
    (nsample m) startup_lines m.

(** The flag byte lies on a page that is committed and read-write but
    guarded ([PAGE_READWRITE | PAGE_GUARD], 0x104): the page check passes
    and the first access raises. *)
Definition guard_page_env : Env :=
  {| vquery := fun _ => Some (page 0x104);
     read_fault := fun _ => true;
     write_fault := fun _ => true;
     bad_read_ptr := fun _ => false;
     key_input := fun _ _ => -32768;
     mh_reply := fun _ _ => MH_OK;
     mh_trampoline := 0x7000;
     alloc_result := 0x5000;
     module_lookup := fun _ => 0x10000;
     module_info := Some (0x10000, 8);
     aob_parsed := [Some 0x48; Some 0x8B; None; Some 0x10];
     thread_ok := true |}.

(** An environment in which [IsBadReadPtr] rejects every address, and every
    read would raise. *)
Definition bad_pointer_env : Env :=
  {| vquery := fun _ => Some (page 0x04);
     read_fault := fun _ => true;
     write_fault := fun _ => true;
     bad_read_ptr := fun _ => true;
     key_input := fun _ _ => -32768;
     mh_reply := fun _ _ => MH_OK;
     mh_trampoline := 0x7000;
     alloc_result := 0x5000;
     module_lookup := fun _ => 0x10000;
     module_info := Some (0x10000, 8);
     aob_parsed := [Some 0x48; Some 0x8B; None; Some 0x10];
     thread_ok := true |}.

(** A callee that throws, to exercise the handlers of the loop. *)
Definition throwing_callee (vk : Z) : M bool :=
  throw (StdException "unexpected").

(** ** Observing the scanner *)

(** Every pattern byte is a wildcard or equals the byte at its place. *)
Definition pattern_matches (mem : Z -> Z) (a : Z) (pattern : list PatternByte)
    : Prop :=
  forall (i : nat) (p : PatternByte),
    pattern !! i = Some p -> p = None \/ p = Some (mem (a + Z.of_nat i)).

(** A region of memory that holds [buf] from [base] on, and 0xCC elsewhere. *)
Definition buffer_at (base : Z) (buf : list Z) : Z -> Z :=
  fun a =>
    if (base <=? a) && (a <? base + Z.of_nat (length buf))
    then nth (Z.to_nat (a - base)) buf 0xCC
    else 0xCC.

(** "48 8B ?? 10" *)
Definition pattern_48_8B_any_10 : list PatternByte :=
  [Some 0x48; Some 0x8B; None; Some 0x10].

(** ** Observing initialization and unwind *)

Definition globals_null (m : Machine) : Prop :=
  g_r9_for_tpv_flag m = 0 /\ g_tpvHookAddress m = 0 /\ fpTPV_OriginalCode m = 0.

(** The process as the loader leaves it: the three globals are null and the
    mod holds no memory. *)
Definition pristine (m : Machine) : Prop :=
  globals_null m /\ live m = ∅.

(** A disable, remove or uninitialize of the hooking facility, or a free. *)
Definition is_teardown (ev : Event) : bool :=
  match ev with
  | EvMinHook _ _ | EvVirtualFree _ => true
  | _ => false
  end.

Definition is_error_log (ev : Event) : bool :=
  match ev with EvLog LOG_ERROR _ => true | _ => false end.

(** The monitoring thread came into being. *)
Definition thread_started (ev : Event) : bool :=
  match ev with EvCreateThread true => true | _ => false end.

(** Starting the monitoring thread, or writing a byte of the game. *)
Definition disturbs (ev : Event) : bool :=
  thread_started ev || is_write ev.

(** [m] after an unwind: the three globals null, [l] still held, [n] calls
    into the hooking facility so far, [new] added to the chronicle. *)
Definition released (l : gset Z) (n : nat) (new : list Event) (m : Machine)
    : Machine :=
  {| g_r9_for_tpv_flag := 0; fpTPV_OriginalCode := 0; g_tpvHookAddress := 0;
     cells := cells m; live := l; bytes := bytes m;
     key_was_down := key_was_down m;
     nsample := nsample m; mh_calls := n; env := env m;
     trace := new ++ trace m |}.

(** [m] in the middle of an unwind: the storage pointer is [g], [l] is
    still held, [n] calls into the hooking facility were made, [new] was
    added to the chronicle. *)
Definition unwinding (g : Z) (l : gset Z) (n : nat) (new : list Event)
    (m : Machine) : Machine :=
  {| g_r9_for_tpv_flag := g;
     fpTPV_OriginalCode := fpTPV_OriginalCode m;
     g_tpvHookAddress := g_tpvHookAddress m;
     cells := cells m; live := l; bytes := bytes m;
     key_was_down := key_was_down m;
     nsample := nsample m; mh_calls := n; env := env m;
     trace := new ++ trace m |}.

(** Neither a teardown operation nor an error line. *)
Definition is_quiet (ev : Event) : bool :=
  negb (is_teardown ev) && negb (is_error_log ev).

(** The chronicle grew from [t0] to [t] by events on which [P] is false. *)
Definition grew_without (P : Event -> bool) (t0 t : list Event) : Prop :=
  exists new, t = new ++ t0 /\ Forall (fun ev => P ev = false) new.

(** An environment in which everything succeeds except enabling the hook. *)
Definition enable_fails_env : Env :=
  {| vquery := fun _ => Some (page 0x04);
     read_fault := fun _ => false;
     write_fault := fun _ => false;
     bad_read_ptr := fun _ => false;
     key_input := fun _ _ => 0;
     mh_reply := fun _ call =>
                   match call with
                   | MH_EnableHook_call _ => MH_ERROR_MEMORY_PROTECT
                   | _ => MH_OK
                   end;
     mh_trampoline := 0x7000;
     alloc_result := 0x5000;
     module_lookup := fun _ => 0x10000;
     module_info := Some (0x10000, 8);
     aob_parsed := [Some 0x48; Some 0x8B; None; Some 0x10];
     thread_ok := true |}.

(** The freshly loaded process, with the game's code at 0x10000. *)
Definition loaded_machine (e : Env) : Machine :=
  {| g_r9_for_tpv_flag := 0; fpTPV_OriginalCode := 0; g_tpvHookAddress := 0;
     cells := fun _ => 0; live := ∅;
     bytes := buffer_at 0x10000 [0x48; 0x8B; 0x00; 0x10; 0x48; 0x8B; 0xFF; 0x10];
     key_was_down := ∅; nsample := 0; mh_calls := 0; env := e; trace := [] |}.

(** ** Observers for the further properties *)

(** Everything [safeToggleViewState] needs to go through: its own
    preconditions and those of the [setViewState] it delegates to. *)
Definition toggle_ready (m : Machine) : Prop :=
  toggle_preconditions m /\ patch_preconditions m.

(** The value a toggle asks for when it read [current_value]. *)
Definition toggled (current_value : Z) : Z :=
  if current_value =? 0 then 1 else 0.

(** Two presses of a Toggle key, one after the other. *)
Definition safeToggleViewState_twice (vk : Z) : M (bool * bool) :=
  let! first := safeToggleViewState vk in
  let! second := safeToggleViewState vk in
  ret (first, second).

Definition is_query (ev : Event) : bool :=
  match ev with EvVirtualQuery _ => true | _ => false end.

(** What [safeToggleViewState] records before it hands over to
    [setViewState], newest first. *)
Definition toggle_prelude (m : Machine) : list Event :=
  let p := g_r9_for_tpv_flag m in
  let a := flag_address (cells m p) in
  [EvLog LOG_DEBUG "safeToggleViewState: Target state";
   EvLog LOG_DEBUG "safeToggleViewState: Read current value";
   EvReadByte a (bytes m a);
   EvIsBadReadPtr a;
   EvLoadCell p (cells m p)].

Definition is_invoke (s : Step) : bool :=
  match s with Invoke _ _ => true | _ => false end.

Definition is_sample (s : Step) : bool :=
  match s with Sample _ => true | _ => false end.

Definition is_pause (s : Step) : bool :=
  match s with Pause _ => true | _ => false end.

(** A configuration with one Toggle key and nothing else. *)
Definition one_toggle_key (vk : Z) : ToggleData :=
  {| toggle_keys := [vk]; fpv_keys := []; tpv_keys := [] |}.

(** All keys of a configuration, in the order the loop visits them. *)
Definition all_keys (data : ToggleData) : list Z :=
  toggle_keys data ++ fpv_keys data ++ tpv_keys data.

(** What one fruitless attempt to find the module leaves in the chronicle. *)
Definition fruitless_attempt : list Event :=
  [EvGetModuleHandle 0; EvSleep 1000].

(** An environment in which the game module shows up at the third lookup. *)
Definition late_module_env : Env :=
  {| vquery := fun _ => Some (page 0x04);
     read_fault := fun _ => false;
     write_fault := fun _ => false;
     bad_read_ptr := fun _ => false;
     key_input := fun _ _ => 0;
     mh_reply := fun _ _ => MH_OK;
     mh_trampoline := 0x7000;
     alloc_result := 0x5000;
     module_lookup := fun i => if (i <? 2)%nat then 0 else 0x10000;
     module_info := Some (0x10000, 8);
     aob_parsed := [Some 0x48; Some 0x8B; None; Some 0x10];
     thread_ok := true |}.

(** An environment in which the game module is never loaded. *)
Definition absent_module_env : Env :=
  {| vquery := fun _ => Some (page 0x04);
     read_fault := fun _ => false;
     write_fault := fun _ => false;
     bad_read_ptr := fun _ => false;
     key_input := fun _ _ => 0;
     mh_reply := fun _ _ => MH_OK;
     mh_trampoline := 0x7000;
     alloc_result := 0x5000;
     module_lookup := fun _ => 0;
     module_info := None;
     aob_parsed := [Some 0x48; Some 0x8B; None; Some 0x10];
     thread_ok := true |}.

(** [mh_stat == MH_OK || mh_stat == MH_ERROR_DISABLED] *)
Definition disable_went_through (s : MH_STATUS) : bool :=
  mh_status_eqb s MH_OK || mh_status_eqb s MH_ERROR_DISABLED.

(** The teardown operations of the first block of [CleanupResources] on
    [m]: disable, and remove when the disable went through; nothing unless
    both the hook address and the continuation are set. *)
Definition hook_teardown (m : Machine) : list Event :=
  let hook := g_tpvHookAddress m in
  if negb (hook =? 0) && negb (fpTPV_OriginalCode m =? 0) then
    let s := mh_reply (env m) (mh_calls m) (MH_DisableHook_call hook) in
    EvMinHook (MH_DisableHook_call hook) s ::
    (if disable_went_through s
     then [EvMinHook (MH_RemoveHook_call hook)
             (mh_reply (env m) (S (mh_calls m)) (MH_RemoveHook_call hook))]
     else [])
  else [].

(** Of the second block, when [calls] calls were made so far: uninitialize,
    whenever the hook address is set. *)
Definition minhook_teardown (calls : nat) (m : Machine) : list Event :=
  if negb (g_tpvHookAddress m =? 0)
  then [EvMinHook MH_Uninitialize_call
          (mh_reply (env m) calls MH_Uninitialize_call)]
  else [].

(** Of the third block: the free, whenever the storage pointer is set. *)
Definition storage_teardown (m : Machine) : list Event :=
  if negb (g_r9_for_tpv_flag m =? 0)
  then [EvVirtualFree (g_r9_for_tpv_flag m)]
  else [].

Definition expected_teardown (m : Machine) : list Event :=
  hook_teardown m ++
  minhook_teardown (length (hook_teardown m) + mh_calls m) m ++
  storage_teardown m.

(** The number of calls into the hooking facility after an unwind of [m]. *)
Definition calls_after_unwind (m : Machine) : nat :=
  length (minhook_teardown (length (hook_teardown m) + mh_calls m) m) +
  (length (hook_teardown m) + mh_calls m).

(** The scan of [MainThread] succeeded on [m], and [hook] is the hook
    target it computed. *)
Definition scan_found (m : Machine) (hook : Z) : Prop :=
  exists base size start,
    module_info (env m) = Some (base, size) /\
    aob_parsed (env m) <> [] /\
    FindPattern (bytes m) base size (aob_parsed (env m)) = Some start /\
    start <> 0 /\
    hook = Win.wrap64 (start + Constants.HOOK_OFFSET).

Definition is_hooking_call (ev : Event) : bool :=
  match ev with EvMinHook _ _ => true | _ => false end.

Definition is_thread_call (ev : Event) : bool :=
  match ev with EvCreateThread _ => true | _ => false end.

(** What a successful initialization leaves, started on [m] and ending in
    [m'], and what it has done by then, [evs] being its events: the storage
    is allocated, held and zeroed; the hook address comes from the scan; the
    continuation is the one the hooking facility handed out; the facility
    was called three times, to initialize, to create and to enable the hook,
    each call answering [MH_OK]; and [CreateThread] was called once, with
    success. *)
Definition installed_by (evs : list Event) (m m' : Machine) : Prop :=
  alloc_result (env m) <> 0 /\
  g_r9_for_tpv_flag m' = alloc_result (env m) /\
  cells m' (g_r9_for_tpv_flag m') = 0 /\
  live m' = {[ alloc_result (env m) ]} /\
  scan_found m (g_tpvHookAddress m') /\
  mh_trampoline (env m) <> 0 /\
  fpTPV_OriginalCode m' = mh_trampoline (env m) /\
  List.filter is_hooking_call evs =
    [EvMinHook MH_Initialize_call MH_OK;
     EvMinHook (MH_CreateHook_call (g_tpvHookAddress m')) MH_OK;
     EvMinHook (MH_EnableHook_call (g_tpvHookAddress m')) MH_OK] /\
  List.filter is_thread_call evs = [EvCreateThread true].


(** Initialization followed by the unwind, as on process detach. *)
Definition MainThread_then_CleanupResources : M unit :=
  MainThread ;; CleanupResources.

(** ** The page check of [setViewState], bit by bit *)

(** Bits 2, 3, 6 and 7 of a protection value: [PAGE_READWRITE],
    [PAGE_WRITECOPY], [PAGE_EXECUTE_READWRITE], [PAGE_EXECUTE_WRITECOPY]. *)
Definition has_writable_bit (protect : Z) : bool :=
  Z.testbit protect 2 || Z.testbit protect 3 ||
  Z.testbit protect 6 || Z.testbit protect 7.

(** A read of, a write to, or a fault on a byte. *)
Definition is_access (ev : Event) : bool :=
  match accessed_address ev with Some _ => true | None => false end.

(** ** logger.cpp *)

(** The values of the enumerators of [LogLevel]. *)
Definition LogLevel_value (level : LogLevel) : Z :=
  match level with
  | LOG_DEBUG => 0
  | LOG_INFO => 1
  | LOG_WARNING => 2
  | LOG_ERROR => 3
  end.


Fixpoint spaces (n : nat) : string :=
  match n with
  | O => EmptyString
  | S n => String.append " " (spaces n)
  end.

(** [std::setw(w) << std::left << s] *)
Definition setw_left (w : nat) (s : string) : string :=
  String.append s (spaces (w - String.length s)).

Module Logger.

(** The logger: its threshold, the state of [log_file_stream], and the lines
    that went to the log file and to standard error, oldest first.  A write
    to a stream that is open and good is taken to go through and to leave
    the stream as it was. *)
Record State := {
  current_log_level : LogLevel;
  is_open : bool;
  good : bool;
  file : list string;
  cerr : list string
}.

(** The [switch] of [Logger::log]. *)
Definition level_str (level : LogLevel) : string :=
  match level with
  | LOG_DEBUG => "DEBUG"
  | LOG_INFO => "INFO"
  | LOG_WARNING => "WARNING"
  | LOG_ERROR => "ERROR"
  end.

(** The line [Logger::log] writes to the file; [ts] is what [getTimestamp]
    returned. *)
Definition file_entry (ts : string) (level : LogLevel) (message : string)
    : string :=
  ("[" ++ ts ++ "] " ++ "[" ++ setw_left 7 (level_str level) ++ "] :: "
   ++ message)%string.

(** The line [Logger::log] writes to standard error. *)
Definition cerr_entry (ts message : string) : string :=
  ("[LOG_FILE_ERROR] [" ++ ts ++ "] [ERROR] :: " ++ message)%string.

(** [Logger::log], with [ts] the value of its call of [getTimestamp]. *)
Definition log (ts : string) (level : LogLevel) (message : string)
    (st : State) : State :=
  if (LogLevel_value (current_log_level st) <=? LogLevel_value level)
     && is_open st && good st
  then
    {| current_log_level := current_log_level st;
       is_open := is_open st; good := good st;
       file := file st ++ [file_entry ts level message];
       cerr := cerr st |}
  else if (LogLevel_value level =? LogLevel_value LOG_ERROR)
          && negb (is_open st)
  then
    {| current_log_level := current_log_level st;
       is_open := is_open st; good := good st;
       file := file st;
       cerr := cerr st ++ [cerr_entry ts message] |}
  else st.


End Logger.

(** The log level [MainThread] takes from the configuration (dllmain.cpp). *)
Definition MainThread_log_level (config_log_level : string) : LogLevel :=
  if String.eqb config_log_level "DEBUG" then LOG_DEBUG
  else if String.eqb config_log_level "INFO" then LOG_INFO
  else if String.eqb config_log_level "WARNING" then LOG_WARNING
  else if String.eqb config_log_level "ERROR" then LOG_ERROR
  else LOG_INFO.



(** * Lemmas *)

Lemma bind_returns {A B} (c : M A) (k : A -> M B) m a m' :
  c m = (Ret a, m') -> bind c k m = k a m'.
Proof. intros H. unfold bind. now rewrite H. Qed.

Lemma bind_log {B} level message (k : unit -> M B) m :
  bind (log level message) k m = k tt (emit (EvLog level message) m).
Proof. reflexivity. Qed.

Lemma bind_modify {B} f (k : unit -> M B) m :
  bind (modify f) k m = k tt (f m).
Proof. reflexivity. Qed.

Lemma bind_throws {A B} (c : M A) (k : A -> M B) m e m' :
  c m = (Throw e, m') -> bind c k m = (Throw e, m').
Proof. intros H. unfold bind. now rewrite H. Qed.

Lemma bind_crashes {A B} (c : M A) (k : A -> M B) m m' :
  c m = (Crash, m') -> bind c k m = (Crash, m').
Proof. intros H. unfold bind. now rewrite H. Qed.

Lemma events_of_extension {A} (c : M A) m new :
  trace (snd (c m)) = new ++ trace m -> events c m = rev new.
Proof.
  intros H. unfold events. cbv zeta. rewrite H.
  rewrite length_app.
  replace (length new + length (trace m) - length (trace m))%nat
    with (length new) by lia.
  now rewrite take_app_length.
Qed.

Lemma events_of_patch {A} (c : M A) m o b new :
  c m = (o, patch b new m) -> events c m = rev new.
Proof. intros H. apply events_of_extension. now rewrite H. Qed.

Lemma setViewState_run new_state action_desc vk m :
  exists new,
    setViewState new_state action_desc vk m =
      (o_result (setViewState_outline new_state m),
       patch (o_bytes (setViewState_outline new_state m)) new m) /\
    effects (rev new) = o_effects (setViewState_outline new_state m).
Proof.
  unfold setViewState_outline. run.
  destruct (g_r9_for_tpv_flag m =? 0) eqn:Hp; cbn.
  2: destruct (cells m (g_r9_for_tpv_flag m) =? 0) eqn:Hr; cbn.
  3: destruct (vquery (env m) (flag_address (cells m (g_r9_for_tpv_flag m))))
       as [mem_info|] eqn:Hq; cbn.
  3: destruct (negb (mbi_State mem_info =? Win.MEM_COMMIT)
               || negb (is_writable mem_info)) eqn:Hok; cbn.
  4: destruct (read_fault (env m) (flag_address (cells m (g_r9_for_tpv_flag m))))
       eqn:Hrf; cbn.
  5: destruct (bytes m (flag_address (cells m (g_r9_for_tpv_flag m))) =? new_state)
       eqn:Hsame; cbn.
  6: destruct (write_fault (env m) (flag_address (cells m (g_r9_for_tpv_flag m))))
       eqn:Hwf; cbn.
  all: match goal with
       | |- exists new, (_, ?m0) = _ /\ _ =>
           let t := eval cbn in (trace m0) in
           let p := prefix_of t (trace m) in
           exists p
       end.
  all: split; reflexivity.
Qed.

Lemma setViewState_result ns d vk m :
  fst (setViewState ns d vk m) = o_result (setViewState_outline ns m).
Proof. destruct (setViewState_run ns d vk m) as (new & -> & _). reflexivity. Qed.

Lemma setViewState_bytes ns d vk m :
  bytes (snd (setViewState ns d vk m)) = o_bytes (setViewState_outline ns m).
Proof. destruct (setViewState_run ns d vk m) as (new & -> & _). reflexivity. Qed.

Lemma setViewState_effects ns d vk m :
  effects (events (setViewState ns d vk) m) =
  o_effects (setViewState_outline ns m).
Proof.
  destruct (setViewState_run ns d vk m) as (new & Hrun & Heff).
  now rewrite (events_of_patch _ _ _ _ _ Hrun).
Qed.

Lemma effects_keeps_access ev a :
  accessed_address ev = Some a -> negb (is_log ev) = true.
Proof. destruct ev; cbn; congruence. Qed.

Lemma query_before_effects evs :
  query_before_every_access (effects evs) -> query_before_every_access evs.
Proof.
  intros H pre ev post a -> Ha.
  unfold effects in H. rewrite List.filter_app in H. cbn in H.
  rewrite (effects_keeps_access _ _ Ha) in H.
  specialize (H _ _ _ _ eq_refl Ha).
  apply list_elem_of_In, List.filter_In in H. now apply list_elem_of_In.
Qed.

Lemma Forall_effects (P : Event -> Prop) evs :
  (forall ev, is_log ev = true -> P ev) ->
  Forall P (effects evs) -> Forall P evs.
Proof.
  intros Hlog H. rewrite Forall_forall. intros ev Hin.
  destruct (is_log ev) eqn:E; [now apply Hlog|].
  rewrite Forall_forall in H. apply H.
  apply list_elem_of_In, List.filter_In. split; [now apply list_elem_of_In|].
  now rewrite E.
Qed.

Ltac split_prefix :=
  repeat match goal with
  | E : _ = ?pre ++ _ :: _ |- _ =>
      destruct pre; cbn in E; simplify_eq; cbn in *; try discriminate
  end.

Lemma setViewState_outline_guarded ns m :
  query_before_every_access (o_effects (setViewState_outline ns m)).
Proof.
  unfold setViewState_outline.
  repeat match goal with
  | |- context [if ?b then _ else _] => destruct b
  | |- context [match vquery ?e ?a with _ => _ end] => destruct (vquery e a)
  end; cbn.
  all: intros pre ev post a E Ha; split_prefix.
  all: simplify_eq; set_solver.
Qed.

(** ** The patch executor *)

(** C1. On every call of [setViewState], whatever the machine it is called
    on, each access to the flag byte is preceded by a [VirtualQuery] of the
    flag address made in that same call; and when that query fails, or
    reports a page that is not committed or has no writable protection bit,
    the call returns [false], leaves every byte as it was and performs no
    write. *)
Theorem setViewState_validates_page_on_every_call :
  forall (new_state : Z) (action_desc : string) (vk : Z) (m : Machine),
    query_before_every_access (events (setViewState new_state action_desc vk) m) /\
    (query_refuses
       (vquery (env m) (flag_address (cells m (g_r9_for_tpv_flag m)))) ->
     fst (setViewState new_state action_desc vk m) = Ret false /\
     bytes (snd (setViewState new_state action_desc vk m)) = bytes m /\
     Forall (fun ev => is_write ev = false)
       (events (setViewState new_state action_desc vk) m)).
Proof.
  intros ns d vk m. split.
  - apply query_before_effects. rewrite setViewState_effects.
    apply setViewState_outline_guarded.
  - intros Hq.
    rewrite setViewState_result, setViewState_bytes.
    assert (Ho : o_result (setViewState_outline ns m) = Ret false /\
                 o_bytes (setViewState_outline ns m) = bytes m /\
                 Forall (fun ev => is_write ev = false)
                   (o_effects (setViewState_outline ns m))).
    { unfold setViewState_outline.
      destruct (g_r9_for_tpv_flag m =? 0); [cbn; auto|].
      destruct (cells m (g_r9_for_tpv_flag m) =? 0); [cbn; auto|].
      destruct (vquery (env m) (flag_address (cells m (g_r9_for_tpv_flag m))))
        as [mem_info|]; [|cbn; auto].
      cbn in Hq.
      assert (Hbad : negb (mbi_State mem_info =? Win.MEM_COMMIT)
                     || negb (is_writable mem_info) = true).
      { unfold is_writable. destruct Hq as [Hs | Hp].
        - apply Z.eqb_neq in Hs. now rewrite Hs.
        - rewrite Hp. cbn. apply orb_true_r. }
      rewrite Hbad. cbn. auto. }
    destruct Ho as (-> & -> & Hw). repeat split.
    apply Forall_effects; [now intros [] | now rewrite setViewState_effects].
Qed.

(** A read-only page: the call refuses and writes nothing. *)
Lemma setViewState_validates_page_witness :
  let m := active_machine (calm_env 0x02 (fun _ _ => 0)) 0x9000 0 in
  fst (setViewState 1 "Set TPV" 0x72 m) = Ret false /\
  bytes (snd (setViewState 1 "Set TPV" 0x72 m)) = bytes m /\
  Forall (fun ev => is_write ev = false)
    (events (setViewState 1 "Set TPV" 0x72) m).
Proof.
  intros m.
  apply (setViewState_validates_page_on_every_call 1 "Set TPV" 0x72 m).
  right. reflexivity.
Defined.

(** C2. When the storage pointer is null, or the cell it points to holds 0,
    [setViewState] returns [false] and nothing it does uses a flag address:
    no query, no read and no write. *)
Theorem setViewState_fails_when_pointer_not_captured :
  forall (new_state : Z) (action_desc : string) (vk : Z) (m : Machine),
    g_r9_for_tpv_flag m = 0 \/ cells m (g_r9_for_tpv_flag m) = 0 ->
    fst (setViewState new_state action_desc vk m) = Ret false /\
    bytes (snd (setViewState new_state action_desc vk m)) = bytes m /\
    Forall (fun ev => touches_target ev = false)
      (events (setViewState new_state action_desc vk) m).
Proof.
  intros ns d vk m H.
  rewrite setViewState_result, setViewState_bytes.
  assert (Ho : o_result (setViewState_outline ns m) = Ret false /\
               o_bytes (setViewState_outline ns m) = bytes m /\
               Forall (fun ev => touches_target ev = false)
                 (o_effects (setViewState_outline ns m))).
  { unfold setViewState_outline.
    destruct (g_r9_for_tpv_flag m =? 0) eqn:Hp; [cbn; auto|].
    destruct H as [H | H]; [apply Z.eqb_neq in Hp; contradiction|].
    rewrite H. cbn. repeat split. repeat constructor. }
  destruct Ho as (-> & -> & Hw). repeat split.
  apply Forall_effects; [now intros [] | now rewrite setViewState_effects].
Qed.

(** The hook has not run yet: the cell still holds 0. *)
Lemma setViewState_fails_when_pointer_not_captured_witness :
  let m := active_machine (calm_env 0x04 (fun _ _ => 0)) 0 0 in
  fst (setViewState 1 "Set TPV" 0x72 m) = Ret false /\
  bytes (snd (setViewState 1 "Set TPV" 0x72 m)) = bytes m /\
  Forall (fun ev => touches_target ev = false)
    (events (setViewState 1 "Set TPV" 0x72) m).
Proof.
  intros m.
  apply (setViewState_fails_when_pointer_not_captured 1 "Set TPV" 0x72 m).
  right. reflexivity.
Defined.

Lemma write_count_app evs1 evs2 :
  write_count (evs1 ++ evs2) = (write_count evs1 + write_count evs2)%nat.
Proof. unfold write_count. now rewrite List.filter_app, length_app. Qed.

Lemma write_count_effects evs : write_count (effects evs) = write_count evs.
Proof.
  unfold write_count, effects. induction evs as [|ev evs IH]; [reflexivity|].
  destruct ev; cbn in *; auto.
Qed.

Lemma setViewState_write_count ns d vk m :
  write_count (events (setViewState ns d vk) m) =
  write_count (o_effects (setViewState_outline ns m)).
Proof. now rewrite <- (setViewState_effects ns d vk m), write_count_effects. Qed.

Lemma setViewState_outline_ready ns m :
  patch_preconditions m ->
  let a := flag_address (cells m (g_r9_for_tpv_flag m)) in
  setViewState_outline ns m =
    if bytes m a =? ns then
      {| o_result := Ret true; o_bytes := bytes m;
         o_effects := [EvLoadCell (g_r9_for_tpv_flag m) (cells m (g_r9_for_tpv_flag m));
                       EvVirtualQuery a; EvReadByte a (bytes m a)] |}
    else
      {| o_result := Ret true; o_bytes := poke a ns (bytes m);
         o_effects := [EvLoadCell (g_r9_for_tpv_flag m) (cells m (g_r9_for_tpv_flag m));
                       EvVirtualQuery a; EvReadByte a (bytes m a);
                       EvWriteByte a ns] |}.
Proof.
  intros (Hp & Hr & (mem_info & Hq & Hs & Hw) & Hrf & Hwf) a. subst a.
  unfold setViewState_outline.
  apply Z.eqb_neq in Hp, Hr, Hw. rewrite Hp, Hr, Hq.
  unfold is_writable. rewrite Hs, Hw, Z.eqb_refl. cbn.
  rewrite Hrf, Hwf. reflexivity.
Qed.

Lemma patch_preconditions_patch b new m :
  patch_preconditions m -> patch_preconditions (patch b new m).
Proof. intros H. exact H. Qed.

Lemma poke_same a v b : poke a v b a = v.
Proof. unfold poke. now rewrite Z.eqb_refl. Qed.

(** The claim "two calls in a row perform exactly one write" fails when the
    flag byte already holds the requested value: then neither call writes. *)
Lemma setViewState_twice_writes_nothing_when_already_set :
  let m := active_machine (calm_env 0x04 (fun _ _ => 0)) 0x9000 1 in
  patch_preconditions m /\
  fst (setViewState_twice 1 "Set TPV" 0x72 m) = Ret (true, true) /\
  write_count (events (setViewState_twice 1 "Set TPV" 0x72) m) = 0%nat /\
  write_count (events (setViewState_twice 1 "Set TPV" 0x72) m) <> 1%nat.
Proof.
  intros m. split; [|vm_compute; repeat split; discriminate].
  unfold patch_preconditions. cbn.
  repeat split; try discriminate.
  exists (page 0x04). repeat split; discriminate.
Qed.

(** C3 (amended). With the preconditions holding: a call that finds the flag
    byte equal to the requested value returns [true] and writes nothing; two
    calls in a row with the same value both return [true], the second one
    never writes, and together they write exactly once when the byte
    differed from the value at first and not at all when it already equalled
    it. *)
Theorem setViewState_second_call_is_noop :
  forall (v : Z) (action_desc : string) (vk : Z) (m : Machine),
    patch_preconditions m ->
    let a := flag_address (cells m (g_r9_for_tpv_flag m)) in
    let first := setViewState v action_desc vk m in
    (bytes m a = v ->
       fst first = Ret true /\
       write_count (events (setViewState v action_desc vk) m) = 0%nat /\
       bytes (snd first) = bytes m) /\
    fst (setViewState_twice v action_desc vk m) = Ret (true, true) /\
    write_count (events (setViewState v action_desc vk) (snd first)) = 0%nat /\
    write_count (events (setViewState_twice v action_desc vk) m) =
      (if bytes m a =? v then 0%nat else 1%nat) /\
    bytes (snd (setViewState_twice v action_desc vk m)) a = v.
Proof.
  intros v d vk m Hpre a first.
  pose proof (setViewState_outline_ready v m Hpre) as Ho1. cbv zeta in Ho1. fold a in Ho1.
  destruct (setViewState_run v d vk m) as (new1 & Hrun1 & Heff1).
  set (o1 := setViewState_outline v m) in *.
  set (m1 := patch (o_bytes o1) new1 m) in *.
  assert (Hpre1 : patch_preconditions m1) by exact Hpre.
  pose proof (setViewState_outline_ready v m1 Hpre1) as Ho2. cbv zeta in Ho2.
  change (g_r9_for_tpv_flag m1) with (g_r9_for_tpv_flag m) in Ho2.
  change (cells m1) with (cells m) in Ho2. fold a in Ho2.
  change (bytes m1) with (o_bytes o1) in Ho2.
  assert (Hb1 : o_bytes o1 a = v).
  { rewrite Ho1. destruct (bytes m a =? v) eqn:E; cbn.
    - now apply Z.eqb_eq. - apply poke_same. }
  rewrite Hb1, Z.eqb_refl in Ho2.
  destruct (setViewState_run v d vk m1) as (new2 & Hrun2 & Heff2).
  rewrite Ho2 in Hrun2, Heff2.
  cbn [o_result o_bytes o_effects] in Hrun2, Heff2.
  assert (Hres1 : o_result o1 = Ret true).
  { rewrite Ho1. now destruct (bytes m a =? v). }
  rewrite Hres1 in Hrun1.
  assert (Hfirst : first = (Ret true, m1)) by exact Hrun1.
  assert (Htwice : setViewState_twice v d vk m =
                   (Ret (true, true), patch (o_bytes o1) new2 m1)).
  { unfold setViewState_twice.
    rewrite (bind_returns _ _ _ _ _ Hrun1), (bind_returns _ _ _ _ _ Hrun2).
    reflexivity. }
  split; [|repeat split].
  - intros Hsame. apply Z.eqb_eq in Hsame. rewrite Hsame in Ho1.
    rewrite Hfirst. cbn [fst snd].
    rewrite (setViewState_write_count v d vk m). fold o1.
    subst m1. rewrite Ho1. cbn. auto.
  - now rewrite Htwice.
  - rewrite Hfirst. cbn [snd].
    rewrite (setViewState_write_count v d vk m1), Ho2. reflexivity.
  - rewrite (events_of_extension _ m (new2 ++ new1)).
    2:{ rewrite Htwice. cbn. now rewrite app_assoc. }
    rewrite rev_app_distr, write_count_app.
    rewrite <- (write_count_effects (rev new1)), <- (write_count_effects (rev new2)).
    rewrite Heff1, Heff2. fold o1. rewrite Ho1.
    now destruct (bytes m a =? v).
  - rewrite Htwice. cbn. exact Hb1.
Qed.

(** First-person view requested while the flag is 1: one write, then none. *)
Lemma setViewState_second_call_is_noop_witness :
  let m := active_machine (calm_env 0x04 (fun _ _ => 0)) 0x9000 1 in
  fst (setViewState_twice 0 "Set FPV" 0x72 m) = Ret (true, true) /\
  write_count (events (setViewState_twice 0 "Set FPV" 0x72) m) = 1%nat.
Proof.
  intros m.
  assert (Hpre : patch_preconditions m).
  { unfold patch_preconditions. cbn. repeat split; try discriminate.
    exists (page 0x04). repeat split; discriminate. }
  destruct (setViewState_second_call_is_noop 0 "Set FPV" 0x72 m Hpre)
    as (_ & Hres & _ & Hcount & _).
  split; [exact Hres | exact Hcount].
Defined.

(** C8. When its preconditions hold, [safeToggleViewState] reads the flag
    byte and then is the call of [setViewState] with 1 when the byte read is
    0 and with 0 for every other byte value. *)
Theorem safeToggleViewState_delegates_opposite :
  forall (vk : Z) (m : Machine),
    toggle_preconditions m ->
    let p := g_r9_for_tpv_flag m in
    let a := flag_address (cells m p) in
    let current_value := bytes m a in
    safeToggleViewState vk m =
      setViewState (if current_value =? 0 then 1 else 0) "Toggle" vk
        (emits [EvLoadCell p (cells m p);
                EvIsBadReadPtr a;
                EvReadByte a current_value;
                EvLog LOG_DEBUG "safeToggleViewState: Read current value";
                EvLog LOG_DEBUG "safeToggleViewState: Target state"] m).
Proof.
  intros vk m (Hp & Hr & Hbad & Hrf) p a current_value.
  subst p a current_value.
  apply Z.eqb_neq in Hp, Hr.
  unfold safeToggleViewState, try_catch, bind, ret, throw, get, modify, log,
    load_cell, IsBadReadPtr, read_byte.
  cbn. rewrite Hp. cbn. rewrite Hr. cbn. rewrite Hbad. cbn. rewrite Hrf. cbn.
  reflexivity.
Qed.

(** Third-person view is on (byte 1, and likewise any nonzero byte such as
    7): the toggle asks [setViewState] for 0. *)
Lemma safeToggleViewState_delegates_opposite_witness :
  let m := active_machine (calm_env 0x04 (fun _ _ => 0)) 0x9000 7 in
  safeToggleViewState 0x72 m =
    setViewState 0 "Toggle" 0x72
      (emits [EvLoadCell 0x5000 0x9000;
              EvIsBadReadPtr 0x9038;
              EvReadByte 0x9038 7;
              EvLog LOG_DEBUG "safeToggleViewState: Read current value";
              EvLog LOG_DEBUG "safeToggleViewState: Target state"] m).
Proof.
  intros m.
  apply (safeToggleViewState_delegates_opposite 0x72 m).
  repeat split; discriminate.
Defined.

(** ** What an action does to the machine *)

Lemma Forall_of_effects (P : Event -> Prop) new :
  (forall ev, is_log ev = true -> P ev) ->
  Forall P (effects (rev new)) -> Forall P new.
Proof.
  intros Hlog H. apply (Forall_effects P _ Hlog) in H.
  rewrite Forall_forall in *. intros ev Hin. apply H.
  apply list_elem_of_In. apply -> List.in_rev. now apply list_elem_of_In.
Qed.

Lemma setViewState_outline_footprint ns m :
  (o_bytes (setViewState_outline ns m) = bytes m /\
   Forall (fun ev => is_write ev = false)
     (o_effects (setViewState_outline ns m))) \/
  (exists a,
     o_bytes (setViewState_outline ns m) = poke a ns (bytes m) /\
     Forall (fun ev => is_write ev = true -> ev = EvWriteByte a ns)
       (o_effects (setViewState_outline ns m))).
Proof.
  unfold setViewState_outline.
  repeat match goal with
  | |- context [if ?b then _ else _] => destruct b
  | |- context [match vquery ?e ?a with _ => _ end] => destruct (vquery e a)
  end; cbn.
  all: try (left; split; [reflexivity | repeat constructor]).
  right. eexists. split; [reflexivity|].
  repeat constructor; cbn; intros; congruence.
Qed.

Lemma setViewState_footprint ns d vk m :
  footprint (eq ns) m (snd (setViewState ns d vk m)).
Proof.
  destruct (setViewState_run ns d vk m) as (new & Hrun & Heff).
  rewrite Hrun. cbn [snd].
  exists (o_bytes (setViewState_outline ns m)), new. split; [reflexivity|].
  destruct (setViewState_outline_footprint ns m) as [(Hb & Hw) | (a & Hb & Hw)];
    rewrite <- Heff in Hw.
  - left. split; [exact Hb|]. apply Forall_of_effects; [now intros []|exact Hw].
  - right. exists a, ns. repeat split; [exact Hb|].
    apply Forall_of_effects; [|exact Hw]. intros [] ?; cbn in *; congruence.
Qed.

Lemma footprint_weaken (P Q : Z -> Prop) m m' :
  (forall v, P v -> Q v) -> footprint P m m' -> footprint Q m m'.
Proof.
  intros HPQ (b' & new & -> & Hw). exists b', new.
  split; [reflexivity|].
  destruct Hw as [Hw | (a & v & Hv & Hb & Hw)]; [now left|].
  right. exists a, v. auto.
Qed.

(** A stretch that writes nothing, then a footprint, is a footprint. *)
Lemma footprint_after_silent P pre m m' :
  Forall (fun ev => is_write ev = false) pre ->
  footprint P (patch (bytes m) pre m) m' -> footprint P m m'.
Proof.
  intros Hs (b' & new & -> & Hw).
  exists b', (new ++ pre). split.
  { unfold patch. cbn. now rewrite app_assoc. }
  destruct Hw as [(Hb & Hw) | (a & v & Hv & Hb & Hw)].
  - left. split; [exact Hb|now apply Forall_app].
  - right. exists a, v. repeat split; [exact Hv|exact Hb|].
    apply Forall_app. split; [exact Hw|].
    eapply Forall_impl; [exact Hs|]. cbn. intros ev E1 E2. congruence.
Qed.

Lemma footprint_silent P pre m :
  Forall (fun ev => is_write ev = false) pre ->
  footprint P m (patch (bytes m) pre m).
Proof. intros Hs. exists (bytes m), pre. auto. Qed.

Lemma setFirstPersonView_footprint vk m :
  footprint is_bit m (snd (setFirstPersonView vk m)).
Proof.
  eapply footprint_weaken; [|apply setViewState_footprint].
  intros v <-. now left.
Qed.

Lemma setThirdPersonView_footprint vk m :
  footprint is_bit m (snd (setThirdPersonView vk m)).
Proof.
  eapply footprint_weaken; [|apply setViewState_footprint].
  intros v <-. now right.
Qed.

Ltac silent_case m :=
  cbn [snd];
  match goal with
  | |- footprint _ _ ?m0 =>
      let t := eval cbn in (trace m0) in
      let p := prefix_of t (trace m) in
      apply (footprint_silent _ p m); repeat constructor
  end.

Lemma safeToggleViewState_footprint vk m :
  footprint is_bit m (snd (safeToggleViewState vk m)).
Proof.
  unfold safeToggleViewState, try_catch, bind, ret, throw, get, modify, log,
    load_cell, IsBadReadPtr, read_byte.
  cbn.
  destruct (g_r9_for_tpv_flag m =? 0) eqn:Hp; cbn; [silent_case m|].
  destruct (cells m (g_r9_for_tpv_flag m) =? 0) eqn:Hr; cbn; [silent_case m|].
  destruct (bad_read_ptr (env m) (flag_address (cells m (g_r9_for_tpv_flag m))))
    eqn:Hbad; cbn; [silent_case m|].
  destruct (read_fault (env m) (flag_address (cells m (g_r9_for_tpv_flag m))))
    eqn:Hrf; cbn; [silent_case m|].
  match goal with
  | |- footprint _ _ (snd (setViewState ?ns ?d ?k ?m0)) =>
      let t := eval cbn in (trace m0) in
      let p := prefix_of t (trace m) in
      apply (footprint_after_silent _ p m); [repeat constructor|];
      eapply footprint_weaken; [|apply (setViewState_footprint ns d k)]
  end.
  intros v <-. unfold is_bit.
  destruct (bytes m (flag_address (cells m (g_r9_for_tpv_flag m))) =? 0); auto.
Qed.

Lemma callee_footprint kind vk m :
  footprint is_bit m (snd (callee_of kind vk m)).
Proof.
  destruct kind; cbn [callee_of].
  - apply safeToggleViewState_footprint.
  - apply setFirstPersonView_footprint.
  - apply setThirdPersonView_footprint.
Qed.

(** No C++ exception leaves an action: [setViewState] throws nothing, and
    the one [throw] of [safeToggleViewState] is caught on the spot. *)
Lemma setViewState_no_throw ns d vk : no_throw (setViewState ns d vk).
Proof.
  intros m e. rewrite setViewState_result. unfold setViewState_outline.
  repeat match goal with
  | |- context [if ?b then _ else _] => destruct b
  | |- context [match vquery ?e ?a with _ => _ end] => destruct (vquery e a)
  end; cbn; discriminate.
Qed.

Lemma safeToggleViewState_no_throw vk : no_throw (safeToggleViewState vk).
Proof.
  intros m e.
  unfold safeToggleViewState, try_catch, bind, ret, throw, get, modify, log,
    load_cell, IsBadReadPtr, read_byte.
  cbn.
  destruct (g_r9_for_tpv_flag m =? 0); cbn; [discriminate|].
  destruct (cells m (g_r9_for_tpv_flag m) =? 0); cbn; [discriminate|].
  destruct (bad_read_ptr (env m) _); cbn; [discriminate|].
  destruct (read_fault (env m) _); cbn; [discriminate|].
  apply setViewState_no_throw.
Qed.

Lemma callee_no_throw kind vk : no_throw (callee_of kind vk).
Proof.
  destruct kind; cbn [callee_of].
  - apply safeToggleViewState_no_throw.
  - apply setViewState_no_throw.
  - apply setViewState_no_throw.
Qed.

(** An action ends in the machine it started on, but for the bytes and the
    chronicle. *)
Lemma callee_run kind vk m :
  exists o b new,
    callee_of kind vk m = (o, patch b new m) /\ forall e, o <> Throw e.
Proof.
  destruct (callee_footprint kind vk m) as (b & new & Hm & _).
  pose proof (callee_no_throw kind vk m) as Hthrow.
  destruct (callee_of kind vk m) as [o m'] eqn:Hrun. cbn [fst snd] in *.
  exists o, b, new. split; [now rewrite Hm|exact Hthrow].
Qed.

(** ** Values written to the flag byte *)

Lemma footprint_bits t0 m m' :
  footprint is_bit m m' -> bit_writes_since t0 m -> bit_writes_since t0 m'.
Proof.
  intros (b' & new & -> & Hw) (old & Ht & Hold).
  exists (new ++ old). split.
  { cbn. now rewrite Ht, app_assoc. }
  intros a v Hin. cbn [bytes patch].
  apply elem_of_app in Hin.
  destruct Hw as [(-> & Hw) | (a0 & v0 & Hv0 & -> & Hw)].
  - destruct Hin as [Hin | Hin]; [|now apply Hold].
    rewrite Forall_forall in Hw. specialize (Hw _ Hin). discriminate.
  - rewrite Forall_forall in Hw. unfold poke.
    destruct Hin as [Hin | Hin].
    + specialize (Hw _ Hin eq_refl). injection Hw as -> ->.
      now rewrite Z.eqb_refl.
    + destruct (Hold _ _ Hin) as (Hv & Hb). split; [exact Hv|].
      now destruct (a =? a0).
Qed.

Lemma bits_step t0 (m m' : Machine) new :
  trace m' = new ++ trace m ->
  Forall (fun ev => is_write ev = false) new ->
  bytes m' = bytes m ->
  bit_writes_since t0 m -> bit_writes_since t0 m'.
Proof.
  intros Ht Hw Hb (old & Hold & H). exists (new ++ old). split.
  { now rewrite Ht, Hold, app_assoc. }
  intros a v Hin. rewrite Hb. apply elem_of_app in Hin.
  destruct Hin as [Hin | Hin]; [|now apply H].
  rewrite Forall_forall in Hw. specialize (Hw _ Hin). discriminate.
Qed.

Lemma bits_since_start m : bit_writes_since (trace m) m.
Proof. exists []. split; [reflexivity|]. intros a v H. now apply elem_of_nil in H. Qed.

Lemma bits_of_events {A} (c : M A) m :
  bit_writes_since (trace m) (snd (c m)) ->
  forall a v,
    EvWriteByte a v ∈ events c m ->
    is_bit v /\ is_bit (bytes (snd (c m)) a).
Proof.
  intros (new & Ht & H) a v Hin.
  rewrite (events_of_extension _ _ _ Ht) in Hin.
  apply H. apply list_elem_of_In, List.in_rev. now apply list_elem_of_In.
Qed.

Lemma bit_safe_footprint {A} (c : M A) :
  (forall m, footprint is_bit m (snd (c m))) -> bit_safe c.
Proof. intros H t0 m. apply footprint_bits, H. Qed.

(** A step that writes no byte. *)
Lemma bit_safe_quiet {A} (c : M A) :
  (forall m, exists new,
      trace (snd (c m)) = new ++ trace m /\
      Forall (fun ev => is_write ev = false) new /\
      bytes (snd (c m)) = bytes m) ->
  bit_safe c.
Proof.
  intros H t0 m. destruct (H m) as (new & Ht & Hw & Hb).
  now apply (bits_step t0 m _ new).
Qed.

Lemma bit_safe_ret {A} (a : A) : bit_safe (ret a).
Proof. intros t0 m H. exact H. Qed.

Lemma bit_safe_bind {A B} (c : M A) (k : A -> M B) :
  bit_safe c -> (forall a, bit_safe (k a)) -> bit_safe (bind c k).
Proof.
  intros Hc Hk t0 m H. specialize (Hc t0 m H). unfold bind.
  destruct (c m) as [[a|e|] m1]; cbn [snd] in *; [now apply Hk|exact Hc..].
Qed.

Lemma bit_safe_try_catch {A} (c : M A) (h : Exn -> M A) :
  bit_safe c -> (forall e, bit_safe (h e)) -> bit_safe (try_catch c h).
Proof.
  intros Hc Hh t0 m H. specialize (Hc t0 m H). unfold try_catch.
  destruct (c m) as [[a|e|] m1]; cbn [snd] in *; [exact Hc|now apply Hh|exact Hc].
Qed.

Lemma bit_safe_log level message : bit_safe (log level message).
Proof.
  apply bit_safe_quiet. intros m. exists [EvLog level message].
  repeat split. repeat constructor.
Qed.

Lemma bit_safe_Sleep ms : bit_safe (Sleep ms).
Proof.
  apply bit_safe_quiet. intros m. exists [EvSleep ms].
  repeat split. repeat constructor.
Qed.

Lemma bit_safe_GetAsyncKeyState vk : bit_safe (GetAsyncKeyState vk).
Proof.
  apply bit_safe_quiet. intros m. exists [EvGetAsyncKeyState vk].
  repeat split. repeat constructor.
Qed.

Lemma bit_safe_key_was_down_at vk : bit_safe (key_was_down_at vk).
Proof.
  apply bit_safe_quiet. intros m. exists []. unfold key_was_down_at.
  destruct (key_was_down m !! vk); repeat split; constructor.
Qed.

Lemma bit_safe_set_key_was_down (f : Machine -> gmap Z bool) :
  bit_safe (modify (fun m => set_key_was_down (f m) m)).
Proof.
  apply bit_safe_quiet. intros m. exists []. repeat split. constructor.
Qed.

Lemma bit_safe_callee kind vk : bit_safe (callee_of kind vk).
Proof. apply bit_safe_footprint, callee_footprint. Qed.

Ltac bit_safety :=
  repeat first
    [ apply bit_safe_ret
    | apply bit_safe_log
    | apply bit_safe_Sleep
    | apply bit_safe_GetAsyncKeyState
    | apply bit_safe_key_was_down_at
    | apply bit_safe_set_key_was_down
    | apply bit_safe_callee
    | assumption
    | apply bit_safe_bind; [|intros ?]
    | apply bit_safe_try_catch; [|intros ?]
    | match goal with
      | |- bit_safe (if ?b then _ else _) => destruct b
      | |- bit_safe (match ?e with StdException _ => _ | OtherException => _ end) =>
          destruct e
      end ].

Section BitSafeLoop.

Variables toggle_action fpv_action tpv_action : Z -> M bool.
Hypothesis toggle_safe : forall vk, bit_safe (toggle_action vk).
Hypothesis fpv_safe : forall vk, bit_safe (fpv_action vk).
Hypothesis tpv_safe : forall vk, bit_safe (tpv_action vk).

Lemma bit_safe_check_key kind callee vk action :
  (forall vk, bit_safe (callee vk)) ->
  bit_safe (check_key kind callee vk action).
Proof.
  intros Hcallee. unfold check_key, key_was_down_assign.
  bit_safety. apply Hcallee.
Qed.

Lemma bit_safe_for_each_key kind callee keys :
  (forall vk, bit_safe (callee vk)) ->
  forall action, bit_safe (for_each_key kind callee keys action).
Proof.
  intros Hcallee. induction keys as [|vk rest IH]; intros action;
    cbn [for_each_key]; [apply bit_safe_ret|].
  apply bit_safe_bind; [now apply bit_safe_check_key|exact IH].
Qed.

Lemma bit_safe_poll_cycle tk fk pk :
  bit_safe (poll_cycle toggle_action fpv_action tpv_action tk fk pk).
Proof.
  unfold poll_cycle, poll_body.
  apply bit_safe_try_catch; [|intros e; bit_safety].
  repeat (apply bit_safe_bind; [now apply bit_safe_for_each_key|intros ?]).
  apply bit_safe_Sleep.
Qed.

Lemma bit_safe_poll_loop cycles tk fk pk :
  bit_safe (poll_loop toggle_action fpv_action tpv_action cycles tk fk pk).
Proof.
  induction cycles as [|n IH]; cbn [poll_loop]; [apply bit_safe_ret|].
  apply bit_safe_bind; [apply bit_safe_poll_cycle|intros _; exact IH].
Qed.

End BitSafeLoop.

Lemma bit_safe_idle_loop cycles : bit_safe (idle_loop cycles).
Proof.
  induction cycles as [|n IH]; cbn [idle_loop]; [apply bit_safe_ret|].
  apply bit_safe_bind; [apply bit_safe_Sleep|intros _; exact IH].
Qed.

Lemma bit_safe_ToggleThread param cycles : bit_safe (ToggleThread param cycles).
Proof.
  unfold ToggleThread. destruct param as [data|]; [|bit_safety].
  apply bit_safe_bind; [apply bit_safe_log|intros _].
  assert (Hidle : bit_safe
            (log LOG_INFO "ToggleThread: No keys configured. Idling." ;;
             idle_loop cycles ;; ret (@None Z))).
  { bit_safety. apply bit_safe_idle_loop. }
  assert (Hpoll : bit_safe
            (log LOG_INFO "ToggleThread: Keys: Toggle" ;;
             log LOG_INFO "ToggleThread: Keys: FPV" ;;
             log LOG_INFO "ToggleThread: Keys: TPV" ;;
             modify (set_key_was_down
                       (mark_up (tpv_keys data)
                          (mark_up (fpv_keys data)
                             (mark_up (toggle_keys data) ∅)))) ;;
             log LOG_INFO "ToggleThread: Entering key polling loop..." ;;
             poll_loop safeToggleViewState setFirstPersonView setThirdPersonView
               cycles (toggle_keys data) (fpv_keys data) (tpv_keys data) ;;
             ret (@None Z))).
  { apply bit_safe_bind; [apply bit_safe_log|intros _].
    apply bit_safe_bind; [apply bit_safe_log|intros _].
    apply bit_safe_bind; [apply bit_safe_log|intros _].
    apply bit_safe_bind;
      [apply (bit_safe_set_key_was_down (fun _ => _))|intros _].
    apply bit_safe_bind; [apply bit_safe_log|intros _].
    apply bit_safe_bind; [|intros _; apply bit_safe_ret].
    apply bit_safe_poll_loop; intros vk.
    - apply (bit_safe_callee ActToggle).
    - apply (bit_safe_callee ActFirstPerson).
    - apply (bit_safe_callee ActThirdPerson). }
  destruct (toggle_keys data), (fpv_keys data), (tpv_keys data);
    first [exact Hidle | exact Hpoll].
Qed.

Lemma bit_safe_perform s : bit_safe (perform s).
Proof. destruct s; cbn [perform]; bit_safety. Qed.

Lemma bit_safe_perform_all steps : bit_safe (perform_all steps).
Proof.
  induction steps as [|s rest IH]; cbn [perform_all]; [apply bit_safe_ret|].
  apply bit_safe_bind; [apply bit_safe_perform|intros _; exact IH].
Qed.

(** Whatever is bit-safe only adds to the chronicle. *)
Lemma bit_safe_grows {A} (c : M A) m :
  bit_safe c -> exists new, trace (snd (c m)) = new ++ trace m.
Proof.
  intros H. destruct (H (trace m) m (bits_since_start m)) as (new & Ht & _).
  now exists new.
Qed.

(** ** Actions do not look at the loop's state *)

Lemma outside_inv m1 m2 :
  outside m1 = outside m2 ->
  g_r9_for_tpv_flag m1 = g_r9_for_tpv_flag m2 /\
  cells m1 = cells m2 /\
  bytes m1 = bytes m2 /\
  nsample m1 = nsample m2 /\
  env m1 = env m2 /\
  effects (trace m1) = effects (trace m2).
Proof.
  intros H.
  split; [exact (f_equal g_r9_for_tpv_flag H)|].
  split; [exact (f_equal cells H)|].
  split; [exact (f_equal bytes H)|].
  split; [exact (f_equal nsample H)|].
  split; [exact (f_equal env H)|].
  exact (f_equal trace H).
Qed.

(** The outside of a machine after a step, from the outside before it. *)
Lemma outside_step (f : Machine -> Machine) m1 m2 :
  outside m1 = outside m2 ->
  (forall m, outside (f m) = outside (f (outside m))) ->
  outside (f m1) = outside (f m2).
Proof. intros H Hf. now rewrite (Hf m1), (Hf m2), H. Qed.

Lemma effects_idem evs : effects (effects evs) = effects evs.
Proof.
  unfold effects. induction evs as [|ev evs IH]; [reflexivity|].
  cbn. destruct (negb (is_log ev)) eqn:E; cbn; rewrite ?E, IH; reflexivity.
Qed.

Lemma outside_emit ev m : outside (emit ev m) = outside (emit ev (outside m)).
Proof.
  unfold outside, emit. cbn. f_equal.
  unfold effects. cbn. destruct (negb (is_log ev)); cbn;
    now rewrite <- (effects_idem (trace m)) at 1.
Qed.

Lemma respects_ret {A} (a : A) : respects (ret a).
Proof. intros m1 m2 H. split; [reflexivity|exact H]. Qed.

Lemma respects_throw {A} e : respects (@throw A e).
Proof. intros m1 m2 H. split; [reflexivity|exact H]. Qed.

Lemma respects_bind {A B} (c : M A) (k : A -> M B) :
  respects c -> (forall a, respects (k a)) -> respects (bind c k).
Proof.
  intros Hc Hk m1 m2 H. destruct (Hc m1 m2 H) as (Hfst & Hsnd). unfold bind.
  destruct (c m1) as [o1 m1'], (c m2) as [o2 m2']. cbn [fst snd] in *.
  subst o2. destruct o1 as [a|e|]; [now apply Hk|now split..].
Qed.

Lemma respects_try_catch {A} (c : M A) (h : Exn -> M A) :
  respects c -> (forall e, respects (h e)) -> respects (try_catch c h).
Proof.
  intros Hc Hh m1 m2 H. destruct (Hc m1 m2 H) as (Hfst & Hsnd).
  unfold try_catch.
  destruct (c m1) as [o1 m1'], (c m2) as [o2 m2']. cbn [fst snd] in *.
  subst o2. destruct o1 as [a|e|]; [now split|now apply Hh|now split].
Qed.

Lemma respects_log level message : respects (log level message).
Proof. intros m1 m2 H. split; [reflexivity|exact H]. Qed.

Lemma respects_Sleep ms : respects (Sleep ms).
Proof.
  intros m1 m2 H. split; [reflexivity|].
  apply (outside_step (emit (EvSleep ms))); [exact H|apply outside_emit].
Qed.

Lemma respects_get_g_r9_for_tpv_flag : respects (get g_r9_for_tpv_flag).
Proof.
  intros m1 m2 H. destruct (outside_inv _ _ H) as (Hg & _).
  split; [cbn; now rewrite Hg|exact H].
Qed.

Lemma respects_load_cell p : respects (load_cell p).
Proof.
  intros m1 m2 H. destruct (outside_inv _ _ H) as (_ & Hc & _).
  unfold load_cell. cbn [fst snd]. rewrite Hc. split; [reflexivity|].
  apply (outside_step (emit _)); [exact H|apply outside_emit].
Qed.

Lemma respects_VirtualQuery addr : respects (VirtualQuery addr).
Proof.
  intros m1 m2 H. destruct (outside_inv _ _ H) as (_ & _ & _ & _ & He & _).
  unfold VirtualQuery. cbn [fst snd]. rewrite He. split; [reflexivity|].
  apply (outside_step (emit _)); [exact H|apply outside_emit].
Qed.

Lemma respects_IsBadReadPtr addr : respects (IsBadReadPtr addr).
Proof.
  intros m1 m2 H. destruct (outside_inv _ _ H) as (_ & _ & _ & _ & He & _).
  unfold IsBadReadPtr. cbn [fst snd]. rewrite He. split; [reflexivity|].
  apply (outside_step (emit _)); [exact H|apply outside_emit].
Qed.

Lemma respects_GetAsyncKeyState vk : respects (GetAsyncKeyState vk).
Proof.
  intros m1 m2 H.
  destruct (outside_inv _ _ H) as (_ & _ & _ & Hn & He & _).
  unfold GetAsyncKeyState. cbn [fst snd]. rewrite He, Hn.
  split; [reflexivity|].
  apply (outside_step (fun m => emit (EvGetAsyncKeyState vk)
                                  (set_nsample (S (nsample m2)) m)));
    [exact H|].
  intros m. unfold outside, emit, set_nsample. cbn. f_equal.
  now rewrite effects_idem.
Qed.

Lemma respects_read_byte addr : respects (read_byte addr).
Proof.
  intros m1 m2 H.
  destruct (outside_inv _ _ H) as (_ & _ & Hb & _ & He & _).
  unfold read_byte. rewrite He, Hb.
  destruct (read_fault (env m2) addr); cbn [fst snd];
    (split; [reflexivity|]);
    apply (outside_step (emit _)); first [exact H|apply outside_emit].
Qed.

Lemma respects_write_byte addr v : respects (write_byte addr v).
Proof.
  intros m1 m2 H.
  destruct (outside_inv _ _ H) as (_ & _ & Hb & _ & He & _).
  unfold write_byte. rewrite He, Hb.
  destruct (write_fault (env m2) addr); cbn [fst snd];
    (split; [reflexivity|]).
  - apply (outside_step (emit _)); [exact H|apply outside_emit].
  - apply (outside_step
             (fun m => emit (EvWriteByte addr v)
                         (set_bytes (fun a => if a =? addr then v
                                              else bytes m2 a) m)));
      [exact H|].
    intros m. unfold outside, emit, set_bytes. cbn. f_equal.
    now rewrite effects_idem.
Qed.

Ltac respect :=
  repeat first
    [ apply respects_ret
    | apply respects_throw
    | apply respects_log
    | apply respects_Sleep
    | apply respects_get_g_r9_for_tpv_flag
    | apply respects_load_cell
    | apply respects_VirtualQuery
    | apply respects_IsBadReadPtr
    | apply respects_GetAsyncKeyState
    | apply respects_read_byte
    | apply respects_write_byte
    | assumption
    | apply respects_bind; [|intros ?]
    | apply respects_try_catch; [|intros ?]
    | progress cbv zeta
    | match goal with
      | |- respects (if ?b then _ else _) => destruct b
      | |- respects (match ?x with Some _ => _ | None => _ end) => destruct x
      | |- respects (match ?e with StdException _ => _ | OtherException => _ end) =>
          destruct e
      end ].

Lemma respects_setViewState ns d vk : respects (setViewState ns d vk).
Proof. unfold setViewState. respect. Qed.

Lemma respects_safeToggleViewState vk : respects (safeToggleViewState vk).
Proof. unfold safeToggleViewState. respect. Qed.

Lemma respects_callee kind vk : respects (callee_of kind vk).
Proof.
  destruct kind; cbn [callee_of].
  - apply respects_safeToggleViewState.
  - apply respects_setViewState.
  - apply respects_setViewState.
Qed.

(** ** The polling loop *)

Lemma ToggleThread_polls data cycles m :
  has_keys data = true ->
  ToggleThread (Some data) cycles m =
    bind (poll_loop safeToggleViewState setFirstPersonView setThirdPersonView
            cycles (toggle_keys data) (fpv_keys data) (tpv_keys data))
      (fun _ => ret None) (ToggleThread_setup data m).
Proof.
  destruct data as [t f p]. unfold has_keys, ToggleThread.
  destruct t, f, p; cbn; intros H; try discriminate; reflexivity.
Qed.

Lemma bind_ret_inv {A B} (c : M A) (k : A -> M B) m b m' :
  bind c k m = (Ret b, m') ->
  exists a m1, c m = (Ret a, m1) /\ k a m1 = (Ret b, m').
Proof.
  unfold bind. destruct (c m) as [[a|e|] m1]; intros H; try discriminate.
  now exists a, m1.
Qed.

Lemma perform_all_app s1 s2 m :
  perform_all (s1 ++ s2) m =
  bind (perform_all s1) (fun _ => perform_all s2) m.
Proof.
  revert m. induction s1 as [|s rest IH]; intros m; [reflexivity|].
  cbn [app perform_all]. unfold bind.
  destruct (perform s m) as [[[]|e|] m1]; [|reflexivity..].
  rewrite IH. reflexivity.
Qed.

Lemma perform_no_throw s : no_throw (perform s).
Proof.
  intros m e. destruct s as [vk|kind vk|ms]; cbn [perform]; [discriminate| |discriminate].
  unfold bind. pose proof (callee_no_throw kind vk m) as H.
  destruct (callee_of kind vk m) as [[r|e'|] m1]; cbn [fst] in *;
    [discriminate| |discriminate].
  now contradiction (H e').
Qed.

Lemma perform_all_no_throw steps : no_throw (perform_all steps).
Proof.
  induction steps as [|s rest IH]; intros m e; [discriminate|].
  cbn [perform_all]. unfold bind.
  pose proof (perform_no_throw s m) as H.
  destruct (perform s m) as [[[]|e'|] m1]; cbn [fst] in *;
    [apply IH| |discriminate].
  now contradiction (H e').
Qed.

(** The loop's own code first, the steps of the reference second: when the
    first stretches agree, and the rest agrees whenever both returned, the
    whole agrees. *)
Lemma agree_bind {A B} (c : M A) (k : A -> M B) s1 s2 m1 m2 :
  agree (c m1) (perform_all s1 m2) ->
  (forall a m1' m2',
      c m1 = (Ret a, m1') -> perform_all s1 m2 = (Ret tt, m2') ->
      outside m1' = outside m2' ->
      agree (k a m1') (perform_all s2 m2')) ->
  agree (bind c k m1) (perform_all (s1 ++ s2) m2).
Proof.
  intros (Hend & Hout) Hk. rewrite perform_all_app. unfold bind.
  destruct (c m1) as [[a|e|] m1'], (perform_all s1 m2) as [[[]|e'|] m2'];
    cbn [fst snd ending] in *; try discriminate.
  - now apply Hk.
  - now split.
  - now split.
Qed.

Lemma check_key_eq kind callee vk action m :
  check_key kind callee vk action m =
    if key_is_down (key_input (env m) (nsample m) vk)
       && negb (default false (key_was_down m !! vk))
    then
      bind (callee vk)
        (fun _ => bind (key_was_down_assign vk true) (fun _ => ret true))
        (emit (EvLog LOG_DEBUG (pressed_message kind))
           (match key_was_down m !! vk with
            | Some _ =>
                emit (EvGetAsyncKeyState vk) (set_nsample (S (nsample m)) m)
            | None =>
                set_key_was_down (<[vk := false]> (key_was_down m))
                  (emit (EvGetAsyncKeyState vk)
                     (set_nsample (S (nsample m)) m))
            end))
    else
      (Ret action,
       set_key_was_down
         (<[vk := key_is_down (key_input (env m) (nsample m) vk)]>
            (key_was_down m))
         (emit (EvGetAsyncKeyState vk) (set_nsample (S (nsample m)) m))).
Proof.
  unfold check_key, bind, ret, GetAsyncKeyState, key_was_down_at,
    key_was_down_assign, modify, log.
  cbn.
  destruct (key_is_down (key_input (env m) (nsample m) vk)); cbn;
    [|reflexivity].
  destruct (key_was_down m !! vk) as [[|]|]; cbn; try reflexivity;
    now destruct (callee vk _) as [[r|e|] m'].
Qed.

(** One visit of a key.  On a rising edge the action is called, on the
    machine as it stands after the sample; the debounce map is updated when
    the visit returns. *)
Lemma check_key_sim kind vk action m1 m2 :
  outside m1 = outside m2 ->
  let down := key_is_down (key_input (env m1) (nsample m1) vk) in
  let edge := down && negb (default false (key_was_down m1 !! vk)) in
  agree (check_key kind (callee_of kind) vk action m1)
    (perform_all (Sample vk :: (if edge then [Invoke kind vk] else [])) m2) /\
  (forall r m1',
      check_key kind (callee_of kind) vk action m1 = (Ret r, m1') ->
      r = edge || action /\
      key_was_down m1' = <[vk := down]> (key_was_down m1) /\
      nsample m1' = S (nsample m1) /\
      env m1' = env m1).
Proof.
  intros H. cbv zeta.
  destruct (respects_GetAsyncKeyState vk m1 m2 H) as (_ & Hs).
  unfold GetAsyncKeyState in Hs. cbn [snd] in Hs.
  rewrite check_key_eq.
  assert (Hquiet :
    forall k,
      agree (A := bool) (B := unit)
        (Ret action,
         set_key_was_down k
           (emit (EvGetAsyncKeyState vk) (set_nsample (S (nsample m1)) m1)))
        (perform_all [Sample vk] m2) /\
      (forall r m1',
          (Ret action,
           set_key_was_down k
             (emit (EvGetAsyncKeyState vk) (set_nsample (S (nsample m1)) m1)))
            = (Ret r, m1') ->
          r = false || action /\ key_was_down m1' = k /\
          nsample m1' = S (nsample m1) /\ env m1' = env m1)).
  { intros k. split; [now split|].
    intros r m1' Hr. injection Hr as <- <-. cbn. auto. }
  assert (Hfire :
    forall m1b,
      outside m1b =
        outside (emit (EvGetAsyncKeyState vk) (set_nsample (S (nsample m2)) m2)) ->
      nsample m1b = S (nsample m1) -> env m1b = env m1 ->
      agree
        (bind (callee_of kind vk)
           (fun _ => bind (key_was_down_assign vk true) (fun _ => ret true)) m1b)
        (perform_all [Sample vk; Invoke kind vk] m2) /\
      (forall r m1',
          bind (callee_of kind vk)
            (fun _ => bind (key_was_down_assign vk true) (fun _ => ret true)) m1b
            = (Ret r, m1') ->
          r = true || action /\
          key_was_down m1' = <[vk := true]> (key_was_down m1b) /\
          nsample m1' = S (nsample m1) /\ env m1' = env m1)).
  { intros m1b Hout Hn He.
    set (m2a := emit (EvGetAsyncKeyState vk) (set_nsample (S (nsample m2)) m2))
      in *.
    destruct (respects_callee kind vk m1b m2a Hout) as (Hfst & Hout').
    destruct (callee_run kind vk m1b) as (o & b & new & Hrun & Hnt).
    cbn [perform_all perform].
    unfold bind, GetAsyncKeyState, key_was_down_assign, modify, ret.
    cbn beta iota. fold m2a.
    rewrite Hrun in *. cbn [fst snd] in Hfst, Hout' |- *.
    destruct (callee_of kind vk m2a) as [o2 m2c]. cbn [fst snd] in Hfst, Hout'.
    subst o2. destruct o as [r|e|].
    - split; [now split|].
      intros r0 m1' Hr. injection Hr as <- <-. cbn. auto.
    - now contradiction (Hnt e).
    - split; [now split|]. intros r0 m1' Hr. discriminate. }
  destruct (key_is_down (key_input (env m1) (nsample m1) vk)) eqn:Hdown;
    [|exact (Hquiet _)].
  destruct (key_was_down m1 !! vk) as [[|]|] eqn:Hlook;
    cbn [default negb andb].
  - exact (Hquiet _).
  - match goal with
    | |- context [bind _ _ ?m0] =>
        destruct (Hfire m0 Hs eq_refl eq_refl) as (Ha & Hp)
    end.
    split; [exact Ha|]. intros r m1' Hr.
    destruct (Hp r m1' Hr) as (-> & Hk & Hn & He). auto.
  - match goal with
    | |- context [bind _ _ ?m0] =>
        destruct (Hfire m0 Hs eq_refl eq_refl) as (Ha & Hp)
    end.
    split; [exact Ha|]. intros r m1' Hr.
    destruct (Hp r m1' Hr) as (-> & Hk & Hn & He).
    repeat split; [|exact Hn|exact He].
    rewrite Hk. cbn. apply insert_insert_eq.
Qed.

Lemma for_each_key_sim kind keys :
  forall action m1 m2 steps ls f,
    outside m1 = outside m2 ->
    expected_visits kind keys (key_input (env m1)) (nsample m1)
      (key_was_down m1) action = (steps, ls, f) ->
    agree (for_each_key kind (callee_of kind) keys action m1)
      (perform_all steps m2) /\
    (forall r m1',
        for_each_key kind (callee_of kind) keys action m1 = (Ret r, m1') ->
        r = f /\ key_was_down m1' = ls /\
        nsample m1' = (nsample m1 + length keys)%nat /\
        env m1' = env m1).
Proof.
  induction keys as [|vk rest IH]; intros action m1 m2 steps ls f H Hexp.
  - cbn in Hexp. injection Hexp as <- <- <-. cbn [for_each_key perform_all].
    split; [now split|].
    intros r m1' Hrun. injection Hrun as <- <-.
    repeat split. cbn. lia.
  - cbn [expected_visits] in Hexp.
    destruct (check_key_sim kind vk action m1 m2 H) as (Hvisit & Hpost).
    cbv zeta in Hvisit, Hpost.
    set (down := key_is_down (key_input (env m1) (nsample m1) vk)) in *.
    set (edge := down && negb (default false (key_was_down m1 !! vk))) in *.
    destruct (expected_visits kind rest (key_input (env m1)) (S (nsample m1))
                (<[vk := down]> (key_was_down m1)) (edge || action))
      as [[steps' ls'] f'] eqn:Hrest.
    injection Hexp as <- <- <-.
    assert (Hnext : forall r m1' m2',
              check_key kind (callee_of kind) vk action m1 = (Ret r, m1') ->
              outside m1' = outside m2' ->
              agree (for_each_key kind (callee_of kind) rest r m1')
                (perform_all steps' m2') /\
              (forall r' m1'',
                  for_each_key kind (callee_of kind) rest r m1' = (Ret r', m1'') ->
                  r' = f' /\ key_was_down m1'' = ls' /\
                  nsample m1'' = (nsample m1 + length (vk :: rest))%nat /\
                  env m1'' = env m1)).
    { intros r m1' m2' Hrun Hout.
      destruct (Hpost r m1' Hrun) as (-> & Hk & Hn & He).
      destruct (IH (edge || action) m1' m2' steps' ls' f' Hout) as (Ha & Hp).
      { now rewrite He, Hn, Hk. }
      split; [exact Ha|].
      intros r' m1'' Hrun'. destruct (Hp r' m1'' Hrun') as (-> & Hk' & Hn' & He').
      repeat split; [exact Hk'| |congruence].
      rewrite Hn', Hn. cbn [length]. lia. }
    split.
    + cbn [for_each_key].
      change (Sample vk :: (if edge then [Invoke kind vk] else []) ++ steps')
        with ((Sample vk :: (if edge then [Invoke kind vk] else [])) ++ steps').
      apply agree_bind; [exact Hvisit|].
      intros r m1' m2' Hrun _ Hout. now apply (Hnext r m1' m2').
    + intros r' m1'' Hrun. cbn [for_each_key] in Hrun.
      apply bind_ret_inv in Hrun. destruct Hrun as (r & m1' & Hrun & Hrun').
      exact (proj2 (Hnext r m1' m1' Hrun eq_refl) r' m1'' Hrun').
Qed.

Lemma poll_body_sim tk fk pk m1 m2 steps ls :
  outside m1 = outside m2 ->
  expected_cycle tk fk pk (key_input (env m1)) (nsample m1) (key_was_down m1)
    = (steps, ls) ->
  agree (poll_body safeToggleViewState setFirstPersonView setThirdPersonView
           tk fk pk m1)
    (perform_all steps m2) /\
  (forall m1',
      poll_body safeToggleViewState setFirstPersonView setThirdPersonView
        tk fk pk m1 = (Ret tt, m1') ->
      key_was_down m1' = ls /\
      nsample m1' = (nsample m1 + length tk + length fk + length pk)%nat /\
      env m1' = env m1).
Proof.
  intros H. unfold expected_cycle.
  destruct (expected_visits ActToggle tk (key_input (env m1)) (nsample m1)
              (key_was_down m1) false) as [[s1 ls1] f1] eqn:H1.
  destruct (expected_visits ActFirstPerson fk (key_input (env m1))
              (nsample m1 + length tk) ls1 f1) as [[s2 ls2] f2] eqn:H2.
  destruct (expected_visits ActThirdPerson pk (key_input (env m1))
              (nsample m1 + length tk + length fk) ls2 f2)
    as [[s3 ls3] f3] eqn:H3.
  intros Hexp. injection Hexp as <- <-.
  pose proof (fun m2 H => for_each_key_sim ActToggle tk false m1 m2 s1 ls1 f1 H H1)
    as Hsim1.
  cbn [callee_of] in Hsim1.
  assert (Hsim2 : forall m1a m2a,
            for_each_key ActToggle safeToggleViewState tk false m1 = (Ret f1, m1a) ->
            outside m1a = outside m2a ->
            agree (for_each_key ActFirstPerson setFirstPersonView fk f1 m1a)
              (perform_all s2 m2a) /\
            (forall r m1b,
                for_each_key ActFirstPerson setFirstPersonView fk f1 m1a
                  = (Ret r, m1b) ->
                r = f2 /\ key_was_down m1b = ls2 /\
                nsample m1b = (nsample m1 + length tk + length fk)%nat /\
                env m1b = env m1)).
  { intros m1a m2a Hrun Hout.
    destruct (proj2 (Hsim1 m2 H) f1 m1a Hrun) as (_ & Hk & Hn & He).
    destruct (for_each_key_sim ActFirstPerson fk f1 m1a m2a s2 ls2 f2 Hout)
      as (Ha & Hp).
    { now rewrite He, Hn, Hk. }
    split; [exact Ha|].
    intros r m1b Hrun'. destruct (Hp r m1b Hrun') as (-> & Hk' & Hn' & He').
    repeat split; [exact Hk'|now rewrite Hn', Hn|congruence]. }
  assert (Hsim3 : forall m1a m1b m2b,
            for_each_key ActToggle safeToggleViewState tk false m1 = (Ret f1, m1a) ->
            for_each_key ActFirstPerson setFirstPersonView fk f1 m1a
              = (Ret f2, m1b) ->
            outside m1b = outside m2b ->
            agree (for_each_key ActThirdPerson setThirdPersonView pk f2 m1b)
              (perform_all s3 m2b) /\
            (forall r m1c,
                for_each_key ActThirdPerson setThirdPersonView pk f2 m1b
                  = (Ret r, m1c) ->
                r = f3 /\ key_was_down m1c = ls3 /\
                nsample m1c =
                  (nsample m1 + length tk + length fk + length pk)%nat /\
                env m1c = env m1)).
  { intros m1a m1b m2b Hrun1 Hrun2 Hout.
    destruct (proj2 (Hsim2 m1a m1a Hrun1 eq_refl) f2 m1b Hrun2)
      as (_ & Hk & Hn & He).
    destruct (for_each_key_sim ActThirdPerson pk f2 m1b m2b s3 ls3 f3 Hout)
      as (Ha & Hp).
    { now rewrite He, Hn, Hk. }
    split; [exact Ha|].
    intros r m1c Hrun'. destruct (Hp r m1c Hrun') as (-> & Hk' & Hn' & He').
    repeat split; [exact Hk'|now rewrite Hn', Hn|congruence]. }
  split.
  - unfold poll_body.
    apply agree_bind; [exact (proj1 (Hsim1 m2 H))|].
    intros a1 m1a m2a Hrun1 _ Hout1.
    destruct (proj2 (Hsim1 m2 H) a1 m1a Hrun1) as (-> & _).
    apply agree_bind; [exact (proj1 (Hsim2 m1a m2a Hrun1 Hout1))|].
    intros a2 m1b m2b Hrun2 _ Hout2.
    destruct (proj2 (Hsim2 m1a m2a Hrun1 Hout1) a2 m1b Hrun2) as (-> & _).
    rewrite <- (app_nil_r [Pause (if f3 then 15 else 50)]).
    apply agree_bind; [exact (proj1 (Hsim3 m1a m1b m2b Hrun1 Hrun2 Hout2))|].
    intros a3 m1c m2c Hrun3 _ Hout3.
    destruct (proj2 (Hsim3 m1a m1b m2b Hrun1 Hrun2 Hout2) a3 m1c Hrun3)
      as (-> & _).
    cbn [app perform_all perform]. unfold bind, Sleep, modify, ret. cbn [fst snd].
    split; [reflexivity|].
    apply (outside_step (emit _)); [exact Hout3|apply outside_emit].
  - intros m1' Hrun. unfold poll_body in Hrun.
    apply bind_ret_inv in Hrun. destruct Hrun as (a1 & m1a & Hrun1 & Hrun).
    destruct (proj2 (Hsim1 m2 H) a1 m1a Hrun1) as (-> & _).
    apply bind_ret_inv in Hrun. destruct Hrun as (a2 & m1b & Hrun2 & Hrun).
    destruct (proj2 (Hsim2 m1a m1a Hrun1 eq_refl) a2 m1b Hrun2) as (-> & _).
    apply bind_ret_inv in Hrun. destruct Hrun as (a3 & m1c & Hrun3 & Hrun).
    destruct (proj2 (Hsim3 m1a m1b m1b Hrun1 Hrun2 eq_refl) a3 m1c Hrun3)
      as (-> & Hk & Hn & He).
    unfold Sleep, modify in Hrun. injection Hrun as <-. cbn. auto.
Qed.

(** With the three actions of the program as callees the [try] block throws
    nothing, so the handlers of the cycle are never entered. *)
Lemma poll_cycle_is_poll_body tk fk pk m :
  poll_cycle safeToggleViewState setFirstPersonView setThirdPersonView
    tk fk pk m =
  poll_body safeToggleViewState setFirstPersonView setThirdPersonView
    tk fk pk m.
Proof.
  destruct (expected_cycle tk fk pk (key_input (env m)) (nsample m)
              (key_was_down m)) as [steps ls] eqn:Hexp.
  destruct (poll_body_sim tk fk pk m m steps ls eq_refl Hexp) as ((Hend & _) & _).
  unfold poll_cycle, try_catch.
  destruct (poll_body _ _ _ tk fk pk m) as [[[]|e|] m']; try reflexivity.
  cbn [fst ending] in Hend. symmetry in Hend.
  pose proof (perform_all_no_throw steps m e) as Hnt.
  destruct (perform_all steps m) as [[[]|e'|] m2]; cbn [fst ending] in *;
    try discriminate.
  injection Hend as ->. now contradiction Hnt.
Qed.

Lemma poll_loop_sim cycles tk fk pk :
  forall m1 m2,
    outside m1 = outside m2 ->
    agree (poll_loop safeToggleViewState setFirstPersonView setThirdPersonView
             cycles tk fk pk m1)
      (perform_all
         (expected_loop cycles tk fk pk (key_input (env m1)) (nsample m1)
            (key_was_down m1)) m2).
Proof.
  induction cycles as [|n IH]; intros m1 m2 H.
  - cbn [poll_loop expected_loop perform_all]. now split.
  - cbn [poll_loop expected_loop].
    destruct (expected_cycle tk fk pk (key_input (env m1)) (nsample m1)
                (key_was_down m1)) as [steps ls] eqn:Hexp.
    destruct (poll_body_sim tk fk pk m1 m2 steps ls H Hexp) as (Hbody & Hpost).
    apply agree_bind.
    + now rewrite poll_cycle_is_poll_body.
    + intros [] m1' m2' Hrun _ Hout.
      rewrite poll_cycle_is_poll_body in Hrun.
      destruct (Hpost m1' Hrun) as (Hk & Hn & He).
      specialize (IH m1' m2' Hout). now rewrite He, Hn, Hk in IH.
Qed.

Lemma ToggleThread_sim data cycles m :
  has_keys data = true ->
  agree (ToggleThread (Some data) cycles m)
    (perform_all
       (expected_loop cycles (toggle_keys data) (fpv_keys data) (tpv_keys data)
          (key_input (env m)) (nsample m)
          (mark_up (tpv_keys data)
             (mark_up (fpv_keys data) (mark_up (toggle_keys data) ∅)))) m).
Proof.
  intros Hk. rewrite (ToggleThread_polls data cycles m Hk).
  destruct (poll_loop_sim cycles (toggle_keys data) (fpv_keys data)
              (tpv_keys data) (ToggleThread_setup data m) m eq_refl)
    as (Hend & Hout).
  cbn [ToggleThread_setup loop_patch env nsample key_was_down] in Hend, Hout.
  unfold bind.
  destruct (poll_loop _ _ _ cycles _ _ _ (ToggleThread_setup data m))
    as [[[]|e|] m']; cbn [fst snd ending] in *; now split.
Qed.

Lemma effects_app evs1 evs2 : effects (evs1 ++ evs2) = effects evs1 ++ effects evs2.
Proof. apply List.filter_app. Qed.

Lemma effects_rev evs : effects (rev evs) = rev (effects evs).
Proof. apply List.filter_rev. Qed.

(** Runs that agree, started on the same machine, behave alike. *)
Lemma same_behaviour_of_agree {A B} (c : M A) (d : M B) m :
  bit_safe c -> bit_safe d -> agree (c m) (d m) -> same_behaviour c d m.
Proof.
  intros Hc Hd (Hend & Hout).
  destruct (bit_safe_grows c m Hc) as (new1 & Ht1).
  destruct (bit_safe_grows d m Hd) as (new2 & Ht2).
  destruct (outside_inv _ _ Hout) as (_ & _ & Hb & _ & _ & Ht).
  split; [exact Hend|]. split; [|exact Hb].
  rewrite (events_of_extension _ _ _ Ht1), (events_of_extension _ _ _ Ht2).
  rewrite Ht1, Ht2, !effects_app in Ht. apply app_inv_tail in Ht.
  now rewrite !effects_rev, Ht.
Qed.


Lemma bit_safe_actions_poll_body tk fk pk :
  bit_safe (poll_body safeToggleViewState setFirstPersonView
              setThirdPersonView tk fk pk).
Proof.
  unfold poll_body.
  apply bit_safe_bind;
    [apply bit_safe_for_each_key; intros vk; apply (bit_safe_callee ActToggle)|
     intros ?].
  apply bit_safe_bind;
    [apply bit_safe_for_each_key; intros vk;
     apply (bit_safe_callee ActFirstPerson)|intros ?].
  apply bit_safe_bind;
    [apply bit_safe_for_each_key; intros vk;
     apply (bit_safe_callee ActThirdPerson)|intros ?].
  apply bit_safe_Sleep.
Qed.




(** ** Exceptions and access violations *)

Lemma idle_loop_run cycles m :
  exists new,
    idle_loop cycles m = (Ret tt, patch (bytes m) new m) /\
    Forall (fun ev => is_write ev = false) new.
Proof.
  revert m. induction cycles as [|n IH]; intros m.
  - exists []. split; [now destruct m|constructor].
  - cbn [idle_loop]. unfold bind, Sleep, modify.
    destruct (IH (emit (EvSleep 5000) m)) as (new & Hrun & Hw).
    rewrite Hrun. exists (new ++ [EvSleep 5000]). split.
    + unfold patch. cbn. now rewrite <- app_assoc.
    + apply Forall_app. split; [exact Hw|repeat constructor].
Qed.

Lemma ToggleThread_idles data cycles m :
  has_keys data = false ->
  ToggleThread (Some data) cycles m =
    bind (idle_loop cycles) (fun _ => ret None)
      (patch (bytes m)
         [EvLog LOG_INFO "ToggleThread: No keys configured. Idling.";
          EvLog LOG_INFO "ToggleThread: Monitoring thread started."] m).
Proof.
  destruct data as [t f p]. unfold has_keys, ToggleThread.
  destruct t, f, p; cbn; intros H; try discriminate; reflexivity.
Qed.

Lemma setViewState_fault_is_crash ns d vk m a :
  EvFault a ∈ events (setViewState ns d vk) m ->
  fst (setViewState ns d vk m) = Crash.
Proof.
  intros Hin. rewrite setViewState_result.
  assert (Hin' : EvFault a ∈ o_effects (setViewState_outline ns m)).
  { rewrite <- (setViewState_effects ns d vk m).
    apply list_elem_of_In, List.filter_In. split; [now apply list_elem_of_In|].
    reflexivity. }
  revert Hin'. unfold setViewState_outline.
  repeat match goal with
  | |- context [if ?b then _ else _] => destruct b
  | |- context [match vquery ?e ?a with _ => _ end] => destruct (vquery e a)
  end; cbn; intros H; try reflexivity; exfalso.
  all: repeat match type of H with
       | _ ∈ _ :: _ => apply elem_of_cons in H; destruct H as [H|H];
                         [discriminate|]
       end.
  all: now apply elem_of_nil in H.
Qed.

(** C4 does not hold of the code.  The read and the write of the flag byte
    are plain dereferences inside a C++ [try] block; an access violation is
    not a C++ exception, so neither handler of [setViewState] runs and
    neither handler of the loop: (1) a call of [setViewState] in which an
    access to the flag byte raised does not return [false], it ends the
    process; (2) a poll cycle whose [try] block ends that way ends that way
    itself, in the same machine: no error line is logged and no 1000 ms
    sleep is made; (3) and no later cycle runs. *)
Theorem access_violation_is_not_caught :
  (forall (new_state : Z) (action_desc : string) (vk : Z) (m : Machine) a,
      EvFault a ∈ events (setViewState new_state action_desc vk) m ->
      fst (setViewState new_state action_desc vk m) = Crash) /\
  (forall (toggle_action fpv_action tpv_action : Z -> M bool)
          (tk fk pk : list Z) (m m' : Machine),
      poll_body toggle_action fpv_action tpv_action tk fk pk m = (Crash, m') ->
      poll_cycle toggle_action fpv_action tpv_action tk fk pk m = (Crash, m')) /\
  (forall (toggle_action fpv_action tpv_action : Z -> M bool)
          (cycles : nat) (tk fk pk : list Z) (m m' : Machine),
      poll_cycle toggle_action fpv_action tpv_action tk fk pk m = (Crash, m') ->
      poll_loop toggle_action fpv_action tpv_action (S cycles) tk fk pk m
        = (Crash, m')).
Proof.
  split; [|split].
  - intros ns d vk m a. apply setViewState_fault_is_crash.
  - intros toggle_action fpv_action tpv_action tk fk pk m m' Hbody.
    unfold poll_cycle, try_catch. now rewrite Hbody.
  - intros toggle_action fpv_action tpv_action cycles tk fk pk m m' Hcycle.
    cbn [poll_loop]. now apply bind_crashes.
Qed.

(** The flag byte lies on a guarded read-write page and F3 is bound to
    ForceThirdPerson: the page check passes, the read raises, and the
    thread is gone in its first cycle, without an error line or a sleep. *)
Lemma access_violation_is_not_caught_witness :
  let m := active_machine guard_page_env 0x9000 0 in
  let run :=
    ToggleThread
      (Some {| toggle_keys := []; fpv_keys := []; tpv_keys := [0x72] |}) 3 in
  is_writable (page 0x104) = true /\
  fst (setViewState 1 "Set TPV" 0x72 m) = Crash /\
  fst (run m) = Crash /\
  effects (events run m) =
    [EvGetAsyncKeyState 0x72; EvLoadCell 0x5000 0x9000;
     EvVirtualQuery 0x9038; EvFault 0x9038] /\
  List.filter is_error_log (events run m) = [].
Proof.
  intros m run.
  split; [reflexivity|]. split.
  - apply (proj1 access_violation_is_not_caught 1 "Set TPV"%string 0x72 m
             0x9038).
    vm_compute. repeat constructor.
  - vm_compute. auto.
Defined.

(** ** The memory scanner *)

Lemma matches_at_spec mem pattern :
  forall a, matches_at mem a pattern = true <-> pattern_matches mem a pattern.
Proof.
  induction pattern as [|p rest IH]; intros a.
  - split; [|reflexivity]. intros _ i p H. discriminate.
  - assert (Hshift : pattern_matches mem (a + 1) rest <->
                     (forall i q, rest !! i = Some q ->
                        q = None \/ q = Some (mem (a + Z.of_nat (S i))))).
    { unfold pattern_matches. split; intros H i q Hi; specialize (H i q Hi).
      - now replace (a + Z.of_nat (S i)) with (a + 1 + Z.of_nat i) by lia.
      - now replace (a + 1 + Z.of_nat i) with (a + Z.of_nat (S i)) by lia. }
    destruct p as [b|]; cbn [matches_at].
    + rewrite andb_true_iff, IH, Hshift, Z.eqb_eq. split.
      * intros (Hb & Hrest) [|i] q Hi; cbn in Hi.
        -- injection Hi as <-. right. rewrite Z.add_0_r. now rewrite Hb.
        -- now apply Hrest.
      * intros H. split.
        -- destruct (H 0%nat (Some b) eq_refl) as [E|E]; [discriminate|].
           rewrite Z.add_0_r in E. now injection E.
        -- intros i q Hi. exact (H (S i) q Hi).
    + rewrite IH, Hshift. split.
      * intros Hrest [|i] q Hi; cbn in Hi.
        -- injection Hi as <-. now left.
        -- now apply Hrest.
      * intros H i q Hi. exact (H (S i) q Hi).
Qed.

Lemma matches_at_ext mem1 mem2 pattern :
  forall a,
    (forall x, a <= x < a + Z.of_nat (length pattern) -> mem1 x = mem2 x) ->
    matches_at mem1 a pattern = matches_at mem2 a pattern.
Proof.
  induction pattern as [|p rest IH]; intros a H; [reflexivity|].
  cbn [length] in H. cbn [matches_at].
  rewrite (IH (a + 1)) by (intros x Hx; apply H; lia).
  destruct p as [b|]; [|reflexivity].
  now rewrite (H a) by lia.
Qed.

Lemma scan_from_found mem pattern positions :
  forall a r,
    scan_from mem a positions pattern = Some r ->
    a <= r < a + Z.of_nat positions /\
    matches_at mem r pattern = true /\
    (forall a', a <= a' < r -> matches_at mem a' pattern = false).
Proof.
  induction positions as [|n IH]; intros a r H; [discriminate|].
  cbn [scan_from] in H.
  destruct (matches_at mem a pattern) eqn:Hm.
  - injection H as <-. repeat split; [lia|lia|exact Hm|intros a' Ha'; lia].
  - destruct (IH _ _ H) as (Hr & Hmr & Hmin).
    repeat split; [lia|lia|exact Hmr|].
    intros a' Ha'. destruct (Z.eq_dec a' a) as [->|Hne]; [exact Hm|].
    apply Hmin. lia.
Qed.

Lemma scan_from_missed mem pattern positions :
  forall a,
    scan_from mem a positions pattern = None <->
    (forall a', a <= a' < a + Z.of_nat positions ->
                matches_at mem a' pattern = false).
Proof.
  induction positions as [|n IH]; intros a.
  - split; [intros _ a' Ha'; lia|reflexivity].
  - cbn [scan_from]. destruct (matches_at mem a pattern) eqn:Hm.
    + split; [discriminate|]. intros H. rewrite (H a) in Hm by lia. discriminate.
    + rewrite IH. split.
      * intros H a' Ha'. destruct (Z.eq_dec a' a) as [->|Hne]; [exact Hm|].
        apply H. lia.
      * intros H a' Ha'. apply H. lia.
Qed.

Lemma scan_from_ext mem1 mem2 pattern positions :
  forall a,
    (forall x, a <= x < a + Z.of_nat positions + Z.of_nat (length pattern) - 1 ->
               mem1 x = mem2 x) ->
    scan_from mem1 a positions pattern = scan_from mem2 a positions pattern.
Proof.
  induction positions as [|n IH]; intros a H; [reflexivity|].
  cbn [scan_from].
  rewrite (matches_at_ext mem1 mem2 pattern a) by (intros x Hx; apply H; lia).
  rewrite (IH (a + 1)) by (intros x Hx; apply H; lia).
  reflexivity.
Qed.

(** C9. The scanner of section 4.2.  An answer [a] lies in
    [[base, base+length-patternLength]], matches there (every pattern byte a
    wildcard or equal to the region's byte), and no lower address of the
    range matches.  The answer is "not found" exactly when the pattern is
    longer than the region or no address of the range matches.  The answer
    depends on no byte outside [[base, base+length)].  On the buffer of the
    end-to-end scenario, which matches at offsets 0 and 4, it is offset 0. *)
Theorem FindPattern_returns_lowest_match :
  (forall mem base length pattern a,
      FindPattern mem base length pattern = Some a ->
      base <= a <= base + length - Z.of_nat (List.length pattern) /\
      pattern_matches mem a pattern /\
      (forall a', base <= a' < a -> ~ pattern_matches mem a' pattern)) /\
  (forall mem base length pattern,
      FindPattern mem base length pattern = None <->
      (length < Z.of_nat (List.length pattern) \/
       forall a', base <= a' <= base + length - Z.of_nat (List.length pattern) ->
                  ~ pattern_matches mem a' pattern)) /\
  (forall mem1 mem2 base length pattern,
      (forall x, base <= x < base + length -> mem1 x = mem2 x) ->
      FindPattern mem1 base length pattern =
      FindPattern mem2 base length pattern) /\
  (forall base,
      let mem := buffer_at base [0x48; 0x8B; 0x00; 0x10; 0x48; 0x8B; 0xFF; 0x10] in
      pattern_matches mem base pattern_48_8B_any_10 /\
      pattern_matches mem (base + 4) pattern_48_8B_any_10 /\
      FindPattern mem base 8 pattern_48_8B_any_10 = Some base).
Proof.
  split; [|split; [|split]].
  - intros mem base len pattern a. unfold FindPattern.
    destruct (len <? Z.of_nat (length pattern)) eqn:Hlen; [discriminate|].
    apply Z.ltb_ge in Hlen. intros H.
    destruct (scan_from_found _ _ _ _ _ H) as (Hr & Hm & Hmin).
    rewrite Z2Nat.id in Hr by lia.
    repeat split; [lia|lia|now apply matches_at_spec|].
    intros a' Ha' Hm'. apply matches_at_spec in Hm'.
    rewrite (Hmin a' Ha') in Hm'. discriminate.
  - intros mem base len pattern. unfold FindPattern.
    destruct (len <? Z.of_nat (length pattern)) eqn:Hlen.
    + apply Z.ltb_lt in Hlen. split; [now left|reflexivity].
    + apply Z.ltb_ge in Hlen. rewrite scan_from_missed.
      rewrite Z2Nat.id by lia. split.
      * intros H. right. intros a' Ha' Hm. apply matches_at_spec in Hm.
        rewrite (H a') in Hm by lia. discriminate.
      * intros [H|H] a' Ha'; [lia|].
        destruct (matches_at mem a' pattern) eqn:Hm; [|reflexivity].
        exfalso. apply (H a'); [lia|]. now apply matches_at_spec.
  - intros mem1 mem2 base len pattern H. unfold FindPattern.
    destruct (len <? Z.of_nat (length pattern)) eqn:Hlen; [reflexivity|].
    apply Z.ltb_ge in Hlen. apply scan_from_ext.
    intros x Hx. apply H. rewrite Z2Nat.id in Hx by lia. lia.
  - intros base mem. split; [|split].
    + apply matches_at_spec. subst mem. unfold buffer_at, pattern_48_8B_any_10.
      cbn [matches_at length].
      repeat match goal with
      | |- context [base <=? ?x] => replace (base <=? x) with true by (symmetry; apply Z.leb_le; lia)
      | |- context [?x <? base + ?n] => replace (x <? base + n) with true by (symmetry; apply Z.ltb_lt; lia)
      end.
      cbn [andb].
      replace (base - base) with 0 by lia.
      replace (base + 1 - base) with 1 by lia.
      replace (base + 1 + 1 + 1 - base) with 3 by lia.
      reflexivity.
    + apply matches_at_spec. subst mem. unfold buffer_at, pattern_48_8B_any_10.
      cbn [matches_at length].
      repeat match goal with
      | |- context [base <=? ?x] => replace (base <=? x) with true by (symmetry; apply Z.leb_le; lia)
      | |- context [?x <? base + ?n] => replace (x <? base + n) with true by (symmetry; apply Z.ltb_lt; lia)
      end.
      cbn [andb].
      replace (base + 4 - base) with 4 by lia.
      replace (base + 4 + 1 - base) with 5 by lia.
      replace (base + 4 + 1 + 1 + 1 - base) with 7 by lia.
      reflexivity.
    + unfold FindPattern. cbn [length pattern_48_8B_any_10 Z.of_nat].
      change (8 <? Z.of_nat 4) with false. cbv iota.
      change (Z.to_nat (8 - Z.of_nat 4 + 1)) with 5%nat.
      cbn [scan_from].
      assert (Hm : matches_at mem base pattern_48_8B_any_10 = true).
      { subst mem. unfold buffer_at, pattern_48_8B_any_10.
        cbn [matches_at length].
        repeat match goal with
        | |- context [base <=? ?x] => replace (base <=? x) with true by (symmetry; apply Z.leb_le; lia)
        | |- context [?x <? base + ?n] => replace (x <? base + n) with true by (symmetry; apply Z.ltb_lt; lia)
        end.
        cbn [andb].
        replace (base - base) with 0 by lia.
        replace (base + 1 - base) with 1 by lia.
        replace (base + 1 + 1 + 1 - base) with 3 by lia.
        reflexivity. }
      now rewrite Hm.
Qed.

(** The scenario buffer loaded at 0x10000: found at 0x10000, which matches,
    inside the region. *)
Lemma FindPattern_returns_lowest_match_witness :
  let mem := buffer_at 0x10000 [0x48; 0x8B; 0x00; 0x10; 0x48; 0x8B; 0xFF; 0x10] in
  FindPattern mem 0x10000 8 pattern_48_8B_any_10 = Some 0x10000 /\
  0x10000 <= 0x10000 <= 0x10000 + 8 - 4 /\
  pattern_matches mem 0x10000 pattern_48_8B_any_10.
Proof.
  intros mem.
  assert (H : FindPattern mem 0x10000 8 pattern_48_8B_any_10 = Some 0x10000)
    by reflexivity.
  split; [exact H|].
  destruct (proj1 FindPattern_returns_lowest_match mem 0x10000 8
              pattern_48_8B_any_10 0x10000 H) as (Hr & Hm & _).
  split; [exact Hr|exact Hm].
Defined.

(** ** Initialization and unwind *)

Ltac give_unwinding m :=
  match goal with
  | |- exists n new, (_, ?m0) = _ /\ _ =>
      let t := eval cbn in (trace m0) in
      let p := prefix_of t (trace m) in
      let n0 := eval cbn in (mh_calls m0) in
      exists n0, p
  end.

Lemma cleanup_hook_run m :
  exists n new,
    cleanup_hook m =
      (Ret tt, unwinding (g_r9_for_tpv_flag m) (live m) n new m) /\
    Forall (fun ev => disturbs ev = false) new /\
    (g_tpvHookAddress m = 0 ->
     n = mh_calls m /\ Forall (fun ev => is_quiet ev = true) new).
Proof.
  unfold cleanup_hook, MinHook, log, bind, ret, get, modify. cbn.
  destruct (g_tpvHookAddress m =? 0) eqn:Hh; cbn.
  { give_unwinding m. repeat split; repeat constructor. }
  apply Z.eqb_neq in Hh.
  destruct (fpTPV_OriginalCode m =? 0) eqn:Ho; cbn.
  { give_unwinding m. repeat split; try contradiction; repeat constructor. }
  match goal with
  | |- context [if ?c then _ else _] => destruct c; cbn
  end.
  2:{ give_unwinding m. repeat split; try contradiction; repeat constructor. }
  match goal with
  | |- context [if ?c then _ else _] => destruct c; cbn
  end.
  all: give_unwinding m; repeat split; try contradiction; repeat constructor.
Qed.

Lemma cleanup_minhook_run m :
  exists n new,
    cleanup_minhook m =
      (Ret tt, unwinding (g_r9_for_tpv_flag m) (live m) n new m) /\
    Forall (fun ev => disturbs ev = false) new /\
    (g_tpvHookAddress m = 0 ->
     n = mh_calls m /\ Forall (fun ev => is_quiet ev = true) new).
Proof.
  unfold cleanup_minhook, MinHook, log, bind, ret, get, modify. cbn.
  destruct (g_tpvHookAddress m =? 0) eqn:Hh; cbn.
  { exists (mh_calls m), []. split; [now destruct m|].
    repeat split; repeat constructor. }
  apply Z.eqb_neq in Hh.
  match goal with
  | |- context [if ?c then _ else _] => destruct c; cbn
  end.
  all: give_unwinding m; repeat split; try contradiction; repeat constructor.
Qed.

Lemma cleanup_storage_run m :
  exists l new,
    cleanup_storage m = (Ret tt, unwinding 0 l (mh_calls m) new m) /\
    Forall (fun ev => disturbs ev = false) new /\
    (g_r9_for_tpv_flag m = 0 ->
     l = live m /\ Forall (fun ev => is_quiet ev = true) new) /\
    (g_r9_for_tpv_flag m <> 0 -> l = live m ∖ {[ g_r9_for_tpv_flag m ]}).
Proof.
  unfold cleanup_storage, VirtualFree, log, bind, ret, get, modify. cbn.
  destruct (g_r9_for_tpv_flag m =? 0) eqn:Hs; cbn.
  { apply Z.eqb_eq in Hs.
    exists (live m),
      [EvLog LOG_DEBUG "Cleanup: R9 storage already freed or not allocated."].
    split; [unfold unwinding, emit; now rewrite Hs|].
    repeat split; try contradiction; repeat constructor. }
  apply Z.eqb_neq in Hs.
  destruct (bool_decide_reflect (g_r9_for_tpv_flag m ∈ live m)) as [Hin|Hout];
    cbn.
  - exists (live m ∖ {[ g_r9_for_tpv_flag m ]}),
      [EvVirtualFree (g_r9_for_tpv_flag m);
       EvLog LOG_DEBUG "Cleanup: Freeing R9 storage memory"].
    repeat split; try contradiction; repeat constructor.
  - exists (live m),
      [EvLog LOG_ERROR "Cleanup: VirtualFree failed for R9 storage.";
       EvVirtualFree (g_r9_for_tpv_flag m);
       EvLog LOG_DEBUG "Cleanup: Freeing R9 storage memory"].
    repeat split; try contradiction; repeat constructor.
    intros _. apply set_eq. intros x.
    rewrite elem_of_difference, elem_of_singleton. split.
    + intros Hx. split; [exact Hx|]. intros ->. contradiction.
    + now intros [Hx _].
Qed.

Lemma unwinding_unwinding g1 l1 n1 new1 g2 l2 n2 new2 m :
  unwinding g2 l2 n2 new2 (unwinding g1 l1 n1 new1 m) =
  unwinding g2 l2 n2 (new2 ++ new1) m.
Proof. unfold unwinding. cbn. now rewrite app_assoc. Qed.

Lemma CleanupResources_run m :
  exists l n new,
    CleanupResources m = (Ret tt, released l n new m) /\
    Forall (fun ev => disturbs ev = false) new /\
    (g_r9_for_tpv_flag m = 0 -> l = live m) /\
    (g_r9_for_tpv_flag m <> 0 -> l = live m ∖ {[ g_r9_for_tpv_flag m ]}) /\
    (g_r9_for_tpv_flag m = 0 -> g_tpvHookAddress m = 0 ->
     n = mh_calls m /\ Forall (fun ev => is_quiet ev = true) new).
Proof.
  set (line0 := EvLog LOG_INFO "Cleanup: Starting resource cleanup...").
  set (line1 := EvLog LOG_INFO "Cleanup: Resource cleanup finished.").
  set (m0 := emit line0 m).
  destruct (cleanup_hook_run m0) as (n1 & new1 & Hrun1 & Hts1 & Hq1).
  set (m1 := unwinding (g_r9_for_tpv_flag m0) (live m0) n1 new1 m0) in *.
  destruct (cleanup_minhook_run m1) as (n2 & new2 & Hrun2 & Hts2 & Hq2).
  set (m2 := unwinding (g_r9_for_tpv_flag m1) (live m1) n2 new2 m1) in *.
  destruct (cleanup_storage_run m2) as (l & new3 & Hrun3 & Hts3 & Hq3 & Hl3).
  set (m3 := unwinding 0 l (mh_calls m2) new3 m2) in *.
  exists l, n2, (line1 :: new3 ++ new2 ++ new1 ++ [line0]).
  split.
  { unfold CleanupResources.
    rewrite bind_log. fold line0. fold m0.
    rewrite (bind_returns _ _ _ _ _ Hrun1), (bind_returns _ _ _ _ _ Hrun2),
      (bind_returns _ _ _ _ _ Hrun3).
    unfold bind, modify, log, m3, m2, m1, m0, released, unwinding. cbn.
    now rewrite <- !app_assoc. }
  split.
  { constructor; [reflexivity|].
    repeat (apply Forall_app; split); try assumption. repeat constructor. }
  split; [intros Hs; now apply Hq3|].
  split; [intros Hs; now apply Hl3|].
  intros Hs Hh.
  destruct (Hq1 Hh) as (-> & Hquiet1).
  destruct (Hq2 Hh) as (-> & Hquiet2).
  destruct (Hq3 Hs) as (_ & Hquiet3).
  split; [reflexivity|].
  constructor; [reflexivity|].
  repeat (apply Forall_app; split); try assumption. repeat constructor.
Qed.

Arguments CleanupResources : simpl never.

Lemma is_quiet_split ev :
  is_quiet ev = true -> is_teardown ev = false /\ is_error_log ev = false.
Proof.
  unfold is_quiet. rewrite andb_true_iff, !negb_true_iff. tauto.
Qed.

(** C5. [CleanupResources] can be called again.  From any machine it
    returns and leaves the three globals null.  Called on a machine whose
    three globals are already null (as after a first call, or when nothing
    was ever allocated or hooked) it also performs no disable, remove,
    uninitialize or free, logs no error and releases nothing. *)
Theorem CleanupResources_idempotent :
  (forall m,
      fst (CleanupResources m) = Ret tt /\
      globals_null (snd (CleanupResources m))) /\
  (forall m,
      globals_null m ->
      fst (CleanupResources m) = Ret tt /\
      globals_null (snd (CleanupResources m)) /\
      live (snd (CleanupResources m)) = live m /\
      mh_calls (snd (CleanupResources m)) = mh_calls m /\
      Forall (fun ev => is_teardown ev = false /\ is_error_log ev = false)
        (events CleanupResources m)) /\
  (forall m,
      let after_first := snd (CleanupResources m) in
      fst (CleanupResources after_first) = Ret tt /\
      globals_null (snd (CleanupResources after_first)) /\
      live (snd (CleanupResources after_first)) = live after_first /\
      Forall (fun ev => is_teardown ev = false /\ is_error_log ev = false)
        (events CleanupResources after_first)).
Proof.
  assert (H1 : forall m,
             fst (CleanupResources m) = Ret tt /\
             globals_null (snd (CleanupResources m))).
  { intros m. destruct (CleanupResources_run m) as (l & n & new & -> & _).
    split; [reflexivity|]. repeat split. }
  assert (H2 : forall m,
             globals_null m ->
             fst (CleanupResources m) = Ret tt /\
             globals_null (snd (CleanupResources m)) /\
             live (snd (CleanupResources m)) = live m /\
             mh_calls (snd (CleanupResources m)) = mh_calls m /\
             Forall (fun ev => is_teardown ev = false /\ is_error_log ev = false)
               (events CleanupResources m)).
  { intros m (Hs & Hh & _).
    destruct (CleanupResources_run m)
      as (l & n & new & Hrun & _ & Hl & _ & Hq).
    destruct (Hq Hs Hh) as (-> & Hquiet). rewrite (Hl Hs) in Hrun.
    rewrite (events_of_extension _ m new) by now rewrite Hrun.
    rewrite Hrun. repeat split.
    rewrite Forall_forall in *. intros ev Hin.
    apply is_quiet_split, Hquiet.
    apply list_elem_of_In, List.in_rev. now apply list_elem_of_In. }
  split; [exact H1|]. split; [exact H2|].
  intros m after_first.
  destruct (H2 after_first (proj2 (H1 m))) as (Hr & Hg & Hl & _ & Hq).
  auto.
Qed.

(** Process detach before initialization got anywhere: nothing to undo. *)
Lemma CleanupResources_idempotent_witness :
  let m := fresh_machine (calm_env 0x04 (fun _ _ => 0)) in
  fst (CleanupResources m) = Ret tt /\
  globals_null (snd (CleanupResources m)) /\
  live (snd (CleanupResources m)) = live m /\
  mh_calls (snd (CleanupResources m)) = mh_calls m /\
  Forall (fun ev => is_teardown ev = false /\ is_error_log ev = false)
    (events CleanupResources m).
Proof.
  intros m.
  apply (proj1 (proj2 CleanupResources_idempotent) m).
  repeat split.
Defined.

Lemma grew_refl P t : grew_without P t t.
Proof. exists []. split; [reflexivity|constructor]. Qed.

Lemma grew_cons P t0 t ev :
  P ev = false -> grew_without P t0 t -> grew_without P t0 (ev :: t).
Proof.
  intros Hev (new & -> & H). exists (ev :: new). split; [reflexivity|].
  now constructor.
Qed.

Lemma grew_app P t0 t new :
  Forall (fun ev => P ev = false) new ->
  grew_without P t0 t -> grew_without P t0 (new ++ t).
Proof.
  intros Hnew (old & -> & H). exists (new ++ old).
  split; [now rewrite app_assoc|]. now apply Forall_app.
Qed.

Lemma grew_events {A} P (c : M A) m :
  grew_without P (trace m) (trace (snd (c m))) ->
  Forall (fun ev => P ev = false) (events c m).
Proof.
  intros (new & Ht & H). rewrite (events_of_extension _ _ _ Ht).
  rewrite Forall_forall in *. intros ev Hin. apply H.
  apply list_elem_of_In, List.in_rev. now apply list_elem_of_In.
Qed.

Lemma alloc_then_free (p : Z) : (({[ p ]} ∪ ∅) ∖ {[ p ]} : gset Z) = ∅.
Proof.
  apply set_eq. intros x.
  rewrite elem_of_difference, elem_of_union, elem_of_singleton.
  split; [|intros H; now apply elem_of_empty in H].
  intros [[->|H] Hne]; [contradiction|now apply elem_of_empty in H].
Qed.

Lemma Forall_no_write new :
  Forall (fun ev => disturbs ev = false) new ->
  Forall (fun ev => is_write ev = false) new.
Proof.
  intros H. eapply Forall_impl; [exact H|].
  cbn. intros ev Hev. now apply orb_false_elim in Hev.
Qed.

Lemma grew_no_write t0 t :
  grew_without disturbs t0 t -> grew_without is_write t0 t.
Proof.
  intros (new & -> & H). exists new. split; [reflexivity|].
  now apply Forall_no_write.
Qed.

Lemma wait_for_module_run remaining :
  forall i m,
  exists h new,
    wait_for_module remaining i m = (Ret h, patch (bytes m) new m) /\
    Forall (fun ev => disturbs ev = false) new.
Proof.
  induction remaining as [|n IH]; intros i m.
  - exists 0, []. split; [now destruct m|constructor].
  - cbn [wait_for_module]. unfold GetModuleHandleA, bind. cbn.
    destruct (module_lookup (env m) i =? 0) eqn:Hh.
    + destruct (Nat.eqb i 0); unfold log, Sleep, modify, ret; cbn.
      * match goal with
        | |- context [wait_for_module n (S i) ?m0] =>
            destruct (IH (S i) m0) as (h & new & Hrun & Hts); rewrite Hrun
        end.
        exists h, (new ++ [EvSleep 1000;
                           EvLog LOG_WARNING "Module not found yet, retrying...";
                           EvGetModuleHandle (module_lookup (env m) i)]).
        split; [unfold patch; cbn; now rewrite <- app_assoc|].
        apply Forall_app. split; [exact Hts|repeat constructor].
      * match goal with
        | |- context [wait_for_module n (S i) ?m0] =>
            destruct (IH (S i) m0) as (h & new & Hrun & Hts); rewrite Hrun
        end.
        exists h, (new ++ [EvSleep 1000;
                           EvGetModuleHandle (module_lookup (env m) i)]).
        split; [unfold patch; cbn; now rewrite <- app_assoc|].
        apply Forall_app. split; [exact Hts|repeat constructor].
    + exists (module_lookup (env m) i),
        [EvGetModuleHandle (module_lookup (env m) i)].
      split; [reflexivity|repeat constructor].
Qed.

(** While it waits for the module, [MainThread] calls neither the hooking
    facility nor [CreateThread]. *)
Lemma wait_for_module_calls_nothing remaining :
  forall i m,
  exists h new,
    wait_for_module remaining i m = (Ret h, patch (bytes m) new m) /\
    List.filter is_hooking_call new = [] /\
    List.filter is_thread_call new = [].
Proof.
  induction remaining as [|n IH]; intros i m.
  - exists 0, []. split; [now destruct m|now split].
  - cbn [wait_for_module]. unfold GetModuleHandleA, bind. cbn.
    destruct (module_lookup (env m) i =? 0) eqn:Hh.
    + destruct (Nat.eqb i 0); unfold log, Sleep, modify, ret; cbn.
      * match goal with
        | |- context [wait_for_module n (S i) ?m0] =>
            destruct (IH (S i) m0) as (h & new & Hrun & Hk & Ht); rewrite Hrun
        end.
        exists h, (new ++ [EvSleep 1000;
                           EvLog LOG_WARNING "Module not found yet, retrying...";
                           EvGetModuleHandle (module_lookup (env m) i)]).
        split; [unfold patch; cbn; now rewrite <- app_assoc|].
        rewrite !List.filter_app, Hk, Ht. now split.
      * match goal with
        | |- context [wait_for_module n (S i) ?m0] =>
            destruct (IH (S i) m0) as (h & new & Hrun & Hk & Ht); rewrite Hrun
        end.
        exists h, (new ++ [EvSleep 1000;
                           EvGetModuleHandle (module_lookup (env m) i)]).
        split; [unfold patch; cbn; now rewrite <- app_assoc|].
        rewrite !List.filter_app, Hk, Ht. now split.
    + exists (module_lookup (env m) i),
        [EvGetModuleHandle (module_lookup (env m) i)].
      split; [reflexivity|now split].
Qed.

Arguments wait_for_module : simpl never.

Ltac grow :=
  repeat first
    [ apply grew_refl
    | apply grew_cons; [reflexivity|]
    | apply grew_app; [assumption|] ].

Lemma bind_get {A B} (f : Machine -> A) (k : A -> M B) m :
  bind (get f) k m = k (f m) m.
Proof. reflexivity. Qed.

Lemma bind_MinHook {B} call (k : MH_STATUS -> M B) m :
  bind (MinHook call) k m =
  k (mh_reply (env m) (mh_calls m) call)
    (emit (EvMinHook call (mh_reply (env m) (mh_calls m) call))
       (set_mh_calls (S (mh_calls m)) m)).
Proof. reflexivity. Qed.

Lemma bind_store_cell {B} p v (k : unit -> M B) m :
  bind (store_cell p v) k m =
  k tt (emit (EvStoreCell p v)
          (set_cells (fun q => if q =? p then v else cells m q) m)).
Proof. reflexivity. Qed.

Lemma bind_VirtualAlloc {B} (k : Z -> M B) m :
  bind VirtualAlloc k m =
  if alloc_result (env m) =? 0
  then k 0 (emit (EvVirtualAlloc 0) m)
  else k (alloc_result (env m))
         (emit (EvVirtualAlloc (alloc_result (env m)))
            (set_live ({[ alloc_result (env m) ]} ∪ live m) m)).
Proof.
  unfold bind, VirtualAlloc. now destruct (alloc_result (env m) =? 0).
Qed.

Lemma bind_GetModuleInformation {B} (k : option (Z * Z) -> M B) m :
  bind GetModuleInformation k m =
  k (module_info (env m))
    (emit (EvGetModuleInformation
             (bool_decide (is_Some (module_info (env m))))) m).
Proof. reflexivity. Qed.

Lemma bind_CreateThread {B} (k : bool -> M B) m :
  bind CreateThread_ToggleThread k m =
  k (thread_ok (env m)) (emit (EvCreateThread (thread_ok (env m))) m).
Proof. reflexivity. Qed.

Lemma bind_MH_CreateHook {B} target (k : MH_STATUS -> M B) m :
  bind (MH_CreateHook target) k m =
  let s := mh_reply (env m) (mh_calls m) (MH_CreateHook_call target) in
  let m1 := emit (EvMinHook (MH_CreateHook_call target) s)
              (set_mh_calls (S (mh_calls m)) m) in
  k s (if mh_status_eqb s MH_OK
       then set_fpTPV_OriginalCode (mh_trampoline (env m)) m1
       else m1).
Proof.
  unfold MH_CreateHook, MinHook, bind, ret, modify. cbn.
  now destruct (mh_status_eqb _ _).
Qed.

Arguments bind : simpl never.
Arguments ret : simpl never.
Arguments log : simpl never.
Arguments modify : simpl never.
Arguments get : simpl never.
Arguments MinHook : simpl never.
Arguments MH_CreateHook : simpl never.
Arguments store_cell : simpl never.
Arguments VirtualAlloc : simpl never.
Arguments GetModuleInformation : simpl never.
Arguments CreateThread_ToggleThread : simpl never.
Arguments FindPattern : simpl never.

Ltac steps :=
  cbn;
  repeat (first [ rewrite bind_log | rewrite bind_modify | rewrite bind_get
                | rewrite bind_MinHook | rewrite bind_store_cell
                | rewrite bind_GetModuleInformation ];
          cbn).

(** The end of a failure path: [CleanupResources ;; ret 1]. *)
Ltac unwind_and_return Ha Hlive :=
  match goal with
  | |- exists r m', bind CleanupResources _ ?mk = _ /\ _ =>
      let l := fresh "l" in let n := fresh "n" in let newc := fresh "newc" in
      let Hc := fresh "Hc" in let Htc := fresh "Htc" in let Hl := fresh "Hl" in
      destruct (CleanupResources_run mk)
        as (l & n & newc & Hc & Htc & _ & Hl & _);
      rewrite (bind_returns _ _ _ _ _ Hc); unfold ret;
      eexists _, _; split; [reflexivity|]; split; [now right|];
      match goal with
      | |- grew_without is_write ?t0 ?t /\ _ =>
          let Hg := fresh "Hg" in
          assert (Hg : grew_without disturbs t0 t) by (cbn; grow);
          split; [exact (grew_no_write _ _ Hg)|]; intros _;
          split; [repeat split|]; split; [|exact Hg]
      end;
      cbn in Hl |- *; rewrite Hlive in Hl;
      rewrite Hl by (now apply Z.eqb_neq); apply alloc_then_free
  end.

Lemma MainThread_run m :
  pristine m ->
  exists r m',
    MainThread m = (Ret r, m') /\
    (r = 0 \/ r = 1) /\
    grew_without is_write (trace m) (trace m') /\
    (r <> 0 ->
     globals_null m' /\ live m' = ∅ /\
     grew_without disturbs (trace m) (trace m')).
Proof.
  intros ((Hs & Hh & Ho) & Hlive).
  unfold MainThread. steps. rewrite bind_VirtualAlloc. cbn.
  destruct (alloc_result (env m) =? 0) eqn:Ha.
  { steps. unfold ret.
    eexists _, _. split; [reflexivity|]. split; [now right|].
    split; [cbn; grow|]. intros _.
    split; [repeat split; assumption|]. split; [exact Hlive|]. cbn. grow. }
  steps.
  match goal with
  | |- context [bind (wait_for_module 30 0) _ ?mk] =>
      destruct (wait_for_module_run 30 0 mk) as (h & neww & Hw & Htw);
      rewrite (bind_returns _ _ _ _ _ Hw)
  end.
  cbv beta. destruct (h =? 0) eqn:Hfound.
  { steps. unwind_and_return Ha Hlive. }
  steps. cbn [env emit patch].
  destruct (module_info (env m)) as [[lpBaseOfDll SizeOfImage]|] eqn:Hinfo.
  2:{ steps. unwind_and_return Ha Hlive. }
  steps. cbn [env emit patch].
  destruct (aob_parsed (env m)) as [|p0 pattern] eqn:Hpat.
  { steps. unwind_and_return Ha Hlive. }
  steps.
  match goal with
  | |- context [default 0 ?found =? 0] => destruct (default 0 found =? 0) eqn:Hscan
  end.
  { steps. unwind_and_return Ha Hlive. }
  steps.
  match goal with
  | |- context [negb (mh_status_eqb ?s MH_OK)] =>
      destruct (mh_status_eqb s MH_OK) eqn:Hinit; cbn [negb]
  end.
  2:{ steps. unwind_and_return Ha Hlive. }
  steps. rewrite bind_MH_CreateHook. cbv zeta.
  match goal with
  | |- context [negb (mh_status_eqb ?s MH_OK)] =>
      destruct (mh_status_eqb s MH_OK) eqn:Hcreate; cbn [negb]
  end.
  2:{ steps. unwind_and_return Ha Hlive. }
  steps. cbn [fpTPV_OriginalCode set_fpTPV_OriginalCode].
  match goal with
  | |- context [if ?t =? 0 then _ else _] => destruct (t =? 0) eqn:Hcont
  end.
  { steps. unwind_and_return Ha Hlive. }
  steps.
  match goal with
  | |- context [negb (mh_status_eqb ?s MH_OK)] =>
      destruct (mh_status_eqb s MH_OK) eqn:Henable; cbn [negb]
  end.
  2:{ steps. unwind_and_return Ha Hlive. }
  steps. rewrite bind_CreateThread. cbn.
  destruct (thread_ok (env m)) eqn:Hthread; cbn [negb].
  2:{ steps. unwind_and_return Ha Hlive. }
  steps. unfold ret.
  eexists _, _. split; [reflexivity|]. split; [now left|].
  split; [|intros Hr; now contradiction Hr].
  cbn.
  repeat first
    [ apply grew_refl
    | apply grew_cons; [reflexivity|]
    | apply grew_app; [apply Forall_no_write; assumption|] ].
Qed.

(** C6. [MainThread] started on the freshly loaded process always returns,
    with 0 or 1; and whenever it returns a nonzero status, the three
    globals are null, the mod holds no memory (the captured-pointer storage,
    if it was allocated, has been freed) and the monitoring thread was never
    started. *)
Theorem MainThread_failure_releases_everything :
  forall m,
    pristine m ->
    exists r m',
      MainThread m = (Ret r, m') /\
      (r = 0 \/ r = 1) /\
      (r <> 0 ->
       globals_null m' /\
       live m' = ∅ /\
       Forall (fun ev => thread_started ev = false) (events MainThread m)).
Proof.
  intros m Hm.
  destruct (MainThread_run m Hm) as (r & m' & Hrun & Hr & _ & Hfail).
  exists r, m'. split; [exact Hrun|]. split; [exact Hr|].
  intros Hne. destruct (Hfail Hne) as (Hg & Hl & Hgrew).
  split; [exact Hg|]. split; [exact Hl|].
  eapply Forall_impl; [apply (grew_events disturbs); now rewrite Hrun|].
  cbn. intros ev Hev. now apply orb_false_elim in Hev.
Qed.

(** The pattern is found and the hook created, but enabling it fails:
    [MainThread] returns 1 with everything released. *)
Lemma MainThread_failure_releases_everything_witness :
  let m := loaded_machine enable_fails_env in
  fst (MainThread m) = Ret 1 /\
  globals_null (snd (MainThread m)) /\
  live (snd (MainThread m)) = ∅ /\
  Forall (fun ev => thread_started ev = false) (events MainThread m).
Proof.
  intros m.
  assert (Hm : pristine m) by (repeat split).
  assert (Hfst : fst (MainThread m) = Ret 1) by (vm_compute; reflexivity).
  destruct (MainThread_failure_releases_everything m Hm)
    as (r & m' & Hrun & _ & Hfail).
  rewrite Hrun in Hfst |- *. cbn [fst snd] in Hfst |- *.
  split; [exact Hfst|].
  apply Hfail. injection Hfst as ->. discriminate.
Defined.

(** ** Every write, over the whole program *)

(** C10. Every value the mod writes to the flag byte is 0 or 1, and the
    byte written holds 0 or 1 afterwards, whatever it held before: for each
    of the three actions ([safeToggleViewState], [setFirstPersonView],
    [setThirdPersonView]) called on any machine, and for [ToggleThread] run
    for any number of cycles on any configuration.  [setViewState] itself
    writes nothing but the value it is given, and neither [CleanupResources]
    nor [MainThread] writes a byte of the game at all. *)
Theorem flag_byte_only_receives_0_or_1 :
  (forall (new_state : Z) (action_desc : string) (vk : Z) (m : Machine) a v,
      EvWriteByte a v ∈ events (setViewState new_state action_desc vk) m ->
      v = new_state) /\
  (forall (kind : ActionKind) (vk : Z) (m : Machine) a v,
      EvWriteByte a v ∈ events (callee_of kind vk) m ->
      is_bit v /\ is_bit (bytes (snd (callee_of kind vk m)) a)) /\
  (forall (param : option ToggleData) (cycles : nat) (m : Machine) a v,
      EvWriteByte a v ∈ events (ToggleThread param cycles) m ->
      is_bit v /\ is_bit (bytes (snd (ToggleThread param cycles m)) a)) /\
  (forall m, Forall (fun ev => is_write ev = false) (events CleanupResources m)) /\
  (forall m, pristine m ->
             Forall (fun ev => is_write ev = false) (events MainThread m)).
Proof.
  split; [|split; [|split; [|split]]].
  - intros ns d vk m a v Hin.
    destruct (setViewState_footprint ns d vk m) as (b' & new & Hm & Hw).
    rewrite (events_of_extension _ m new) in Hin by now rewrite Hm.
    apply list_elem_of_In, List.in_rev, list_elem_of_In in Hin.
    destruct Hw as [(_ & Hw) | (a0 & v0 & <- & _ & Hw)];
      rewrite Forall_forall in Hw; specialize (Hw _ Hin).
    + discriminate.
    + specialize (Hw eq_refl). now injection Hw.
  - intros kind vk m. apply bits_of_events.
    exact (footprint_bits _ _ _ (callee_footprint kind vk m)
             (bits_since_start m)).
  - intros param cycles m.
    apply bits_of_events, bit_safe_ToggleThread, bits_since_start.
  - intros m. destruct (CleanupResources_run m) as (l & n & new & Hrun & Hd & _).
    rewrite (events_of_extension _ m new) by now rewrite Hrun.
    rewrite Forall_forall in *. intros ev Hin.
    assert (Hev : disturbs ev = false).
    { apply Hd. apply list_elem_of_In, List.in_rev. now apply list_elem_of_In. }
    now apply orb_false_elim in Hev.
  - intros m Hm.
    destruct (MainThread_run m Hm) as (r & m' & Hrun & _ & Hgrew & _).
    apply (grew_events is_write). now rewrite Hrun.
Qed.

(** The game left 7 in the flag byte; the toggle key writes 0 over it. *)
Lemma flag_byte_only_receives_0_or_1_witness :
  let m := active_machine (calm_env 0x04 (fun _ _ => 0)) 0x9000 7 in
  EvWriteByte 0x9038 0 ∈ events (callee_of ActToggle 0x72) m /\
  is_bit 0 /\ is_bit (bytes (snd (callee_of ActToggle 0x72 m)) 0x9038).
Proof.
  intros m.
  assert (Hin : EvWriteByte 0x9038 0 ∈ events (callee_of ActToggle 0x72) m).
  { vm_compute. repeat constructor. }
  split; [exact Hin|].
  apply (proj1 (proj2 flag_byte_only_receives_0_or_1) ActToggle 0x72 m
           0x9038 0 Hin).
Defined.

(** * Further properties of the code *)

(** ** [setViewState] and [safeToggleViewState] *)

(** X1. The result of [setViewState] tells what happened to memory: after
    [true] the flag byte holds the requested value, after [false] no byte
    changed, and in every case no byte other than the flag byte changed. *)
Theorem setViewState_result_describes_memory :
  forall (new_state : Z) (action_desc : string) (vk : Z) (m : Machine),
    let a := flag_address (cells m (g_r9_for_tpv_flag m)) in
    let after := snd (setViewState new_state action_desc vk m) in
    (fst (setViewState new_state action_desc vk m) = Ret true ->
     bytes after a = new_state) /\
    (fst (setViewState new_state action_desc vk m) = Ret false ->
     bytes after = bytes m) /\
    (forall x, x <> a -> bytes after x = bytes m x).
Proof.
  intros ns d vk m a after. subst after.
  rewrite setViewState_result, setViewState_bytes. subst a.
  unfold setViewState_outline.
  destruct (g_r9_for_tpv_flag m =? 0); [cbn; repeat split; congruence|].
  destruct (cells m (g_r9_for_tpv_flag m) =? 0); [cbn; repeat split; congruence|].
  destruct (vquery (env m) (flag_address (cells m (g_r9_for_tpv_flag m))))
    as [mem_info|]; [|cbn; repeat split; congruence].
  destruct (negb (mbi_State mem_info =? Win.MEM_COMMIT)
            || negb (is_writable mem_info)); [cbn; repeat split; congruence|].
  destruct (read_fault (env m) (flag_address (cells m (g_r9_for_tpv_flag m))));
    [cbn; repeat split; congruence|].
  destruct (bytes m (flag_address (cells m (g_r9_for_tpv_flag m))) =? ns)
    eqn:Hsame.
  { apply Z.eqb_eq in Hsame. cbn. repeat split; congruence. }
  destruct (write_fault (env m) (flag_address (cells m (g_r9_for_tpv_flag m))));
    [cbn; repeat split; congruence|].
  cbn. repeat split.
  - intros _. apply poke_same.
  - discriminate.
  - intros x Hx. unfold poke. apply Z.eqb_neq in Hx. now rewrite Hx.
Qed.

(** First-person view is on; third-person is requested and granted. *)
Lemma setViewState_result_describes_memory_witness :
  let m := active_machine (calm_env 0x04 (fun _ _ => 0)) 0x9000 0 in
  bytes (snd (setViewState 1 "Set TPV" 0x72 m))
    (flag_address (cells m (g_r9_for_tpv_flag m))) = 1 /\
  bytes (snd (setViewState 1 "Set TPV" 0x72 m)) 0x9039 = bytes m 0x9039.
Proof.
  intros m.
  destruct (setViewState_result_describes_memory 1 "Set TPV" 0x72 m)
    as (Htrue & _ & Hother).
  split.
  - apply Htrue. vm_compute. reflexivity.
  - apply Hother. vm_compute. discriminate.
Defined.

Lemma safeToggleViewState_hands_over vk m :
  toggle_preconditions m ->
  safeToggleViewState vk m =
    setViewState
      (toggled (bytes m (flag_address (cells m (g_r9_for_tpv_flag m)))))
      "Toggle" vk (patch (bytes m) (toggle_prelude m) m).
Proof.
  intros (Hp & Hr & Hbad & Hrf).
  apply Z.eqb_neq in Hp, Hr.
  unfold safeToggleViewState, try_catch, bind, ret, throw, get, log, modify,
    load_cell, IsBadReadPtr, read_byte.
  cbn. rewrite Hp. cbn. rewrite Hr. cbn. rewrite Hbad. cbn. rewrite Hrf. cbn.
  reflexivity.
Qed.

(** X2. When the storage pointer is null, the captured value is 0 or
    [IsBadReadPtr] rejects the flag address, [safeToggleViewState] returns
    [false] without reaching [setViewState] and without touching the flag
    byte: no [VirtualQuery] is made, no byte is read or written, and no byte
    changes. *)
Theorem safeToggleViewState_gives_up_before_setViewState :
  forall (vk : Z) (m : Machine),
    let a := flag_address (cells m (g_r9_for_tpv_flag m)) in
    g_r9_for_tpv_flag m = 0 \/
    cells m (g_r9_for_tpv_flag m) = 0 \/
    bad_read_ptr (env m) a = true ->
    fst (safeToggleViewState vk m) = Ret false /\
    bytes (snd (safeToggleViewState vk m)) = bytes m /\
    Forall (fun ev => is_query ev = false /\ is_access ev = false)
      (events (safeToggleViewState vk) m).
Proof.
  intros vk m a H. subst a.
  assert (Hrun : exists new,
             safeToggleViewState vk m = (Ret false, patch (bytes m) new m) /\
             Forall (fun ev => is_query ev = false /\ is_access ev = false) new).
  { unfold safeToggleViewState, try_catch, bind, ret, throw, get, log, modify,
      load_cell, IsBadReadPtr, read_byte.
    cbn.
    destruct (g_r9_for_tpv_flag m =? 0) eqn:Hp; cbn.
    { eexists [_]. split; [reflexivity|repeat constructor]. }
    destruct (cells m (g_r9_for_tpv_flag m) =? 0) eqn:Hr; cbn.
    { eexists [_; _]. split; [reflexivity|repeat constructor]. }
    destruct (bad_read_ptr (env m) (flag_address (cells m (g_r9_for_tpv_flag m))))
      eqn:Hbad; cbn.
    { eexists [_; _; _]. split; [reflexivity|repeat constructor]. }
    exfalso. apply Z.eqb_neq in Hp, Hr.
    destruct H as [H | [H | H]]; congruence. }
  destruct Hrun as (new & Hrun & Hnew).
  rewrite (events_of_patch _ _ _ _ _ Hrun), Hrun. repeat split.
  rewrite Forall_forall in *. intros ev Hin. apply Hnew.
  apply list_elem_of_In, List.in_rev. now apply list_elem_of_In.
Qed.

(** The flag address is rejected by [IsBadReadPtr]. *)
Lemma safeToggleViewState_gives_up_before_setViewState_witness :
  let m := active_machine bad_pointer_env 0x9000 0 in
  fst (safeToggleViewState 0x72 m) = Ret false /\
  bytes (snd (safeToggleViewState 0x72 m)) = bytes m /\
  Forall (fun ev => is_query ev = false /\ is_access ev = false)
    (events (safeToggleViewState 0x72) m).
Proof.
  intros m.
  apply (safeToggleViewState_gives_up_before_setViewState 0x72 m).
  right. right. reflexivity.
Defined.

Lemma toggled_differs b : (b =? toggled b) = false.
Proof.
  unfold toggled. destruct (b =? 0) eqn:E.
  - apply Z.eqb_eq in E. now subst.
  - exact E.
Qed.

Lemma toggle_ready_patch b new m :
  toggle_ready m -> toggle_ready (patch b new m).
Proof. intros H. exact H. Qed.

Lemma write_count_rev_silent new :
  Forall (fun ev => is_write ev = false) new -> write_count (rev new) = 0%nat.
Proof.
  intros H. unfold write_count.
  induction H as [|ev new Hev _ IH]; [reflexivity|].
  cbn [rev]. rewrite List.filter_app, length_app. rewrite IH. cbn.
  now rewrite Hev.
Qed.

Lemma safeToggleViewState_step vk m :
  toggle_ready m ->
  let a := flag_address (cells m (g_r9_for_tpv_flag m)) in
  exists new,
    safeToggleViewState vk m =
      (Ret true, patch (poke a (toggled (bytes m a)) (bytes m)) new m) /\
    write_count (rev new) = 1%nat.
Proof.
  intros (Htoggle & Hpatch) a.
  rewrite (safeToggleViewState_hands_over vk m Htoggle). fold a.
  set (m1 := patch (bytes m) (toggle_prelude m) m).
  pose proof (setViewState_outline_ready (toggled (bytes m a)) m1
                (patch_preconditions_patch _ _ _ Hpatch)) as Ho.
  cbv zeta in Ho.
  change (g_r9_for_tpv_flag m1) with (g_r9_for_tpv_flag m) in Ho.
  change (cells m1) with (cells m) in Ho. fold a in Ho.
  change (bytes m1) with (bytes m) in Ho.
  rewrite toggled_differs in Ho.
  destruct (setViewState_run (toggled (bytes m a)) "Toggle" vk m1)
    as (new & Hrun & Heff).
  rewrite Ho in Hrun, Heff. cbn [o_result o_bytes o_effects] in Hrun, Heff.
  exists (new ++ toggle_prelude m). split.
  - rewrite Hrun. unfold m1, patch. cbn. now rewrite <- app_assoc.
  - rewrite rev_app_distr, write_count_app.
    rewrite <- (write_count_effects (rev new)), Heff.
    rewrite write_count_rev_silent by (repeat constructor). reflexivity.
Qed.

(** X3. When [safeToggleViewState] and the [setViewState] it delegates to
    both find their preconditions, a toggle always writes, exactly once: it
    returns [true] and leaves 1 in the flag byte if the byte was 0, and 0 if
    it held anything else; no other byte changes. *)
Theorem safeToggleViewState_flips_the_flag :
  forall (vk : Z) (m : Machine),
    toggle_ready m ->
    let a := flag_address (cells m (g_r9_for_tpv_flag m)) in
    fst (safeToggleViewState vk m) = Ret true /\
    bytes (snd (safeToggleViewState vk m)) =
      poke a (if bytes m a =? 0 then 1 else 0) (bytes m) /\
    write_count (events (safeToggleViewState vk) m) = 1%nat.
Proof.
  intros vk m Hready a.
  destruct (safeToggleViewState_step vk m Hready) as (new & Hrun & Hcount).
  fold a in Hrun.
  rewrite (events_of_patch _ _ _ _ _ Hrun), Hrun. auto.
Qed.

(** The game left 7 in the flag byte: the toggle writes 0. *)
Lemma safeToggleViewState_flips_the_flag_witness :
  let m := active_machine (calm_env 0x04 (fun _ _ => 0)) 0x9000 7 in
  fst (safeToggleViewState 0x72 m) = Ret true /\
  write_count (events (safeToggleViewState 0x72) m) = 1%nat.
Proof.
  intros m.
  assert (Hready : toggle_ready m).
  { split.
    - repeat split; discriminate.
    - unfold patch_preconditions. cbn. repeat split; try discriminate.
      exists (page 0x04). repeat split; discriminate. }
  destruct (safeToggleViewState_flips_the_flag 0x72 m Hready)
    as (Hres & _ & Hcount).
  split; [exact Hres|exact Hcount].
Defined.

(** X4. Two toggles in a row, preconditions holding, both succeed and leave
    the flag byte at 0 if it was 0 and at 1 if it was anything else, with
    every other byte as before: on a byte that is 0 or 1, toggling twice
    restores the memory; a stray value is normalised to 1. *)
Theorem safeToggleViewState_twice_restores_the_view :
  forall (vk : Z) (m : Machine),
    toggle_ready m ->
    let a := flag_address (cells m (g_r9_for_tpv_flag m)) in
    let after := snd (safeToggleViewState_twice vk m) in
    fst (safeToggleViewState_twice vk m) = Ret (true, true) /\
    bytes after a = (if bytes m a =? 0 then 0 else 1) /\
    (forall x, x <> a -> bytes after x = bytes m x) /\
    (bytes m a = 0 \/ bytes m a = 1 -> forall x, bytes after x = bytes m x).
Proof.
  intros vk m Hready a after. subst after.
  destruct (safeToggleViewState_step vk m Hready) as (new1 & Hrun1 & _).
  fold a in Hrun1.
  set (b1 := poke a (toggled (bytes m a)) (bytes m)) in *.
  set (m1 := patch b1 new1 m) in *.
  destruct (safeToggleViewState_step vk m1 (toggle_ready_patch _ _ _ Hready))
    as (new2 & Hrun2 & _).
  cbv zeta in Hrun2.
  change (g_r9_for_tpv_flag m1) with (g_r9_for_tpv_flag m) in Hrun2.
  change (cells m1) with (cells m) in Hrun2. fold a in Hrun2.
  change (bytes m1) with b1 in Hrun2.
  assert (Htwice : safeToggleViewState_twice vk m =
                   (Ret (true, true), patch (poke a (toggled (b1 a)) b1) new2 m1)).
  { unfold safeToggleViewState_twice.
    rewrite (bind_returns _ _ _ _ _ Hrun1), (bind_returns _ _ _ _ _ Hrun2).
    reflexivity. }
  rewrite Htwice. cbn [fst snd bytes patch].
  assert (Hb1 : b1 a = toggled (bytes m a)) by apply poke_same.
  assert (Hat : poke a (toggled (b1 a)) b1 a = if bytes m a =? 0 then 0 else 1).
  { rewrite poke_same, Hb1. unfold toggled.
    now destruct (bytes m a =? 0). }
  assert (Hother : forall x, x <> a ->
                     poke a (toggled (b1 a)) b1 x = bytes m x).
  { intros x Hx. unfold b1, poke. apply Z.eqb_neq in Hx. now rewrite Hx. }
  repeat split; [exact Hat|exact Hother|].
  intros Hbit x. destruct (Z.eq_dec x a) as [->|Hx]; [|now apply Hother].
  rewrite Hat. destruct Hbit as [E|E]; rewrite E; reflexivity.
Qed.

(** Third-person view is on; the key is pressed twice. *)
Lemma safeToggleViewState_twice_restores_the_view_witness :
  let m := active_machine (calm_env 0x04 (fun _ _ => 0)) 0x9000 1 in
  fst (safeToggleViewState_twice 0x72 m) = Ret (true, true) /\
  (forall x, bytes (snd (safeToggleViewState_twice 0x72 m)) x = bytes m x).
Proof.
  intros m.
  assert (Hready : toggle_ready m).
  { split.
    - repeat split; discriminate.
    - unfold patch_preconditions. cbn. repeat split; try discriminate.
      exists (page 0x04). repeat split; discriminate. }
  destruct (safeToggleViewState_twice_restores_the_view 0x72 m Hready)
    as (Hres & _ & _ & Hsame).
  split; [exact Hres|]. apply Hsame. right. reflexivity.
Defined.

(** X5. The first read of the flag byte in [safeToggleViewState] is guarded
    by [IsBadReadPtr] alone: whenever its preconditions hold, the byte has
    been read before any [VirtualQuery] of its address was made, so the
    events of a toggle do not satisfy [query_before_every_access]. *)
Theorem safeToggleViewState_reads_before_any_query :
  forall (vk : Z) (m : Machine),
    toggle_preconditions m ->
    let p := g_r9_for_tpv_flag m in
    let a := flag_address (cells m p) in
    (exists rest,
        effects (events (safeToggleViewState vk) m) =
          EvLoadCell p (cells m p) :: EvIsBadReadPtr a ::
          EvReadByte a (bytes m a) :: rest) /\
    ~ query_before_every_access (events (safeToggleViewState vk) m).
Proof.
  intros vk m Hpre p a.
  assert (Hev : exists new,
             events (safeToggleViewState vk) m =
               rev (toggle_prelude m) ++ rev new).
  { pose proof (safeToggleViewState_hands_over vk m Hpre) as Hover.
    match type of Hover with
    | _ = setViewState ?ns ?d vk ?m1 =>
        destruct (setViewState_run ns d vk m1) as (new & Hrun & _)
    end.
    rewrite Hrun in Hover.
    exists new. rewrite <- rev_app_distr. apply events_of_extension.
    rewrite Hover. cbn. now rewrite <- app_assoc. }
  destruct Hev as (new & Hev). rewrite Hev. split.
  - exists (effects (rev new)). unfold effects.
    rewrite List.filter_app. reflexivity.
  - intros Hq.
    specialize (Hq [EvLoadCell p (cells m p); EvIsBadReadPtr a]
                  (EvReadByte a (bytes m a))
                  ([EvLog LOG_DEBUG "safeToggleViewState: Read current value";
                    EvLog LOG_DEBUG "safeToggleViewState: Target state"]
                   ++ rev new) a eq_refl eq_refl).
    apply elem_of_cons in Hq. destruct Hq as [Hq|Hq]; [discriminate|].
    apply elem_of_cons in Hq. destruct Hq as [Hq|Hq]; [discriminate|].
    now apply elem_of_nil in Hq.
Qed.

(** An ordinary toggle on the active mod. *)
Lemma safeToggleViewState_reads_before_any_query_witness :
  let m := active_machine (calm_env 0x04 (fun _ _ => 0)) 0x9000 0 in
  ~ query_before_every_access (events (safeToggleViewState 0x72) m).
Proof.
  intros m.
  apply (safeToggleViewState_reads_before_any_query 0x72 m).
  repeat split; discriminate.
Defined.

(** ** The thread and its loop *)

Lemma replicate_snoc {A} (x : A) n : replicate n x ++ [x] = x :: replicate n x.
Proof. induction n as [|n IH]; [reflexivity|]. cbn. now rewrite IH. Qed.

Lemma idle_loop_exact cycles :
  forall m,
    idle_loop cycles m =
      (Ret tt, patch (bytes m) (replicate cycles (EvSleep 5000)) m).
Proof.
  induction cycles as [|n IH]; intros m.
  - now destruct m.
  - cbn [idle_loop]. unfold bind, Sleep, modify. rewrite IH.
    unfold patch. cbn. f_equal. f_equal.
    change (EvSleep 5000 :: trace m) with ([EvSleep 5000] ++ trace m).
    now rewrite app_assoc, replicate_snoc.
Qed.

Lemma effects_replicate_sleep n ms :
  effects (rev (replicate n (EvSleep ms))) = replicate n (EvSleep ms).
Proof.
  induction n as [|n IH]; [reflexivity|].
  cbn [replicate rev]. unfold effects in *.
  rewrite List.filter_app, IH. cbn. apply replicate_snoc.
Qed.

(** X6. With no key configured in any of the three lists, [ToggleThread]
    never polls and never touches memory: over any number of iterations it
    only sleeps 5000 ms each time, and it stays running. *)
Theorem ToggleThread_without_keys_only_sleeps :
  forall (data : ToggleData) (cycles : nat) (m : Machine),
    toggle_keys data = [] -> fpv_keys data = [] -> tpv_keys data = [] ->
    fst (ToggleThread (Some data) cycles m) = Ret None /\
    effects (events (ToggleThread (Some data) cycles) m) =
      replicate cycles (EvSleep 5000) /\
    bytes (snd (ToggleThread (Some data) cycles m)) = bytes m /\
    nsample (snd (ToggleThread (Some data) cycles m)) = nsample m /\
    key_was_down (snd (ToggleThread (Some data) cycles m)) = key_was_down m.
Proof.
  intros data cycles m Ht Hf Hp.
  assert (Hk : has_keys data = false).
  { unfold has_keys. now rewrite Ht, Hf, Hp. }
  pose proof (ToggleThread_idles data cycles m Hk) as Hrun.
  rewrite (bind_returns _ _ _ _ _ (idle_loop_exact cycles _)) in Hrun.
  unfold ret in Hrun.
  rewrite (events_of_extension _ m
             (replicate cycles (EvSleep 5000) ++
              [EvLog LOG_INFO "ToggleThread: No keys configured. Idling.";
               EvLog LOG_INFO "ToggleThread: Monitoring thread started."])).
  2:{ rewrite Hrun. cbn. now rewrite <- app_assoc. }
  rewrite Hrun. repeat split.
  rewrite rev_app_distr. unfold effects. rewrite List.filter_app. cbn.
  apply effects_replicate_sleep.
Qed.

(** An empty configuration, watched for three iterations. *)
Lemma ToggleThread_without_keys_only_sleeps_witness :
  let m := active_machine (calm_env 0x04 (fun _ _ => -32768)) 0x9000 0 in
  let data := {| toggle_keys := []; fpv_keys := []; tpv_keys := [] |} in
  fst (ToggleThread (Some data) 3 m) = Ret None /\
  effects (events (ToggleThread (Some data) 3) m) =
    [EvSleep 5000; EvSleep 5000; EvSleep 5000].
Proof.
  intros m data.
  destruct (ToggleThread_without_keys_only_sleeps data 3 m eq_refl eq_refl
              eq_refl) as (Hres & Hev & _).
  split; [exact Hres|exact Hev].
Defined.

Lemma expected_loop_held vk input n :
  (forall k, key_is_down (input k vk) = true) ->
  forall k (ls : gmap Z bool),
    ls !! vk = Some true ->
    expected_loop n [vk] [] [] input k ls =
      concat (replicate n [Sample vk; Pause 50]).
Proof.
  intros Hdown. induction n as [|n IH]; intros k ls Hls; [reflexivity|].
  cbn [expected_loop expected_cycle expected_visits length Nat.add].
  rewrite Hdown, Hls. cbn [default negb andb orb app].
  rewrite IH by apply lookup_insert_eq. reflexivity.
Qed.

Lemma poll_body_behaviour tk fk pk m :
  same_behaviour
    (poll_body safeToggleViewState setFirstPersonView setThirdPersonView
       tk fk pk)
    (perform_all
       (fst (expected_cycle tk fk pk (key_input (env m)) (nsample m)
               (key_was_down m)))) m.
Proof.
  destruct (expected_cycle tk fk pk (key_input (env m)) (nsample m)
              (key_was_down m)) as [steps ls] eqn:Hc.
  apply same_behaviour_of_agree;
    [apply bit_safe_actions_poll_body|apply bit_safe_perform_all|].
  exact (proj1 (poll_body_sim tk fk pk m m steps ls eq_refl Hc)).
Qed.

(** X7. A Toggle key that is held down from the start of the thread fires
    exactly once, in the first cycle, however long it is held: the thread
    behaves as sampling the key, calling [safeToggleViewState] once and
    sleeping 15 ms, and then only sampling the key and sleeping 50 ms in
    every later cycle. *)
Theorem ToggleThread_held_key_fires_once :
  forall (vk : Z) (n : nat) (m : Machine),
    (forall k, key_is_down (key_input (env m) k vk) = true) ->
    same_behaviour (ToggleThread (Some (one_toggle_key vk)) (S n))
      (perform_all
         ([Sample vk; Invoke ActToggle vk; Pause 15] ++
          concat (replicate n [Sample vk; Pause 50]))) m.
Proof.
  intros vk n m Hdown.
  apply same_behaviour_of_agree;
    [apply bit_safe_ToggleThread|apply bit_safe_perform_all|].
  pose proof (ToggleThread_sim (one_toggle_key vk) (S n) m eq_refl) as Hsim.
  cbn [one_toggle_key toggle_keys fpv_keys tpv_keys mark_up fold_left] in Hsim.
  cbn [expected_loop expected_cycle expected_visits length Nat.add] in Hsim.
  rewrite Hdown, lookup_insert_eq in Hsim.
  cbn [default negb andb orb app] in Hsim.
  rewrite (expected_loop_held vk (key_input (env m)) n Hdown) in Hsim
    by apply lookup_insert_eq.
  exact Hsim.
Qed.

(** F3 held down for four cycles on an active mod: one write in all. *)
Lemma ToggleThread_held_key_fires_once_witness :
  let m := active_machine (calm_env 0x04 (fun _ _ => -32768)) 0x9000 0 in
  same_behaviour (ToggleThread (Some (one_toggle_key 0x72)) 4)
    (perform_all
       ([Sample 0x72; Invoke ActToggle 0x72; Pause 15] ++
        concat (replicate 3 [Sample 0x72; Pause 50]))) m /\
  List.filter is_write (events (ToggleThread (Some (one_toggle_key 0x72)) 4) m)
    = [EvWriteByte 0x9038 1].
Proof.
  intros m. split.
  - apply (ToggleThread_held_key_fires_once 0x72 3 m).
    intros k. reflexivity.
  - vm_compute. reflexivity.
Defined.

(** X8. A key listed both as a Toggle key and as a ForceFirstPerson key:
    when it goes down, only the toggle is called in that cycle.  The Toggle
    visit records the key as down, so the ForceFirstPerson visit of the same
    cycle sees no rising edge, whatever its own sample says. *)
Theorem poll_body_key_in_two_lists_fires_first_only :
  forall (vk : Z) (m : Machine),
    default false (key_was_down m !! vk) = false ->
    key_is_down (key_input (env m) (nsample m) vk) = true ->
    same_behaviour
      (poll_body safeToggleViewState setFirstPersonView setThirdPersonView
         [vk] [vk] [])
      (perform_all [Sample vk; Invoke ActToggle vk; Sample vk; Pause 15]) m.
Proof.
  intros vk m Hup Hd1.
  pose proof (poll_body_behaviour [vk] [vk] [] m) as H.
  cbn [expected_cycle expected_visits length Nat.add] in H.
  rewrite Hd1, Hup in H. cbn [negb andb orb] in H.
  rewrite lookup_insert_eq in H. cbn [default negb] in H.
  rewrite andb_false_r in H. exact H.
Qed.

(** F3 bound to both actions and pressed while the flag byte holds 0: the
    byte is written once, with 1; a ForceFirstPerson call after the toggle
    would have written 0 over it. *)
Lemma poll_body_key_in_two_lists_fires_first_only_witness :
  let m := active_machine (calm_env 0x04 (fun _ _ => -32768)) 0x9000 0 in
  let cycle :=
    poll_body safeToggleViewState setFirstPersonView setThirdPersonView
      [0x72] [0x72] [] in
  same_behaviour cycle
    (perform_all [Sample 0x72; Invoke ActToggle 0x72; Sample 0x72; Pause 15])
    m /\
  List.filter is_write (events cycle m) = [EvWriteByte 0x9038 1].
Proof.
  intros m cycle. split.
  - apply (poll_body_key_in_two_lists_fires_first_only 0x72 m); reflexivity.
  - vm_compute. reflexivity.
Defined.

Lemma expected_visits_shape kind input keys :
  forall k (ls : gmap Z bool) fired steps ls' f,
    expected_visits kind keys input k ls fired = (steps, ls', f) ->
    f = fired || existsb is_invoke steps /\
    Forall (fun s => is_pause s = false) steps /\
    List.filter is_sample steps = map Sample keys.
Proof.
  induction keys as [|vk rest IH]; intros k ls fired steps ls' f H.
  - cbn in H. injection H as <- <- <-. cbn. rewrite orb_false_r.
    repeat split. constructor.
  - cbn [expected_visits] in H.
    set (down := key_is_down (input k vk)) in *.
    set (edge := down && negb (default false (ls !! vk))) in *.
    destruct (expected_visits kind rest input (S k) (<[vk := down]> ls)
                (edge || fired)) as [[steps0 ls0] f0] eqn:Hrest.
    injection H as <- <- <-.
    destruct (IH _ _ _ _ _ _ Hrest) as (Hf & Hpause & Hsample).
    destruct edge; cbn [app existsb is_invoke is_sample List.filter map orb].
    + repeat split.
      * rewrite Hf. cbn. now rewrite orb_true_r.
      * repeat constructor. exact Hpause.
      * now rewrite Hsample.
    + repeat split.
      * rewrite Hf. reflexivity.
      * repeat constructor. exact Hpause.
      * now rewrite Hsample.
Qed.

(** X9. Every cycle of the loop behaves as a list of steps that samples
    each configured key once, in the order Toggle, ForceFirstPerson,
    ForceThirdPerson, calls actions in between, and ends with one sleep:
    15 ms when at least one action was called in the cycle, 50 ms when none
    was.  (A call that ends the process with an access violation ends the
    cycle there, before the sleep.) *)
Theorem poll_body_polls_every_key_then_sleeps :
  forall (tk fk pk : list Z) (m : Machine),
    exists body,
      same_behaviour
        (poll_body safeToggleViewState setFirstPersonView setThirdPersonView
           tk fk pk)
        (perform_all
           (body ++ [Pause (if existsb is_invoke body then 15 else 50)])) m /\
      Forall (fun s => is_pause s = false) body /\
      List.filter is_sample body = map Sample (tk ++ fk ++ pk).
Proof.
  intros tk fk pk m.
  pose proof (poll_body_behaviour tk fk pk m) as H.
  unfold expected_cycle in H.
  destruct (expected_visits ActToggle tk (key_input (env m)) (nsample m)
              (key_was_down m) false) as [[s1 ls1] f1] eqn:H1.
  destruct (expected_visits ActFirstPerson fk (key_input (env m))
              (nsample m + length tk) ls1 f1) as [[s2 ls2] f2] eqn:H2.
  destruct (expected_visits ActThirdPerson pk (key_input (env m))
              (nsample m + length tk + length fk) ls2 f2)
    as [[s3 ls3] f3] eqn:H3.
  cbn [fst] in H.
  destruct (expected_visits_shape _ _ _ _ _ _ _ _ _ H1) as (Hf1 & Hs1 & Hq1).
  destruct (expected_visits_shape _ _ _ _ _ _ _ _ _ H2) as (Hf2 & Hs2 & Hq2).
  destruct (expected_visits_shape _ _ _ _ _ _ _ _ _ H3) as (Hf3 & Hs3 & Hq3).
  exists (s1 ++ s2 ++ s3). split; [|split].
  - replace (existsb is_invoke (s1 ++ s2 ++ s3)) with f3.
    + now rewrite <- !app_assoc.
    + rewrite !existsb_app, Hf3, Hf2, Hf1. cbn [orb]. now rewrite orb_assoc.
  - repeat (apply Forall_app; split); assumption.
  - rewrite !List.filter_app, Hq1, Hq2, Hq3, !map_app. reflexivity.
Qed.

Lemma mark_up_lookup keys :
  forall (k : gmap Z bool) vk,
    mark_up keys k !! vk =
      if bool_decide (vk ∈ keys) then Some false else k !! vk.
Proof.
  unfold mark_up. induction keys as [|key rest IH]; intros k vk.
  - cbn. destruct (bool_decide_reflect (vk ∈ @nil Z)) as [H|_]; [|reflexivity].
    now apply elem_of_nil in H.
  - cbn [fold_left]. rewrite IH.
    destruct (bool_decide_reflect (vk ∈ rest)) as [Hin|Hout].
    + rewrite bool_decide_eq_true_2; [reflexivity|]. now apply elem_of_cons; right.
    + destruct (decide (vk = key)) as [->|Hne].
      * rewrite bool_decide_eq_true_2 by (apply elem_of_cons; now left).
        apply lookup_insert_eq.
      * rewrite bool_decide_eq_false_2.
        -- now apply lookup_insert_ne.
        -- intros H. apply elem_of_cons in H. destruct H; contradiction.
Qed.

(** X10. When [ToggleThread] enters its loop, the debounce map holds
    exactly the configured keys, each recorded as up; whatever the map held
    before is gone and no other key is present. *)
Theorem ToggleThread_starts_with_every_key_up :
  forall (data : ToggleData) (m : Machine) (vk : Z),
    has_keys data = true ->
    key_was_down (snd (ToggleThread (Some data) 0 m)) !! vk =
      if bool_decide (vk ∈ all_keys data) then Some false else None.
Proof.
  intros data m vk Hk.
  rewrite (ToggleThread_polls data 0 m Hk).
  cbn [poll_loop]. unfold bind, ret. cbn [snd key_was_down ToggleThread_setup loop_patch].
  rewrite !mark_up_lookup. unfold all_keys.
  destruct (bool_decide_reflect (vk ∈ tpv_keys data)) as [Hp|Hp];
    destruct (bool_decide_reflect (vk ∈ fpv_keys data)) as [Hf|Hf];
    destruct (bool_decide_reflect (vk ∈ toggle_keys data)) as [Ht|Ht].
  all: try (rewrite bool_decide_eq_true_2;
            [reflexivity|rewrite !elem_of_app; tauto]).
  rewrite bool_decide_eq_false_2; [apply lookup_empty|].
  rewrite !elem_of_app. tauto.
Qed.

(** F3 toggles, F4 forces third person; F5 is not configured. *)
Lemma ToggleThread_starts_with_every_key_up_witness :
  let m := active_machine (calm_env 0x04 (fun _ _ => 0)) 0x9000 0 in
  let data := {| toggle_keys := [0x72]; fpv_keys := []; tpv_keys := [0x73] |} in
  key_was_down (snd (ToggleThread (Some data) 0 m)) !! 0x73 =
    (if bool_decide (0x73 ∈ all_keys data) then Some false else None).
Proof.
  intros m data.
  apply (ToggleThread_starts_with_every_key_up data m 0x73).
  reflexivity.
Defined.

(** ** Waiting for the game module *)

Lemma wait_for_module_unfold n i :
  wait_for_module (S n) i =
    (let! game_module := GetModuleHandleA i in
     if game_module =? 0 then
       (if Nat.eqb i 0
        then log LOG_WARNING "Module not found yet, retrying..."
        else ret tt) ;;
       Sleep 1000 ;;
       wait_for_module n (S i)
     else ret game_module).
Proof. reflexivity. Qed.

Lemma wait_for_module_miss n i m :
  module_lookup (env m) i = 0 ->
  exists line,
    effects line = [] /\
    wait_for_module (S n) i m =
      wait_for_module n (S i)
        (patch (bytes m) (EvSleep 1000 :: line ++ [EvGetModuleHandle 0]) m).
Proof.
  intros H0. rewrite wait_for_module_unfold.
  unfold bind at 1. unfold GetModuleHandleA. rewrite H0. cbn [Z.eqb].
  destruct (Nat.eqb i 0).
  - exists [EvLog LOG_WARNING "Module not found yet, retrying..."].
    split; reflexivity.
  - exists []. split; reflexivity.
Qed.

Lemma wait_for_module_hit_run n :
  forall i k m,
    (k < n)%nat ->
    (forall j, (j < k)%nat -> module_lookup (env m) (i + j) = 0) ->
    module_lookup (env m) (i + k) <> 0 ->
    exists new,
      wait_for_module n i m =
        (Ret (module_lookup (env m) (i + k)), patch (bytes m) new m) /\
      effects (rev new) =
        concat (replicate k fruitless_attempt) ++
        [EvGetModuleHandle (module_lookup (env m) (i + k))].
Proof.
  induction n as [|n IH]; intros i k m Hk Hmiss Hhit; [lia|].
  destruct k as [|k].
  - rewrite Nat.add_0_r in *. apply Z.eqb_neq in Hhit.
    exists [EvGetModuleHandle (module_lookup (env m) i)].
    split; [|reflexivity].
    rewrite wait_for_module_unfold. unfold bind, GetModuleHandleA, ret.
    now rewrite Hhit.
  - assert (H0 : module_lookup (env m) i = 0).
    { specialize (Hmiss 0%nat). rewrite Nat.add_0_r in Hmiss. apply Hmiss. lia. }
    destruct (wait_for_module_miss n i m H0) as (line & Hline & Hstep).
    set (m1 := patch (bytes m) (EvSleep 1000 :: line ++ [EvGetModuleHandle 0]) m)
      in *.
    destruct (IH (S i) k m1) as (new & Hrun & Heff).
    + lia.
    + intros j Hj. change (env m1) with (env m).
      replace (S i + j)%nat with (i + S j)%nat by lia. apply Hmiss. lia.
    + change (env m1) with (env m).
      now replace (S i + k)%nat with (i + S k)%nat by lia.
    + change (env m1) with (env m) in Hrun, Heff.
      replace (S i + k)%nat with (i + S k)%nat in Hrun, Heff by lia.
      exists (new ++ EvSleep 1000 :: line ++ [EvGetModuleHandle 0]). split.
      * rewrite Hstep, Hrun. unfold m1, patch. cbn. do 2 f_equal.
        rewrite <- !app_assoc. cbn. now rewrite <- ?app_assoc.
      * rewrite rev_app_distr. unfold effects in *.
        rewrite List.filter_app, Heff. cbn [rev].
        rewrite rev_app_distr, !List.filter_app, !List.filter_rev, Hline.
        cbn. reflexivity.
Qed.

Lemma wait_for_module_timeout_run n :
  forall i m,
    (forall j, (j < n)%nat -> module_lookup (env m) (i + j) = 0) ->
    exists new,
      wait_for_module n i m = (Ret 0, patch (bytes m) new m) /\
      effects (rev new) = concat (replicate n fruitless_attempt).
Proof.
  induction n as [|n IH]; intros i m Hmiss.
  - exists []. split; [now destruct m|reflexivity].
  - assert (H0 : module_lookup (env m) i = 0).
    { specialize (Hmiss 0%nat). rewrite Nat.add_0_r in Hmiss. apply Hmiss. lia. }
    destruct (wait_for_module_miss n i m H0) as (line & Hline & Hstep).
    set (m1 := patch (bytes m) (EvSleep 1000 :: line ++ [EvGetModuleHandle 0]) m)
      in *.
    destruct (IH (S i) m1) as (new & Hrun & Heff).
    + intros j Hj. change (env m1) with (env m).
      replace (S i + j)%nat with (i + S j)%nat by lia. apply Hmiss. lia.
    + exists (new ++ EvSleep 1000 :: line ++ [EvGetModuleHandle 0]). split.
      * rewrite Hstep, Hrun. unfold m1, patch. cbn. do 2 f_equal.
        rewrite <- !app_assoc. cbn. now rewrite <- ?app_assoc.
      * rewrite rev_app_distr. unfold effects in *.
        rewrite List.filter_app, Heff. cbn [rev].
        rewrite rev_app_distr, !List.filter_app, !List.filter_rev, Hline.
        cbn. reflexivity.
Qed.

(** X11. The wait for the game module returns the first handle that is not
    null: if the module appears at attempt [k] of the [n] allowed, the wait
    has made [k] fruitless lookups, each followed by a one-second sleep,
    then the successful lookup, and nothing else. *)
Theorem wait_for_module_returns_first_handle :
  forall (n i k : nat) (m : Machine),
    (k < n)%nat ->
    (forall j, (j < k)%nat -> module_lookup (env m) (i + j) = 0) ->
    module_lookup (env m) (i + k) <> 0 ->
    fst (wait_for_module n i m) = Ret (module_lookup (env m) (i + k)) /\
    effects (events (wait_for_module n i) m) =
      concat (replicate k fruitless_attempt) ++
      [EvGetModuleHandle (module_lookup (env m) (i + k))].
Proof.
  intros n i k m Hk Hmiss Hhit.
  destruct (wait_for_module_hit_run n i k m Hk Hmiss Hhit) as (new & Hrun & Heff).
  now rewrite (events_of_patch _ _ _ _ _ Hrun), Hrun.
Qed.

(** X12. When every one of the [n] allowed lookups fails, the wait returns
    the null handle after exactly [n] lookups and [n] one-second sleeps: it
    also sleeps after the last failed attempt. *)
Theorem wait_for_module_gives_up_after_n_attempts :
  forall (n i : nat) (m : Machine),
    (forall j, (j < n)%nat -> module_lookup (env m) (i + j) = 0) ->
    fst (wait_for_module n i m) = Ret 0 /\
    effects (events (wait_for_module n i) m) =
      concat (replicate n fruitless_attempt).
Proof.
  intros n i m Hmiss.
  destruct (wait_for_module_timeout_run n i m Hmiss) as (new & Hrun & Heff).
  now rewrite (events_of_patch _ _ _ _ _ Hrun), Hrun.
Qed.

(** The module is found at the third attempt. *)
Lemma wait_for_module_returns_first_handle_witness :
  let m := fresh_machine late_module_env in
  fst (wait_for_module 30 0 m) = Ret 0x10000 /\
  effects (events (wait_for_module 30 0) m) =
    [EvGetModuleHandle 0; EvSleep 1000; EvGetModuleHandle 0; EvSleep 1000;
     EvGetModuleHandle 0x10000].
Proof.
  intros m.
  apply (wait_for_module_returns_first_handle 30 0 2 m).
  - lia.
  - intros j Hj. destruct j as [|[|j]]; [reflexivity|reflexivity|lia].
  - discriminate.
Defined.

(** The module never loads: three attempts allowed, three made. *)
Lemma wait_for_module_gives_up_after_n_attempts_witness :
  let m := fresh_machine absent_module_env in
  fst (wait_for_module 3 0 m) = Ret 0 /\
  effects (events (wait_for_module 3 0) m) =
    [EvGetModuleHandle 0; EvSleep 1000; EvGetModuleHandle 0; EvSleep 1000;
     EvGetModuleHandle 0; EvSleep 1000].
Proof.
  intros m.
  apply (wait_for_module_gives_up_after_n_attempts 3 0 m).
  intros j _. reflexivity.
Defined.

(** ** The order of the unwind *)

Ltac give_prefix m :=
  match goal with
  | |- exists new, (_, ?m0) = _ /\ _ =>
      let t := eval cbn in (trace m0) in
      let p := prefix_of t (trace m) in
      exists p
  end.

Lemma cleanup_hook_teardown m :
  exists new,
    cleanup_hook m =
      (Ret tt,
       unwinding (g_r9_for_tpv_flag m) (live m)
         (length (hook_teardown m) + mh_calls m) new m) /\
    List.filter is_teardown (rev new) = hook_teardown m.
Proof.
  unfold hook_teardown, disable_went_through.
  unfold cleanup_hook, MinHook, log, bind, ret, get, modify. cbn.
  destruct (negb (g_tpvHookAddress m =? 0) && negb (fpTPV_OriginalCode m =? 0));
    cbn.
  2:{ give_prefix m. split; reflexivity. }
  destruct (mh_status_eqb _ MH_OK || mh_status_eqb _ MH_ERROR_DISABLED); cbn.
  2:{ give_prefix m. split; reflexivity. }
  destruct (mh_status_eqb _ MH_OK); cbn.
  all: give_prefix m; split; reflexivity.
Qed.

Lemma cleanup_minhook_teardown m :
  exists new,
    cleanup_minhook m =
      (Ret tt,
       unwinding (g_r9_for_tpv_flag m) (live m)
         (length (minhook_teardown (mh_calls m) m) + mh_calls m) new m) /\
    List.filter is_teardown (rev new) = minhook_teardown (mh_calls m) m.
Proof.
  unfold minhook_teardown.
  unfold cleanup_minhook, MinHook, log, bind, ret, get, modify. cbn.
  destruct (negb (g_tpvHookAddress m =? 0)); cbn.
  2:{ exists []. split; [now destruct m|reflexivity]. }
  destruct (mh_status_eqb _ MH_OK || mh_status_eqb _ MH_ERROR_NOT_INITIALIZED);
    cbn.
  all: give_prefix m; split; reflexivity.
Qed.

Lemma cleanup_storage_teardown m :
  exists l new,
    cleanup_storage m = (Ret tt, unwinding 0 l (mh_calls m) new m) /\
    List.filter is_teardown (rev new) = storage_teardown m /\
    (g_r9_for_tpv_flag m = 0 -> l = live m) /\
    (g_r9_for_tpv_flag m <> 0 -> l = live m ∖ {[ g_r9_for_tpv_flag m ]}).
Proof.
  unfold storage_teardown.
  unfold cleanup_storage, VirtualFree, log, bind, ret, get, modify. cbn.
  destruct (g_r9_for_tpv_flag m =? 0) eqn:Hs; cbn.
  { apply Z.eqb_eq in Hs.
    exists (live m),
      [EvLog LOG_DEBUG "Cleanup: R9 storage already freed or not allocated."].
    split; [unfold unwinding, emit; now rewrite Hs|].
    repeat split; try contradiction. }
  apply Z.eqb_neq in Hs.
  destruct (bool_decide_reflect (g_r9_for_tpv_flag m ∈ live m)) as [Hin|Hout];
    cbn.
  - exists (live m ∖ {[ g_r9_for_tpv_flag m ]}),
      [EvVirtualFree (g_r9_for_tpv_flag m);
       EvLog LOG_DEBUG "Cleanup: Freeing R9 storage memory"].
    repeat split; try contradiction.
  - exists (live m),
      [EvLog LOG_ERROR "Cleanup: VirtualFree failed for R9 storage.";
       EvVirtualFree (g_r9_for_tpv_flag m);
       EvLog LOG_DEBUG "Cleanup: Freeing R9 storage memory"].
    repeat split; try contradiction.
    intros _. apply set_eq. intros x.
    rewrite elem_of_difference, elem_of_singleton. split.
    + intros Hx. split; [exact Hx|]. intros ->. contradiction.
    + now intros [Hx _].
Qed.

Lemma CleanupResources_teardown m :
  exists l new,
    CleanupResources m = (Ret tt, released l (calls_after_unwind m) new m) /\
    List.filter is_teardown (rev new) = expected_teardown m /\
    (g_r9_for_tpv_flag m = 0 -> l = live m) /\
    (g_r9_for_tpv_flag m <> 0 -> l = live m ∖ {[ g_r9_for_tpv_flag m ]}).
Proof.
  set (line0 := EvLog LOG_INFO "Cleanup: Starting resource cleanup...").
  set (line1 := EvLog LOG_INFO "Cleanup: Resource cleanup finished.").
  set (m0 := emit line0 m).
  destruct (cleanup_hook_teardown m0) as (new1 & Hrun1 & Ht1).
  set (m1 := unwinding (g_r9_for_tpv_flag m0) (live m0)
               (length (hook_teardown m0) + mh_calls m0) new1 m0) in *.
  destruct (cleanup_minhook_teardown m1) as (new2 & Hrun2 & Ht2).
  set (m2 := unwinding (g_r9_for_tpv_flag m1) (live m1)
               (length (minhook_teardown (mh_calls m1) m1) + mh_calls m1)
               new2 m1) in *.
  destruct (cleanup_storage_teardown m2) as (l & new3 & Hrun3 & Ht3 & Hl0 & Hl1).
  exists l, (line1 :: new3 ++ new2 ++ new1 ++ [line0]).
  split.
  { unfold CleanupResources.
    rewrite bind_log. fold line0. fold m0.
    rewrite (bind_returns _ _ _ _ _ Hrun1), (bind_returns _ _ _ _ _ Hrun2),
      (bind_returns _ _ _ _ _ Hrun3).
    unfold bind, modify, log, m2, m1, m0, released, unwinding. cbn.
    now rewrite <- !app_assoc. }
  split; [|split; [exact Hl0|exact Hl1]].
  cbn [rev]. rewrite !rev_app_distr, !List.filter_app, Ht1, Ht2, Ht3.
  cbn. rewrite app_nil_r. unfold expected_teardown. now rewrite <- app_assoc.
Qed.

(** X13. [CleanupResources] unwinds in a fixed order, whatever the hooking
    facility answers: disable the hook, remove it only if the disable
    returned [MH_OK] or [MH_ERROR_DISABLED], then uninitialize, then free
    the storage.  Disable and remove need both the hook address and the
    continuation; uninitialize needs the hook address only; the free needs
    the storage pointer only and is made even when every hooking call
    failed. *)
Theorem CleanupResources_unwinds_in_order :
  forall m : Machine,
    List.filter is_teardown (events CleanupResources m) = expected_teardown m /\
    mh_calls (snd (CleanupResources m)) = calls_after_unwind m /\
    (g_r9_for_tpv_flag m <> 0 ->
     live (snd (CleanupResources m)) = live m ∖ {[ g_r9_for_tpv_flag m ]}).
Proof.
  intros m.
  destruct (CleanupResources_teardown m) as (l & new & Hrun & Ht & _ & Hl).
  rewrite (events_of_extension _ m new) by now rewrite Hrun.
  rewrite Hrun. auto.
Qed.

(** The unwind of a process in which the mod holds its storage. *)
Lemma CleanupResources_unwinds_in_order_witness :
  let m := set_g_r9_for_tpv_flag 0x5000
             (set_live {[ 0x5000 ]} (loaded_machine enable_fails_env)) in
  List.filter is_teardown (events CleanupResources m) = expected_teardown m /\
  mh_calls (snd (CleanupResources m)) = calls_after_unwind m /\
  live (snd (CleanupResources m)) = live m ∖ {[ g_r9_for_tpv_flag m ]}.
Proof.
  intros m.
  destruct (CleanupResources_unwinds_in_order m) as (Ht & Hn & Hl).
  split; [exact Ht|]. split; [exact Hn|].
  apply Hl. discriminate.
Defined.

(** ** The stages of initialization *)

(** The end of an early failure path: no call into the hooking facility. *)
Ltac return_early Hh :=
  match goal with
  | |- exists r m', bind CleanupResources _ ?mk = _ /\ _ =>
      let l := fresh "l" in let newc := fresh "newc" in let Hc := fresh "Hc" in
      destruct (CleanupResources_teardown mk) as (l & newc & Hc & _);
      rewrite (bind_returns _ _ _ _ _ Hc); unfold ret;
      eexists _, _; split; [reflexivity|]; left; split; [reflexivity|];
      cbn; unfold calls_after_unwind, minhook_teardown, hook_teardown; cbn;
      rewrite Hh; reflexivity
  end.

(** The end of a failure path past the scan. *)
Ltac return_late Hfound :=
  match goal with
  | |- exists r m', bind CleanupResources _ ?mk = _ /\ _ =>
      let l := fresh "l" in let newc := fresh "newc" in let Hc := fresh "Hc" in
      destruct (CleanupResources_teardown mk) as (l & newc & Hc & _);
      rewrite (bind_returns _ _ _ _ _ Hc); unfold ret;
      eexists _, _; split; [reflexivity|]; right; left;
      split; [reflexivity|]; eexists; exact Hfound
  end.

Lemma mh_status_eqb_eq s t : mh_status_eqb s t = true -> s = t.
Proof. destruct s, t; cbn; congruence. Qed.

Ltac prefix_through t base :=
  lazymatch t with
  | base => constr:(@nil Event)
  | ?e :: ?r => let r' := prefix_through r base in constr:(e :: r')
  | ?l ++ ?r => let r' := prefix_through r base in constr:(l ++ r')
  end.

Lemma MainThread_stages m :
  pristine m ->
  exists r m',
    MainThread m = (Ret r, m') /\
    ((r = 1 /\ mh_calls m' = mh_calls m) \/
     (r = 1 /\ exists hook, scan_found m hook) \/
     (r = 0 /\
      exists new, trace m' = new ++ trace m /\ installed_by (rev new) m m')).
Proof.
  intros ((Hs & Hh & Ho) & Hlive).
  unfold MainThread. steps. rewrite bind_VirtualAlloc. cbn.
  destruct (alloc_result (env m) =? 0) eqn:Ha.
  { steps. unfold ret.
    eexists _, _. split; [reflexivity|]. left. split; reflexivity. }
  steps.
  match goal with
  | |- context [bind (wait_for_module 30 0) _ ?mk] =>
      destruct (wait_for_module_calls_nothing 30 0 mk)
        as (h & neww & Hw & Hwk & Hwt);
      rewrite (bind_returns _ _ _ _ _ Hw)
  end.
  cbv beta. destruct (h =? 0) eqn:Hfoundmod.
  { steps. return_early Hh. }
  steps. cbn [env emit patch].
  destruct (module_info (env m)) as [[lpBaseOfDll SizeOfImage]|] eqn:Hinfo.
  2:{ steps. return_early Hh. }
  steps. cbn [env emit patch].
  destruct (aob_parsed (env m)) as [|p0 pattern] eqn:Hpat.
  { steps. return_early Hh. }
  steps.
  destruct (FindPattern (bytes m) lpBaseOfDll SizeOfImage (p0 :: pattern))
    as [start|] eqn:Hfind.
  2:{ change (default 0 (@None Z)) with 0. steps. return_early Hh. }
  change (default 0 (Some start)) with start.
  destruct (start =? 0) eqn:Hstart.
  { steps. return_early Hh. }
  assert (Hfound : scan_found m (Win.wrap64 (start + Constants.HOOK_OFFSET))).
  { exists lpBaseOfDll, SizeOfImage, start. rewrite Hpat.
    split; [exact Hinfo|]. split; [discriminate|]. split; [exact Hfind|].
    split; [now apply Z.eqb_neq|reflexivity]. }
  steps.
  match goal with
  | |- context [negb (mh_status_eqb ?s MH_OK)] =>
      destruct (mh_status_eqb s MH_OK) eqn:Hinit; cbn [negb]
  end.
  2:{ steps. return_late Hfound. }
  steps. rewrite bind_MH_CreateHook. cbv zeta.
  match goal with
  | |- context [negb (mh_status_eqb ?s MH_OK)] =>
      destruct (mh_status_eqb s MH_OK) eqn:Hcreate; cbn [negb]
  end.
  2:{ steps. return_late Hfound. }
  steps. cbn [fpTPV_OriginalCode set_fpTPV_OriginalCode].
  match goal with
  | |- context [if ?t =? 0 then _ else _] => destruct (t =? 0) eqn:Hcont
  end.
  { steps. return_late Hfound. }
  steps.
  match goal with
  | |- context [negb (mh_status_eqb ?s MH_OK)] =>
      destruct (mh_status_eqb s MH_OK) eqn:Henable; cbn [negb]
  end.
  2:{ steps. return_late Hfound. }
  steps. rewrite bind_CreateThread. cbn.
  destruct (thread_ok (env m)) eqn:Hthread; cbn [negb].
  2:{ steps. return_late Hfound. }
  steps. unfold ret.
  eexists _, _. split; [reflexivity|]. right. right. split; [reflexivity|].
  apply Z.eqb_neq in Ha, Hcont.
  apply mh_status_eqb_eq in Hinit, Hcreate, Henable.
  cbn in Hinit, Hcreate, Henable.
  match goal with
  | |- exists new, trace ?m0 = _ /\ _ =>
      let t := eval cbn in (trace m0) in
      let p := prefix_through t (trace m) in
      exists p
  end.
  split; [cbn; now rewrite <- ?app_assoc|].
  unfold installed_by. rewrite !List.filter_rev.
  cbn [g_r9_for_tpv_flag fpTPV_OriginalCode g_tpvHookAddress cells live
       List.filter is_hooking_call is_thread_call].
  rewrite !List.filter_app, Hwk, Hwt.
  cbn. rewrite Z.eqb_refl, Hlive, Hinit, Hcreate, Henable.
  repeat (split; [first [assumption | reflexivity | apply union_empty_r_L]|]).
  reflexivity.
Qed.


(** X15. [MainThread] calls the hooking facility only after the scan found
    the pattern: if any call into it was made, the module information was
    obtained, the compiled pattern was not empty and [FindPattern] returned
    a non-null match. *)
Theorem MainThread_hooks_only_after_scan_hit :
  forall m : Machine,
    pristine m ->
    mh_calls (snd (MainThread m)) <> mh_calls m ->
    exists hook, scan_found m hook.
Proof.
  intros m Hm Hcalls.
  destruct (MainThread_stages m Hm) as (r & m1 & Hrun1 & Hcase).
  rewrite Hrun1 in Hcalls. cbn [snd] in Hcalls.
  destruct Hcase as [(_ & Hsame) | [(_ & Hfound) | (_ & Hinst)]].
  - contradiction.
  - exact Hfound.
  - destruct Hinst as (new & _ & _ & _ & _ & _ & Hfound & _).
    eexists. exact Hfound.
Qed.


(** Enabling the hook fails: three calls were made by then and two more
    undo them, and the pattern had been found. *)
Lemma MainThread_hooks_only_after_scan_hit_witness :
  let m := loaded_machine enable_fails_env in
  mh_calls (snd (MainThread m)) <> mh_calls m /\
  exists hook, scan_found m hook.
Proof.
  intros m.
  assert (Hm : pristine m) by (repeat split).
  assert (Hcalls : mh_calls (snd (MainThread m)) <> mh_calls m)
    by (vm_compute; discriminate).
  split; [exact Hcalls|].
  exact (MainThread_hooks_only_after_scan_hit m Hm Hcalls).
Defined.

(** X16. Initialization followed by the unwind of process detach holds
    nothing, however far initialization got: started on the freshly loaded
    process, [MainThread] and then [CleanupResources] both return, the
    three globals are null again and the captured-pointer storage is no
    longer held. *)
Theorem MainThread_then_CleanupResources_holds_nothing :
  forall m : Machine,
    pristine m ->
    exists m',
      MainThread_then_CleanupResources m = (Ret tt, m') /\
      globals_null m' /\
      live m' = ∅.
Proof.
  intros m Hm.
  destruct (MainThread_run m Hm) as (r & m1 & Hrun & Hr & _ & Hfail).
  destruct (CleanupResources_teardown m1) as (l & new & Hc & _ & Hl0 & Hl1).
  unfold MainThread_then_CleanupResources.
  rewrite (bind_returns _ _ _ _ _ Hrun), Hc.
  eexists. split; [reflexivity|]. split; [repeat split|].
  cbn [live released].
  destruct Hr as [-> | ->].
  - destruct (MainThread_stages m Hm) as (r' & m1' & Hrun' & Hcase).
    rewrite Hrun in Hrun'. injection Hrun' as <- <-.
    destruct Hcase as [(Hr0 & _) | [(Hr0 & _) | (_ & Hinst)]];
      [discriminate|discriminate|].
    destruct Hinst as (new' & _ & Hne & Hg & _ & Hlive & _).
    rewrite Hl1 by (rewrite Hg; exact Hne).
    rewrite Hlive, Hg. apply difference_diag_L.
  - destruct (Hfail ltac:(discriminate)) as ((Hg & _) & Hlive & _).
    rewrite Hl0 by exact Hg. exact Hlive.
Qed.

(** Everything succeeds, then the process detaches. *)
Lemma MainThread_then_CleanupResources_holds_nothing_witness :
  let m := loaded_machine late_module_env in
  exists m',
    MainThread_then_CleanupResources m = (Ret tt, m') /\
    globals_null m' /\
    live m' = ∅.
Proof.
  intros m.
  apply (MainThread_then_CleanupResources_holds_nothing m).
  repeat split.
Defined.

(** ** The page check, bit by bit *)

Lemma writable_mask_bits n :
  0 <= n ->
  Z.testbit writable_mask n =
    (n =? 2) || (n =? 3) || (n =? 6) || (n =? 7).
Proof.
  intros Hn. destruct (Z.ltb_spec n 8) as [Hlt | Hge].
  - assert (Hcase : n = 0 \/ n = 1 \/ n = 2 \/ n = 3 \/
                    n = 4 \/ n = 5 \/ n = 6 \/ n = 7) by lia.
    repeat destruct Hcase as [-> | Hcase]; try subst n; reflexivity.
  - rewrite Z.bits_above_log2; [|now vm_compute|].
    + repeat match goal with
             | |- context [n =? ?k] =>
                 destruct (Z.eqb_spec n k); [lia|]
             end.
      reflexivity.
    + change (Z.log2 writable_mask) with 7. lia.
Qed.

Lemma is_writable_bits mem_info :
  is_writable mem_info = has_writable_bit (mbi_Protect mem_info).
Proof.
  unfold is_writable, has_writable_bit.
  set (P := mbi_Protect mem_info).
  destruct (Z.eqb_spec (Z.land P writable_mask) 0) as [Hz | Hnz]; cbn [negb].
  - assert (Hbit : forall k, 0 <= k -> Z.testbit writable_mask k = true ->
                             Z.testbit P k = false).
    { intros k Hk Hm.
      assert (H := Z.land_spec P writable_mask k).
      rewrite Hz, Z.bits_0, Hm, andb_true_r in H. now symmetry. }
    rewrite !Hbit by (try lia; reflexivity). reflexivity.
  - destruct (_ || _ || _ || _) eqn:Hb; [reflexivity|].
    exfalso. apply Hnz. apply Z.bits_inj'. intros n Hn.
    rewrite Z.land_spec, Z.bits_0, writable_mask_bits by exact Hn.
    apply orb_false_elim in Hb as (Hb & H7).
    apply orb_false_elim in Hb as (Hb & H6).
    apply orb_false_elim in Hb as (H2 & H3).
    destruct (Z.eqb_spec n 2) as [-> | _]; [now rewrite H2|].
    destruct (Z.eqb_spec n 3) as [-> | _]; [now rewrite H3|].
    destruct (Z.eqb_spec n 6) as [-> | _]; [now rewrite H6|].
    destruct (Z.eqb_spec n 7) as [-> | _]; [now rewrite H7|].
    apply andb_false_r.
Qed.

Lemma existsb_is_access_effects evs :
  existsb is_access (effects evs) = existsb is_access evs.
Proof.
  unfold effects. induction evs as [|ev evs IH]; [reflexivity|].
  cbn [List.filter existsb].
  destruct ev; cbn; rewrite ?IH; reflexivity.
Qed.

(** X17. With the pointer captured and the page of the flag byte committed,
    [setViewState] goes on to access the flag byte exactly when bit 2, 3, 6
    or 7 of the page protection is set.  No other bit of the protection is
    looked at: a page that is also marked guard or no-cache passes the check
    as long as one of the four bits is set. *)
Theorem setViewState_page_check_sees_four_bits :
  forall (new_state : Z) (action_desc : string) (vk : Z) (m : Machine)
         (mem_info : MEMORY_BASIC_INFORMATION),
    g_r9_for_tpv_flag m <> 0 ->
    cells m (g_r9_for_tpv_flag m) <> 0 ->
    vquery (env m) (flag_address (cells m (g_r9_for_tpv_flag m))) =
      Some mem_info ->
    mbi_State mem_info = Win.MEM_COMMIT ->
    existsb is_access (events (setViewState new_state action_desc vk) m) =
      has_writable_bit (mbi_Protect mem_info).
Proof.
  intros new_state action_desc vk m mem_info Hp Hr Hq Hs.
  destruct (setViewState_run new_state action_desc vk m) as (new & Hrun & Heff).
  rewrite (events_of_patch _ _ _ _ _ Hrun).
  rewrite <- existsb_is_access_effects, Heff.
  unfold setViewState_outline.
  apply Z.eqb_neq in Hp, Hr. rewrite Hp, Hr, Hq, Hs, Z.eqb_refl.
  rewrite is_writable_bits. cbn [negb orb].
  destruct (has_writable_bit (mbi_Protect mem_info)); cbn [negb]; [|reflexivity].
  destruct (read_fault _ _); [reflexivity|].
  destruct (_ =? new_state); [reflexivity|].
  destruct (write_fault _ _); reflexivity.
Qed.

(** A committed page that is read-write and guarded: protection 0x104. *)
Lemma setViewState_page_check_sees_four_bits_witness :
  let m := active_machine (calm_env 0x104 (fun _ _ => 0)) 0x2000 0 in
  existsb is_access (events (setViewState 1 "Set TPV" 0x72) m) = true.
Proof.
  intros m.
  apply (setViewState_page_check_sees_four_bits 1 "Set TPV"%string 0x72 m
           (page 0x104)); (discriminate || reflexivity).
Defined.

(** ** The logger *)





(** X20. The level names [MainThread] accepts in the configuration are
    exactly the names [Logger::log] prints: each name is read back as its
    level, and every string that is not one of the four names, whatever its
    spelling or case, gives [LOG_INFO]. *)
Theorem MainThread_log_level_reads_back_level_str :
  (forall level : LogLevel,
      MainThread_log_level (Logger.level_str level) = level) /\
  (forall config_log_level : string,
      (forall level, config_log_level <> Logger.level_str level) ->
      MainThread_log_level config_log_level = LOG_INFO).
Proof.
  split.
  - intros level. now destruct level.
  - intros s Hs. unfold MainThread_log_level.
    destruct (String.eqb_spec s "DEBUG") as [Heq | _];
      [now contradiction (Hs LOG_DEBUG)|].
    destruct (String.eqb_spec s "INFO") as [_ | _]; [reflexivity|].
    destruct (String.eqb_spec s "WARNING") as [Heq | _];
      [now contradiction (Hs LOG_WARNING)|].
    destruct (String.eqb_spec s "ERROR") as [Heq | _];
      [now contradiction (Hs LOG_ERROR)|].
    reflexivity.
Qed.

(** A level name in lower case is not recognised. *)
Lemma MainThread_log_level_reads_back_level_str_witness :
  MainThread_log_level "debug" = LOG_INFO.
Proof.
  apply (proj2 MainThread_log_level_reads_back_level_str "debug"%string).
  intros level. destruct level; discriminate.
Defined.

(** ** C++ exceptions in the loop *)

Lemma try_catch_no_throw {A} (c : M A) (h : Exn -> M A) :
  (forall e, no_throw (h e)) -> no_throw (try_catch c h).
Proof.
  intros Hh m e. unfold try_catch.
  destruct (c m) as [[a|e'|] m1]; [discriminate|apply Hh|discriminate].
Qed.

Lemma poll_cycle_no_throw toggle_action fpv_action tpv_action tk fk pk :
  no_throw (poll_cycle toggle_action fpv_action tpv_action tk fk pk).
Proof.
  apply try_catch_no_throw. intros [what|] m e; discriminate.
Qed.

(** X21. Every C++ exception thrown inside a poll cycle is handled in that
    cycle, whatever the three callees are.  When the [try] block returns,
    the cycle returns in the same machine, having just slept 15 or 50 ms;
    when the block throws, the cycle returns all the same, after logging one
    error line and sleeping 1000 ms; when the block ends the process, no
    handler runs.  So no C++ exception leaves any number of cycles. *)
Theorem poll_cycle_handles_every_exception :
  (forall (toggle_action fpv_action tpv_action : Z -> M bool)
          (tk fk pk : list Z) (m : Machine),
      match poll_body toggle_action fpv_action tpv_action tk fk pk m with
      | (Ret _, m') =>
          poll_cycle toggle_action fpv_action tpv_action tk fk pk m
            = (Ret tt, m') /\
          exists ms rest,
            trace m' = EvSleep ms :: rest /\ (ms = 15 \/ ms = 50)
      | (Throw e, m') =>
          exists message,
            poll_cycle toggle_action fpv_action tpv_action tk fk pk m
              = (Ret tt, emit (EvSleep 1000) (emit (EvLog LOG_ERROR message) m'))
      | (Crash, m') =>
          poll_cycle toggle_action fpv_action tpv_action tk fk pk m
            = (Crash, m')
      end) /\
  (forall (toggle_action fpv_action tpv_action : Z -> M bool)
          (cycles : nat) (tk fk pk : list Z),
      no_throw (poll_loop toggle_action fpv_action tpv_action cycles tk fk pk)).
Proof.
  split.
  - intros toggle_action fpv_action tpv_action tk fk pk m.
    unfold poll_cycle, try_catch.
    destruct (poll_body toggle_action fpv_action tpv_action tk fk pk m)
      as [[[]|e|] m'] eqn:Hbody.
    + split; [reflexivity|].
      unfold poll_body, bind, Sleep, modify in Hbody.
      repeat match type of Hbody with
      | context [for_each_key ?k ?c ?l ?a ?m0] =>
          destruct (for_each_key k c l a m0) as [[?|?|] ?]
      end; try discriminate.
      injection Hbody as <-. cbn.
      eexists _, _. split; [reflexivity|].
      match goal with |- context [if ?b then _ else _] => destruct b end; auto.
    + destruct e as [what|]; eexists; reflexivity.
    + reflexivity.
  - intros toggle_action fpv_action tpv_action cycles tk fk pk.
    induction cycles as [|n IH]; intros m e; [discriminate|].
    cbn [poll_loop]. unfold bind.
    pose proof (poll_cycle_no_throw toggle_action fpv_action tpv_action
                  tk fk pk m) as Hcycle.
    destruct (poll_cycle toggle_action fpv_action tpv_action tk fk pk m)
      as [[[]|e'|] m1]; cbn [fst] in *; [apply IH| |discriminate].
    now contradiction (Hcycle e').
Qed.

(** A callee that throws costs the loop the rest of the cycle and a sleep
    of 1000 ms, nothing more. *)
Lemma poll_cycle_handles_every_exception_witness :
  let m := active_machine (calm_env 0x04 (fun _ _ => -32768)) 0x9000 0 in
  exists message,
    poll_cycle throwing_callee throwing_callee throwing_callee [0x72] [] [] m =
      (Ret tt,
       emit (EvSleep 1000)
         (emit (EvLog LOG_ERROR message)
            (snd (poll_body throwing_callee throwing_callee throwing_callee
                    [0x72] [] [] m)))).
Proof.
  intros m.
  pose proof (proj1 poll_cycle_handles_every_exception
                throwing_callee throwing_callee throwing_callee
                [0x72] [] [] m) as H.
  assert (Hbody : exists m',
             poll_body throwing_callee throwing_callee throwing_callee
               [0x72] [] [] m = (Throw (StdException "unexpected"), m'))
    by (eexists; vm_compute; reflexivity).
  destruct Hbody as (m' & Hbody). rewrite Hbody in H |- *. exact H.
Defined.
